(** * Trailing-stop and order-orchestration engine: model and properties

    A shallow embedding of [profit_trailing.py], [trade_manager.py],
    [order_manager.py], [signal_processor.py] and the watchdog of
    [binance_ws.py].

    Conventions of the embedding.
    - Python floats are idealised as exact rationals [Q]; comparisons of
      prices are [Qeq]/[Qle]/[Qlt].  NaN and infinities are not modelled.
      A number read from a document may be an integer of any size: [float]
      raises [OverflowError] on one that is out of the range of a double.
    - A dictionary read with [.get] is a record whose absent fields are
      [PNone]; fields that the code uses as strings ([symbol], [side],
      [status], [text]) are typed as strings, timestamps as integers, and
      the nested [info], [last_signal] and zone documents as records.
      Strings are ASCII ([lower], [strip]).
    - A method that mutates its object and may raise is a function from a
      state to a new state and a [result]; a raised exception keeps the
      mutations made before it, as in Python.
    - The exchange gateway, the clock, the uuid source and the live price
      cell are the outside world: an abstract type with the operations of
      class [Env].  Every request sent to the gateway is appended to a log,
      and so is every signal that the polling loop hands to [process_signal]. *)

From Stdlib Require Import QArith Qround Qabs ZArith String Ascii List Bool Lia Lqa.
From Stdlib Require Import Sorted.
From stdpp Require Import base option gmap strings.
Import ListNotations.

Local Open Scope Z_scope.
Local Open Scope Q_scope.

(** ** Python values and builtins *)

Inductive exn : Type :=
| TypeError | ValueError | ZeroDivisionError | AttributeError | OverflowError
| GatewayError (msg : string).

Inductive result (A : Type) : Type :=
| Ok (a : A)
| Raise (e : exn).
Arguments Ok {A} a.
Arguments Raise {A} e.

(** A JSON scalar as the code reads it: absent/None, a number, a string. *)
Inductive pyval : Type :=
| PNone
| PNum (q : Q)
| PStr (s : string).

(** Dictionary keys used for position and order ids. *)
Inductive pyid : Type :=
| IdNone
| IdInt (n : Z)
| IdStr (s : string).

#[global] Instance pyid_eq_dec : EqDecision pyid.
Proof. solve_decision. Defined.

Definition pyid_enc (k : pyid) : option (Z + string) :=
  match k with
  | IdNone => None
  | IdInt n => Some (inl n)
  | IdStr s => Some (inr s)
  end.

Definition pyid_dec (o : option (Z + string)) : pyid :=
  match o with
  | None => IdNone
  | Some (inl n) => IdInt n
  | Some (inr s) => IdStr s
  end.

#[global] Instance pyid_countable : Countable pyid.
Proof.
  apply (inj_countable' pyid_enc pyid_dec).
  intros []; reflexivity.
Defined.

Definition Qltb (a b : Q) : bool := negb (Qle_bool b a).

(** The least magnitude of an integer that [float] refuses: integers are
    rounded to the nearest double, and 2^1024 - 2^970 is the first that
    rounds past the largest one. *)
Definition float_limit : Q := inject_Z (2 ^ 1024 - 2 ^ 970).

(** Python truthiness, as used by [a or b]. *)
Definition truthy (v : pyval) : bool :=
  match v with
  | PNone => false
  | PNum q => negb (Qeq_bool q 0)
  | PStr s => negb (String.eqb s "")
  end.

Definition py_or (a b : pyval) : pyval := if truthy a then a else b.

(** [max(a, b)] and [min(a, b)] of two numbers: the first argument wins
    ties. *)
Definition py_max (a b : Q) : Q := if Qltb a b then b else a.
Definition py_min (a b : Q) : Q := if Qltb b a then b else a.

(** [int(x)] truncates toward zero. *)
Definition py_int (q : Q) : Z := Z.quot (Qnum q) (Zpos (Qden q)).

(** [round(x, 2)]: round half to even on the exact value. *)
Definition round_half_even (q : Q) : Z :=
  let f := Qfloor q in
  let r := q - inject_Z f in
  if Qltb r (1 # 2) then f
  else if Qltb (1 # 2) r then (f + 1)%Z
  else if Z.even f then f else (f + 1)%Z.

Definition round2 (q : Q) : Q := inject_Z (round_half_even (q * 100)) / 100.

Definition lower_ascii (c : ascii) : ascii :=
  let n := nat_of_ascii c in
  if ((65 <=? n)%nat && (n <=? 90)%nat)%bool then ascii_of_nat (n + 32) else c.

Fixpoint lower (s : string) : string :=
  match s with
  | EmptyString => EmptyString
  | String c r => String (lower_ascii c) (lower r)
  end.

(** [needle in hay] on strings. *)
Fixpoint contains (needle hay : string) : bool :=
  if String.prefix needle hay then true
  else match hay with
       | EmptyString => false
       | String _ r => contains needle r
       end.

(** A plain decimal literal: optional sign, digits with an optional
    fraction, at least one digit.  Used as the string parser of the concrete
    environment below. *)
Definition digit_of (c : ascii) : option Z :=
  let n := nat_of_ascii c in
  if ((48 <=? n)%nat && (n <=? 57)%nat)%bool then Some (Z.of_nat (n - 48)) else None.

Fixpoint parse_digits (s : string) (acc : Z) (scale : positive) (frac seen : bool)
  : option (Z * positive) :=
  match s with
  | EmptyString => if seen then Some (acc, scale) else None
  | String c r =>
      if (Ascii.eqb c "."%char && negb frac)%bool then parse_digits r acc scale true seen
      else match digit_of c with
           | Some d => parse_digits r (acc * 10 + d)%Z
                         (if frac then (scale * 10)%positive else scale) frac true
           | None => None
           end
  end.

Definition parse_decimal (s : string) : option Q :=
  match s with
  | EmptyString => None
  | String c r =>
      if Ascii.eqb c "-"%char then
        match parse_digits r 0 1 false false with
        | Some (n, d) => Some ((- n)%Z # d)
        | None => None
        end
      else
        match parse_digits (if Ascii.eqb c "+"%char then r else s) 0 1 false false with
        | Some (n, d) => Some (n # d)
        | None => None
        end
  end.

(** ** Documents exchanged with the gateway *)

(** A position as returned by [fetch_positions]; [info] is flattened. *)
Record position : Type := {
  pos_id : pyid;
  pos_entryPrice : pyval;
  pos_entry_price : pyval;
  pos_info_entry_price : pyval;
  pos_size : pyval;
  pos_contracts : pyval;
  pos_info_product_symbol : option string;
  pos_symbol : option string
}.

(** An open order as returned by [fetch_open_orders]; an absent [side] or
    [status] reads as the empty string ([order.get('side', '')]). *)
Record exch_order : Type := {
  eo_id : pyid;
  eo_side : string;
  eo_status : string
}.

(** Bracket parameters; prices are kept as numbers (the code sends
    [str(price)]). *)
Record bracket : Type := {
  br_stop_loss : Q;
  br_take_profit : option Q
}.

(** The signal document read from the signal bus.  [None] is an absent key;
    [sig_other_keys] tells whether the document has further keys (an empty
    document is falsy). *)
Record last_signal_doc : Type := {
  ls_text : option string;
  ls_price : pyval
}.

Record signal : Type := {
  sig_last_signal : option last_signal_doc;
  sig_supply_min : option pyval;
  sig_demand_min : option pyval;
  sig_other_keys : bool
}.

Inductive request : Type :=
| RqFetchPositions
| RqFetchOpenOrders (symbol : string)
| RqCreateOrder (symbol type side : string) (amount : Q) (price : option Q)
                (time_in_force : option string)
| RqCancelOrder (id : pyid) (symbol : string)
| RqModifyBracket (id : pyid) (product_id : Z) (symbol : string) (b : bracket).

(** The gateway's answer to [create_order]; [None] is an absent key. *)
Record order_resp : Type := {
  or_id : option pyid;
  or_status : option string;
  or_timestamp : option Z
}.

(** The gateway's answer to a bracket update. *)
Record bracket_resp : Type := {
  bk_state : option string;
  bk_created_at : option Z
}.

(** The outside world. *)
Class Env (G : Type) : Type := {
  float_of_str : string -> option Q;
  gw_fetch_positions : G -> G * result (list position);
  gw_fetch_open_orders : string -> G -> G * result (list exch_order);
  gw_create_order : string -> string -> string -> Q -> option Q -> option string ->
                    G -> G * result order_resp;
  gw_cancel_order : pyid -> string -> G -> G * result unit;
  gw_modify_bracket : pyid -> Z -> string -> bracket -> G -> G * result bracket_resp;
  clock : G -> Q;
  sleep : Q -> G -> G;
  uuid4 : G -> G * string;
  current_price : G -> option Q
}.

(** ** Local state of the objects *)

Inductive rule : Type := dynamic | fixed_stop | lock_50 | partial_booking.

#[global] Instance rule_eq_dec : EqDecision rule.
Proof. solve_decision. Defined.

(** A record of [OrderManager.orders]. *)
Record order_info : Type := {
  oi_id : pyid;
  oi_symbol : string;
  oi_side : string;
  oi_amount : option Q;
  oi_price : option Q;
  oi_time_in_force : option string;
  oi_bracket : option bracket;
  oi_status : string;
  oi_timestamp : Z
}.

Record order_manager : Type := {
  orders : gmap pyid order_info
}.

Record trade_manager : Type := {
  tm_order_manager : order_manager
}.

(** The dictionary compared against [last_display]. *)
Record display : Type := {
  d_entry : option Q;
  d_live : Q;
  d_profit : Q;
  d_usd : Q;
  d_rule : option rule;
  d_sl : Q
}.

(** [ProfitTrailing]; [position_max_profit] is [None] until the attribute
    is created by the first evaluation ([hasattr]). *)
Record profit_trailing : Type := {
  pt_trade_manager : trade_manager;
  position_trailing_stop : gmap pyid Q;
  position_max_profit : option (gmap pyid Q);
  last_had_positions : bool;
  last_position_fetch_time : Q;
  position_fetch_interval : Q;
  cached_positions : list position;
  last_display : gmap pyid display;
  check_interval : Q
}.

Definition set_trailing_stop (m : gmap pyid Q) (self : profit_trailing) : profit_trailing :=
  {| pt_trade_manager := pt_trade_manager self;
     position_trailing_stop := m;
     position_max_profit := position_max_profit self;
     last_had_positions := last_had_positions self;
     last_position_fetch_time := last_position_fetch_time self;
     position_fetch_interval := position_fetch_interval self;
     cached_positions := cached_positions self;
     last_display := last_display self;
     check_interval := check_interval self |}.

Definition set_max_profit (m : gmap pyid Q) (self : profit_trailing) : profit_trailing :=
  {| pt_trade_manager := pt_trade_manager self;
     position_trailing_stop := position_trailing_stop self;
     position_max_profit := Some m;
     last_had_positions := last_had_positions self;
     last_position_fetch_time := last_position_fetch_time self;
     position_fetch_interval := position_fetch_interval self;
     cached_positions := cached_positions self;
     last_display := last_display self;
     check_interval := check_interval self |}.

(** [ProfitTrailing.__init__]. *)
Definition new_profit_trailing (interval : Q) : profit_trailing :=
  {| pt_trade_manager := {| tm_order_manager := {| orders := ∅ |} |};
     position_trailing_stop := ∅;
     position_max_profit := None;
     last_had_positions := true;
     last_position_fetch_time := 0;
     position_fetch_interval := 5;
     cached_positions := [];
     last_display := ∅;
     check_interval := interval |}.

(** ** Effects: state passing with exceptions *)

(** A computation over a state [S]: the new state and a value or a raised
    exception. *)
Definition M (S A : Type) : Type := S -> S * result A.

Definition ret {S A} (a : A) : M S A := fun s => (s, Ok a).

Definition raise {S A} (e : exn) : M S A := fun s => (s, Raise e).

Definition bind {S A B} (m : M S A) (k : A -> M S B) : M S B :=
  fun s => let '(s1, r) := m s in
           match r with
           | Ok a => k a s1
           | Raise e => (s1, Raise e)
           end.

(** A pure step that may raise, and a read of the state. *)
Definition lift {S A} (r : result A) : M S A := fun s => (s, r).

Definition read {S A} (f : S -> A) : M S A := fun s => (s, Ok (f s)).

(** [try: m except Exception as e: handler e]. *)
Definition try_except {S A} (m : M S A) (handler : exn -> M S A) : M S A :=
  fun s => let '(s1, r) := m s in
           match r with
           | Ok a => (s1, Ok a)
           | Raise e => handler e s1
           end.

(** Run a computation on a component of the state. *)
Definition zoom {S T A} (get : S -> T) (set : T -> S -> S) (m : M T A) : M S A :=
  fun s => let '(t, r) := m (get s) in (set t s, r).

Notation "x <~ m ;; k" := (bind m (fun x => k))
  (at level 90, m at level 89, right associativity).
Notation "m ;;; k" := (bind m (fun _ => k))
  (at level 90, right associativity).

Section Engine.
Context {G : Type} `{Env G}.

(** [float(x)].  A number is a float already or an integer; an integer
    that rounds beyond the largest double raises [OverflowError]. *)
Definition py_float (v : pyval) : result Q :=
  match v with
  | PNone => Raise TypeError
  | PNum q => if Qltb (Qabs q) float_limit then Ok q else Raise OverflowError
  | PStr s => match float_of_str s with
              | Some q => Ok q
              | None => Raise ValueError
              end
  end.

(** [pos.get('entryPrice') or pos.get('entry_price') or
     pos.get('info', {}).get('entry_price')]. *)
Definition entry_field (pos : position) : pyval :=
  py_or (py_or (pos_entryPrice pos) (pos_entry_price pos)) (pos_info_entry_price pos).

(** [pos.get('size') or pos.get('contracts') or 0]. *)
Definition size_field (pos : position) : pyval :=
  py_or (py_or (pos_size pos) (pos_contracts pos)) (PNum 0).

(** [try: size = float(size) except Exception: size = 0.0]. *)
Definition parse_size (pos : position) : Q :=
  match py_float (size_field pos) with
  | Ok q => q
  | Raise _ => 0
  end.

(** *** [ProfitTrailing.update_trailing_stop]

    The returned triple is [None] for [(None, None, None)]. *)
Definition update_trailing_stop (self : profit_trailing) (pos : position) (live_price : Q)
  : profit_trailing * result (option (Q * Q * rule)) :=
  let order_id := pos_id pos in
  match py_float (entry_field pos) with
  | Raise _ => (self, Ok None)
  | Ok entry =>
      let size := parse_size pos in
      let current_profit :=
        if Qltb 0 size then live_price - entry else entry - live_price in
      let max_profit := default ∅ (position_max_profit self) in
      let prev_max := default 0 (max_profit !! order_id) in
      let new_max_profit := py_max prev_max current_profit in
      let self := set_max_profit (<[order_id := new_max_profit]> max_profit) self in
      if (Qltb 1000 new_max_profit && Qltb 0 current_profit)%bool then
        let lock_sl :=
          if Qltb 0 size then entry + new_max_profit / 2
          else entry - new_max_profit / 2 in
        let new_trailing :=
          match position_trailing_stop self !! order_id with
          | Some stored_trailing =>
              if Qltb 0 size then py_max stored_trailing lock_sl
              else py_min stored_trailing lock_sl
          | None => lock_sl
          end in
        let self :=
          set_trailing_stop (<[order_id := new_trailing]> (position_trailing_stop self)) self in
        if Qeq_bool entry 0 then (self, Raise ZeroDivisionError)
        else (self, Ok (Some (new_trailing, new_max_profit / entry, lock_50)))
      else
        let default_sl := if Qltb 0 size then entry - 500 else entry + 500 in
        let new_trailing :=
          match position_trailing_stop self !! order_id with
          | Some stored_trailing =>
              if Qltb 0 size then py_max stored_trailing default_sl
              else py_min stored_trailing default_sl
          | None => default_sl
          end in
        let self :=
          set_trailing_stop (<[order_id := new_trailing]> (position_trailing_stop self)) self in
        if Qeq_bool entry 0 then (self, Raise ZeroDivisionError)
        else (self, Ok (Some (new_trailing, current_profit / entry, fixed_stop)))
  end.

(** The gateway, the log of the requests sent to it, and the log of the
    signals handed to [process_signal]. *)
Record world : Type := {
  gw : G;
  sent : list request;
  handled : list signal
}.

Definition call {A} (rq : request) (f : G -> G * result A) : M world A :=
  fun w => let '(g, r) := f (gw w) in
           ({| gw := g; sent := sent w ++ [rq]; handled := handled w |}, r).

Definition pure_env {A} (f : G -> G * A) : M world A :=
  fun w => let '(g, a) := f (gw w) in
           ({| gw := g; sent := sent w; handled := handled w |}, Ok a).

(** [int(time.time() * 1000)]. *)
Definition now_ms : M world Z := read (fun w => py_int (clock (gw w) * 1000)).

Definition time_sleep (secs : Q) : M world unit :=
  fun w => ({| gw := sleep secs (gw w); sent := sent w; handled := handled w |}, Ok tt).

(** Ghost step: records that [process_signal] is called with [sg]. *)
Definition note_handled (sg : signal) : M world unit :=
  fun w => ({| gw := gw w; sent := sent w; handled := handled w ++ [sg] |}, Ok tt).

(** *** [DeltaExchangeClient]: every method logs and re-raises. *)

Definition fetch_positions : M world (list position) :=
  call RqFetchPositions gw_fetch_positions.

Definition fetch_open_orders (symbol : string) : M world (list exch_order) :=
  call (RqFetchOpenOrders symbol) (gw_fetch_open_orders symbol).

Definition create_order (symbol type side : string) (amount : Q) (price : option Q)
    (tif : option string) : M world order_resp :=
  call (RqCreateOrder symbol type side amount price tif)
       (gw_create_order symbol type side amount price tif).

Definition create_limit_order (symbol side : string) (amount price : Q)
    (tif : option string) : M world order_resp :=
  create_order symbol "limit" side amount (Some price) tif.

Definition client_cancel_order (id : pyid) (symbol : string) : M world unit :=
  call (RqCancelOrder id symbol) (gw_cancel_order id symbol).

Definition client_modify_bracket_order (id : pyid) (product_id : Z) (symbol : string)
    (b : bracket) : M world bracket_resp :=
  call (RqModifyBracket id product_id symbol b) (gw_modify_bracket id product_id symbol b).

(** [info.product_symbol or symbol or ''] on string fields. *)
Definition nonempty (o : option string) : bool :=
  match o with
  | Some s => negb (String.eqb s "")
  | None => false
  end.

Definition symbol_of (pos : position) : string :=
  if nonempty (pos_info_product_symbol pos) then default "" (pos_info_product_symbol pos)
  else if nonempty (pos_symbol pos) then default "" (pos_symbol pos)
  else "".

(** *** [OrderManager] *)

Definition om_world : Type := order_manager * world.

Definition in_world {S A} (m : M world A) : M (S * world) A :=
  zoom snd (fun w s => (fst s, w)) m.

Definition set_orders (m : gmap pyid order_info) : M om_world unit :=
  fun s => (({| orders := m |}, snd s), Ok tt).

Definition get_orders : M om_world (gmap pyid order_info) :=
  read (fun s => orders (fst s)).

Definition id_truthy (k : pyid) : bool :=
  match k with
  | IdNone => false
  | IdInt n => negb (n =? 0)%Z
  | IdStr s => negb (String.eqb s "")
  end.

(** [OrderManager.place_order]; [_store_order] only writes to the key-value
    store and swallows its own errors. *)
Definition place_order (symbol side : string) (amount price : Q) (tif : option string)
  : M om_world order_info :=
  order <~ in_world (create_limit_order symbol side amount price tif) ;;
  now <~ in_world now_ms ;;
  let order_id :=
    match or_id order with
    | Some k => if id_truthy k then k else IdInt now
    | None => IdInt now
    end in
  let info :=
    {| oi_id := order_id; oi_symbol := symbol; oi_side := side;
       oi_amount := Some amount; oi_price := Some price;
       oi_time_in_force := tif; oi_bracket := None;
       oi_status := default "open" (or_status order);
       oi_timestamp := default now (or_timestamp order) |} in
  os <~ get_orders ;;
  set_orders (<[order_id := info]> os) ;;;
  ret info.

(** [params.update(bracket_params)]. *)
Definition merge_bracket (old : option bracket) (new : bracket) : bracket :=
  {| br_stop_loss := br_stop_loss new;
     br_take_profit :=
       match br_take_profit new with
       | Some t => Some t
       | None => old ≫= br_take_profit
       end |}.

(** [OrderManager.attach_bracket_to_order]. *)
Definition attach_bracket_to_order (order_id : pyid) (product_id : Z)
    (product_symbol : string) (bracket_params : bracket) : M om_world order_info :=
  exchange_order <~ in_world
    (client_modify_bracket_order order_id product_id product_symbol bracket_params) ;;
  os <~ get_orders ;;
  match os !! order_id with
  | Some o =>
      let updated :=
        {| oi_id := oi_id o; oi_symbol := oi_symbol o; oi_side := oi_side o;
           oi_amount := oi_amount o; oi_price := oi_price o;
           oi_time_in_force := oi_time_in_force o;
           oi_bracket := Some (merge_bracket (oi_bracket o) bracket_params);
           oi_status := default (oi_status o) (bk_state exchange_order);
           oi_timestamp := oi_timestamp o |} in
      set_orders (<[order_id := updated]> os) ;;;
      ret updated
  | None =>
      now <~ in_world (read (fun w => py_int (clock (gw w) * 1000000))) ;;
      let updated :=
        {| oi_id := order_id; oi_symbol := product_symbol; oi_side := "";
           oi_amount := None; oi_price := None; oi_time_in_force := None;
           oi_bracket := Some bracket_params;
           oi_status := default "open" (bk_state exchange_order);
           oi_timestamp := default now (bk_created_at exchange_order) |} in
      set_orders (<[order_id := updated]> os) ;;;
      ret updated
  end.

(** *** [TradeManager] *)

Definition tm_world : Type := trade_manager * world.

Definition in_order_manager {A} (m : M om_world A) : M tm_world A :=
  zoom (fun s => (tm_order_manager (fst s), snd s))
       (fun t _ => ({| tm_order_manager := fst t |}, snd t)) m.

(** An open position of the requested side on [symbol]
    (the loop body of checks 1 and of the verification after placement). *)
Definition same_side_position (symbol side_lower : string) (pos : position) : bool :=
  contains symbol (symbol_of pos) &&
  ((String.eqb side_lower "buy" && Qltb 0 (parse_size pos)) ||
   (String.eqb side_lower "sell" && Qltb (parse_size pos) 0)).

Definition same_side_order (side_lower : string) (o : exch_order) : bool :=
  String.eqb (lower (eo_side o)) side_lower.

Definition is_stale (current_time : Z) (o : order_info) : bool :=
  (60000 <? current_time - oi_timestamp o)%Z.

Definition local_pending (side_lower : string) (o : order_info) : bool :=
  String.eqb (lower (oi_side o)) side_lower &&
  (String.eqb (oi_status o) "open" || String.eqb (oi_status o) "pending").

Definition map_values_any (f : order_info -> bool) (m : gmap pyid order_info) : bool :=
  existsb (fun kv => f (snd kv)) (map_to_list m).

(** Steps 1 to 4 of [place_market_order]: [true] when the call must return
    [None] without placing anything. *)
Definition pre_checks (symbol side_lower : string) : M tm_world bool :=
  blocked_by_position <~ in_world
    (try_except (positions <~ fetch_positions ;;
                 ret (existsb (same_side_position symbol side_lower) positions))
                (fun _ => ret false)) ;;
  if blocked_by_position : bool then ret true else
  blocked_by_order <~ in_world
    (try_except (open_orders <~ fetch_open_orders symbol ;;
                 ret (existsb (same_side_order side_lower) open_orders))
                (fun _ => ret false)) ;;
  if blocked_by_order : bool then ret true else
  current_time <~ in_world now_ms ;;
  os <~ in_order_manager get_orders ;;
  let fresh := filter (fun kv => is_stale current_time (snd kv) = false) os in
  in_order_manager (set_orders fresh) ;;;
  ret (map_values_any (local_pending side_lower) fresh).

(** Step 5 of [place_market_order]. *)
Definition submit_market_order (symbol side : string) (amount : Q) (tif : option string)
  : M tm_world order_info :=
  order <~ in_world (create_order symbol "market" side amount None tif) ;;
  uuid <~ in_world (pure_env uuid4) ;;
  now <~ in_world now_ms ;;
  let order_id := default (IdStr uuid) (or_id order) in
  let info :=
    {| oi_id := order_id; oi_symbol := symbol; oi_side := side;
       oi_amount := Some amount; oi_price := None;
       oi_time_in_force := tif; oi_bracket := None;
       oi_status := default "open" (or_status order);
       oi_timestamp := default now (or_timestamp order) |} in
  os <~ in_order_manager get_orders ;;
  in_order_manager (set_orders (<[order_id := info]> os)) ;;;
  in_world (time_sleep 1) ;;;
  positions_after <~ in_world fetch_positions ;;
  ret info.

(** [TradeManager.place_market_order]. *)
Definition place_market_order (symbol side : string) (amount : Q) (tif : option string)
    (force : bool) : M tm_world (option order_info) :=
  let side_lower := lower side in
  blocked <~ (if force then ret false else pre_checks symbol side_lower) ;;
  if blocked : bool then ret None
  else info <~ submit_market_order symbol side amount tif ;; ret (Some info).


(** *** [ProfitTrailing] *)

Definition pt_world : Type := profit_trailing * world.

Definition set_trade_manager (t : trade_manager) (self : profit_trailing) : profit_trailing :=
  {| pt_trade_manager := t;
     position_trailing_stop := position_trailing_stop self;
     position_max_profit := position_max_profit self;
     last_had_positions := last_had_positions self;
     last_position_fetch_time := last_position_fetch_time self;
     position_fetch_interval := position_fetch_interval self;
     cached_positions := cached_positions self;
     last_display := last_display self;
     check_interval := check_interval self |}.

Definition set_last_had_positions (b : bool) (self : profit_trailing) : profit_trailing :=
  {| pt_trade_manager := pt_trade_manager self;
     position_trailing_stop := position_trailing_stop self;
     position_max_profit := position_max_profit self;
     last_had_positions := b;
     last_position_fetch_time := last_position_fetch_time self;
     position_fetch_interval := position_fetch_interval self;
     cached_positions := cached_positions self;
     last_display := last_display self;
     check_interval := check_interval self |}.

Definition set_cache (ps : list position) (t : Q) (self : profit_trailing) : profit_trailing :=
  {| pt_trade_manager := pt_trade_manager self;
     position_trailing_stop := position_trailing_stop self;
     position_max_profit := position_max_profit self;
     last_had_positions := last_had_positions self;
     last_position_fetch_time := t;
     position_fetch_interval := position_fetch_interval self;
     cached_positions := ps;
     last_display := last_display self;
     check_interval := check_interval self |}.

Definition set_last_display (m : gmap pyid display) (self : profit_trailing) : profit_trailing :=
  {| pt_trade_manager := pt_trade_manager self;
     position_trailing_stop := position_trailing_stop self;
     position_max_profit := position_max_profit self;
     last_had_positions := last_had_positions self;
     last_position_fetch_time := last_position_fetch_time self;
     position_fetch_interval := position_fetch_interval self;
     cached_positions := cached_positions self;
     last_display := m;
     check_interval := check_interval self |}.

(** A pure update of the object. *)
Definition modify_self (f : profit_trailing -> profit_trailing) : M pt_world unit :=
  fun s => ((f (fst s), snd s), Ok tt).

Definition get_self : M pt_world profit_trailing := read fst.

Definition in_self {A} (m : profit_trailing -> profit_trailing * result A) : M pt_world A :=
  fun s => let '(self, r) := m (fst s) in ((self, snd s), r).

Definition in_trade_manager {A} (m : M tm_world A) : M pt_world A :=
  zoom (fun s => (pt_trade_manager (fst s), snd s))
       (fun t s => (set_trade_manager (fst t) (fst s), snd t)) m.

(** [ProfitTrailing.fetch_open_positions]. *)
Definition is_open_btc (pos : position) : bool :=
  negb (Qeq_bool (parse_size pos) 0) && contains "BTCUSD" (symbol_of pos).

Definition fetch_open_positions : M world (list position) :=
  try_except (positions <~ fetch_positions ;; ret (List.filter is_open_btc positions))
             (fun _ => ret []).

(** [ProfitTrailing.compute_profit_pct]. *)
Definition compute_profit_pct (pos : position) (live_price : Q) : result (option Q) :=
  match py_float (entry_field pos) with
  | Raise _ => Ok None
  | Ok entry =>
      if Qeq_bool entry 0 then Raise ZeroDivisionError
      else if Qltb 0 (parse_size pos) then Ok (Some ((live_price - entry) / entry))
      else Ok (Some ((entry - live_price) / entry))
  end.

(** [ProfitTrailing.compute_raw_profit]. *)
Definition compute_raw_profit (pos : position) (live_price : Q) : option Q :=
  match py_float (entry_field pos) with
  | Raise _ => None
  | Ok entry =>
      let size := parse_size pos in
      if Qltb 0 size then Some ((live_price - entry) * size)
      else Some ((entry - live_price) * Qabs size)
  end.

(** [ProfitTrailing.book_profit]. *)
Definition book_profit (pos : position) (live_price : Q) : M pt_world bool :=
  let order_id := pos_id pos in
  let size := parse_size pos in
  r <~ in_self (fun self => update_trailing_stop self pos live_price) ;;
  match r with
  | Some (trailing_stop, _, (dynamic | fixed_stop | lock_50)) =>
      if Qltb 0 size && Qltb live_price trailing_stop then
        in_trade_manager
          (place_market_order "BTCUSD" "sell" size (Some "ioc"%string) true) ;;;
        ret true
      else if Qltb size 0 && Qltb trailing_stop live_price then
        in_trade_manager
          (place_market_order "BTCUSD" "buy" (Qabs size) (Some "ioc"%string) true) ;;;
        ret true
      else ret false
  | Some (trailing_stop, _, partial_booking) =>
      try_except
        (in_trade_manager (in_order_manager
           (attach_bracket_to_order order_id 27 "BTCUSD"
              {| br_stop_loss := trailing_stop; br_take_profit := None |})) ;;;
         ret tt)
        (fun _ => ret tt) ;;;
      ret false
  | None => ret false
  end.

Definition display_eqb (a b : display) : bool :=
  match d_entry a, d_entry b with
  | Some x, Some y => Qeq_bool x y
  | None, None => true
  | _, _ => false
  end &&
  Qeq_bool (d_live a) (d_live b) && Qeq_bool (d_profit a) (d_profit b) &&
  Qeq_bool (d_usd a) (d_usd b) &&
  bool_decide (d_rule a = d_rule b) && Qeq_bool (d_sl a) (d_sl b).

(** The f-string of the log line: [format(None, '.1f')] raises. *)
Definition format_log_line (entry_val profit_display profit_usd trailing_stop : option Q)
  : result unit :=
  match entry_val, profit_display, profit_usd, trailing_stop with
  | Some _, Some _, Some _, Some _ => Ok tt
  | _, _, _, _ => Raise TypeError
  end.

(** The body of [for pos in open_positions] in [track]. *)
Definition track_position (live_price : Q) (pos : position) : M pt_world unit :=
  let order_id := pos_id pos in
  let size := parse_size pos in
  if Qeq_bool size 0 then ret tt else
  let entry_val :=
    match py_float (entry_field pos) with Ok e => Some e | Raise _ => None end in
  profit_pct <~ lift (compute_profit_pct pos live_price) ;;
  let profit_display := (fun p => p * 100) <$> profit_pct in
  let raw_profit := compute_raw_profit pos live_price in
  let profit_usd := (fun p => p / 1000) <$> raw_profit in
  r <~ in_self (fun self => update_trailing_stop self pos live_price) ;;
  let trailing_stop := (fun t => fst (fst t)) <$> r in
  let rule := snd <$> r in
  let disp :=
    {| d_entry := entry_val; d_live := live_price;
       d_profit := round2 (default 0 profit_display);
       d_usd := round2 (default 0 profit_usd);
       d_rule := rule;
       d_sl := round2 (default 0 trailing_stop) |} in
  self <~ get_self ;;
  (if match last_display self !! order_id with
      | Some d => negb (display_eqb d disp)
      | None => true
      end
   then
     lift (format_log_line entry_val profit_display profit_usd trailing_stop) ;;;
     modify_self (fun self => set_last_display (<[order_id := disp]> (last_display self)) self)
   else ret tt) ;;;
  book_profit pos live_price ;;;
  ret tt.

(** [for x in xs: body x]: an exception leaves the loop. *)
Fixpoint for_each {S A} (body : A -> M S unit) (xs : list A) : M S unit :=
  match xs with
  | [] => ret tt
  | x :: rest => body x ;;; for_each body rest
  end.

(** One pass of the [while True] loop of [track]. *)
Definition track_iteration : M pt_world unit :=
  self <~ get_self ;;
  current_time <~ in_world (read (fun w => clock (gw w))) ;;
  (if Qle_bool (position_fetch_interval self)
               (current_time - last_position_fetch_time self)
   then
     ps <~ in_world fetch_open_positions ;;
     modify_self (set_cache ps current_time) ;;;
     match ps with
     | [] => modify_self (set_trailing_stop ∅)
     | _ => ret tt
     end
   else ret tt) ;;;
  live <~ in_world (read (fun w => current_price (gw w))) ;;
  match live with
  | None => ret tt
  | Some live_price =>
      self <~ get_self ;;
      match cached_positions self with
      | [] =>
          (if last_had_positions self
           then modify_self (set_last_had_positions false) else ret tt) ;;;
          modify_self (set_trailing_stop ∅) ;;;
          in_world (time_sleep (check_interval self))
      | open_positions =>
          (if last_had_positions self
           then ret tt else modify_self (set_last_had_positions true)) ;;;
          for_each (track_position live_price) open_positions ;;;
          in_world (time_sleep (check_interval self))
      end
  end.


(** *** [SignalProcessor]

    The processor owns an [OrderManager] and a [TradeManager] (which has an
    order manager of its own). *)
Record signal_processor : Type := {
  sp_order_manager : order_manager;
  sp_trade_manager : trade_manager;
  last_signal : option signal
}.

Definition sp_world : Type := signal_processor * world.

Definition sp_in_order_manager {A} (m : M om_world A) : M sp_world A :=
  zoom (fun s => (sp_order_manager (fst s), snd s))
       (fun t s => ({| sp_order_manager := fst t;
                       sp_trade_manager := sp_trade_manager (fst s);
                       last_signal := last_signal (fst s) |}, snd t)) m.

Definition sp_in_trade_manager {A} (m : M tm_world A) : M sp_world A :=
  zoom (fun s => (sp_trade_manager (fst s), snd s))
       (fun t s => ({| sp_order_manager := sp_order_manager (fst s);
                       sp_trade_manager := fst t;
                       last_signal := last_signal (fst s) |}, snd t)) m.

Definition set_last_signal (sg : signal) : M sp_world unit :=
  fun s => (({| sp_order_manager := sp_order_manager (fst s);
                sp_trade_manager := sp_trade_manager (fst s);
                last_signal := Some sg |}, snd s), Ok tt).

(** Truthiness of the signal document. *)
Definition sig_truthy (sg : signal) : bool :=
  match sig_last_signal sg, sig_supply_min sg, sig_demand_min sg with
  | None, None, None => sig_other_keys sg
  | _, _, _ => true
  end.

(** [signal_data.get("last_signal", {}).get("text")]. *)
Definition sig_text (sg : signal) : option string := sig_last_signal sg ≫= ls_text.

Definition is_space (c : ascii) : bool :=
  let n := nat_of_ascii c in
  ((n =? 32) || ((9 <=? n) && (n <=? 13)) || ((28 <=? n) && (n <=? 31)))%nat.

Fixpoint all_space (s : string) : bool :=
  match s with
  | EmptyString => true
  | String c r => is_space c && all_space r
  end.

(** [raw_price is None or str(raw_price).strip() == ""]. *)
Definition price_missing (v : pyval) : bool :=
  match v with
  | PNone => true
  | PNum _ => false
  | PStr s => all_space s
  end.

Definition is_open (o : exch_order) : bool := String.eqb (lower (eo_status o)) "open".

(** [SignalProcessor.cancel_conflicting_orders]; with [new_side = None] the
    call [new_side.lower()] raises at the first open order and the outer
    handler ends the method. *)
Definition cancel_conflicting_orders (symbol : string) (new_side : option string)
  : M world unit :=
  try_except
    (os <~ fetch_open_orders symbol ;;
     for_each (fun order =>
       if negb (is_open order) then ret tt else
       match new_side with
       | None => raise AttributeError
       | Some side =>
           if String.eqb side "" || negb (String.eqb (lower (eo_side order)) (lower side))
           then try_except (client_cancel_order (eo_id order) symbol) (fun _ => ret tt)
           else ret tt
       end) os)
    (fun _ => ret tt).

(** [SignalProcessor.cancel_same_side_orders]. *)
Definition cancel_same_side_orders (symbol : string) (side : option string)
  : M world unit :=
  try_except
    (os <~ fetch_open_orders symbol ;;
     for_each (fun order =>
       match side with
       | None => raise AttributeError
       | Some sd =>
           if String.eqb (lower (eo_side order)) (lower sd) && is_open order
           then try_except (client_cancel_order (eo_id order) symbol) (fun _ => ret tt)
           else ret tt
       end) os)
    (fun _ => ret tt).

(** [SignalProcessor.open_pending_order_exists]. *)
Definition open_pending_order_exists (symbol side : string) : M world bool :=
  try_except
    (os <~ fetch_open_orders symbol ;;
     ret (existsb (fun order =>
            String.eqb (lower (eo_side order)) (lower side) && is_open order) os))
    (fun _ => ret false).

(** The take-profit branch of [process_signal] (lines 100-146). *)
Definition take_profit_close (live_price : Q) (pos : position) : M sp_world unit :=
  if negb (contains "BTCUSD" (symbol_of pos)) then ret tt else
  match py_float (entry_field pos) with
  | Raise _ => ret tt
  | Ok entry =>
      let size := parse_size pos in
      if Qeq_bool size 0 then ret tt
      else if Qeq_bool entry 0 then raise ZeroDivisionError
      else if Qltb 0 size then
        if Qltb ((live_price - entry) / entry) 0 then
          sp_in_trade_manager
            (place_market_order "BTCUSD" "sell" size (Some "ioc"%string) true) ;;;
          ret tt
        else ret tt
      else if Qltb size 0 then
        if Qltb ((entry - live_price) / entry) 0 then
          sp_in_trade_manager
            (place_market_order "BTCUSD" "buy" (Qabs size) (Some "ioc"%string) true) ;;;
          ret tt
        else ret tt
      else ret tt
  end.

(** Forced closure of opposite positions (lines 156-180); here [float] of
    the size is not guarded, its error ends the loop. *)
Definition close_opposite (new_side : option string) (pos : position) : M sp_world unit :=
  if negb (contains "BTCUSD" (symbol_of pos)) then ret tt else
  match py_float (size_field pos) with
  | Raise e => raise e
  | Ok pos_size =>
      if bool_decide (new_side = Some "buy"%string) && Qltb pos_size 0 then
        sp_in_trade_manager
          (place_market_order "BTCUSD" "buy" (Qabs pos_size) (Some "ioc"%string) true) ;;;
        in_world (time_sleep 2)
      else if bool_decide (new_side = Some "sell"%string) && Qltb 0 pos_size then
        sp_in_trade_manager
          (place_market_order "BTCUSD" "sell" pos_size (Some "ioc"%string) true) ;;;
        in_world (time_sleep 2)
      else ret tt
  end.

(** [process_signal] up to and including the duplicate-guard (lines 77-190).
    [None]: the method has returned [None]; [Some (new_side, raw_price)]:
    control reaches the check of the required fields. *)
Definition before_entry (signal_data : signal)
  : M sp_world (option (option string * pyval)) :=
  if negb (sig_truthy signal_data) then ret None else
  let signal_text := lower (default "" (sig_text signal_data)) in
  let raw_price := default PNone (ls_price <$> sig_last_signal signal_data) in
  live0 <~ in_world (read (fun w => current_price (gw w))) ;;
  match (if price_missing raw_price then PNum <$> live0 else Some raw_price) with
  | None => ret None
  | Some raw_price =>
      if contains "take profit" signal_text || contains "tp" signal_text then
        live <~ in_world (read (fun w => current_price (gw w))) ;;
        match live with
        | None => ret None
        | Some live_price =>
            try_except
              (positions <~ in_world fetch_positions ;;
               for_each (take_profit_close live_price) positions)
              (fun _ => ret tt) ;;;
            ret None
        end
      else
        let new_side :=
          if contains "short" signal_text then Some "sell"%string
          else if contains "buy" signal_text then Some "buy"%string
          else None in
        try_except
          (positions <~ in_world fetch_positions ;;
           for_each (close_opposite new_side) positions)
          (fun _ => ret tt) ;;;
        in_world (cancel_conflicting_orders "BTCUSD" new_side) ;;;
        in_world (cancel_same_side_orders "BTCUSD" new_side) ;;;
        in_world (time_sleep 2) ;;;
        exists_pending <~
          match new_side with
          | Some side => in_world (open_pending_order_exists "BTCUSD" side)
          | None => ret false
          end ;;
        if exists_pending : bool then ret None
        else ret (Some (new_side, raw_price))
  end.

(** Placement of the limit order and of its bracket (lines 213-241). *)
Definition submit_entry (side : string) (entry_price sl_price tp_price : Q)
  : M sp_world (option order_info) :=
  placed <~ try_except
    (o <~ sp_in_order_manager
            (place_order "BTCUSD" side 1 entry_price (Some "gtc"%string)) ;;
     ret (Some o))
    (fun _ => ret None) ;;
  match placed with
  | None => ret None
  | Some limit_order =>
      try_except
        (u <~ sp_in_order_manager
                (attach_bracket_to_order (oi_id limit_order) 27 "BTCUSD"
                   {| br_stop_loss := sl_price; br_take_profit := Some tp_price |}) ;;
         ret (Some u))
        (fun _ => ret None)
  end.

(** [process_signal] from the check of the required fields to the end
    (lines 192-241); [float(raw_price)] is not guarded. *)
Definition place_entry (new_side : option string) (raw_price raw_supply raw_demand : pyval)
  : M sp_world (option order_info) :=
  match raw_supply, raw_demand with
  | PNone, _ | _, PNone => ret None
  | _, _ =>
      if bool_decide (new_side = Some "buy"%string) then
        price <~ lift (py_float raw_price) ;;
        submit_entry "buy" (price - 50) (price - 500) (price + 3000)
      else if bool_decide (new_side = Some "sell"%string) then
        price <~ lift (py_float raw_price) ;;
        submit_entry "sell" (price + 50) (price + 500) (price - 3000)
      else ret None
  end.

(** [SignalProcessor.process_signal]. *)
Definition process_signal (signal_data : signal) : M sp_world (option order_info) :=
  pre <~ before_entry signal_data ;;
  match pre with
  | None => ret None
  | Some (new_side, raw_price) =>
      place_entry new_side raw_price
        (default PNone (sig_supply_min signal_data))
        (default PNone (sig_demand_min signal_data))
  end.

(** [SignalProcessor.signals_are_different]. *)
Definition signals_are_different (new_signal : signal) (old_signal : option signal) : bool :=
  match old_signal with
  | None => true
  | Some old =>
      if negb (sig_truthy old) then true
      else negb (bool_decide (sig_text new_signal = sig_text old))
  end.

(** One pass of the loop of [process_signals_loop]; [fetched] is the value
    returned by [fetch_signal] ([None] when the key is empty or the read
    failed).  Returns whether the signal was processed. *)
Definition process_signals_iteration (fetched : option signal) (sleep_interval : Q)
  : M sp_world bool :=
  self <~ read fst ;;
  match fetched with
  | Some signal_data =>
      if sig_truthy signal_data && signals_are_different signal_data (last_signal self)
      then
        in_world (note_handled signal_data) ;;;
        processed <~ process_signal signal_data ;;
        set_last_signal signal_data ;;;
        in_world (time_sleep sleep_interval) ;;;
        ret true
      else in_world (time_sleep sleep_interval) ;;; ret false
  | None => in_world (time_sleep sleep_interval) ;;; ret false
  end.

(** The loop run over a finite prefix of the values read from the bus. *)
Fixpoint process_signals_loop (reads : list (option signal)) (sleep_interval : Q)
  : M sp_world unit :=
  match reads with
  | [] => ret tt
  | fetched :: rest =>
      process_signals_iteration fetched sleep_interval ;;;
      process_signals_loop rest sleep_interval
  end.


(** *** The price feed of [binance_ws] and its watchdog *)

(** A decoded stream message; [None] is an absent key. *)
Record message : Type := {
  msg_p : option pyval;
  msg_q : option pyval;
  msg_m : option bool
}.

(** The module globals [current_price] and [last_update_time]. *)
Record feed : Type := {
  fd_current_price : option Q;
  last_update_time : Q
}.

Definition new_feed : feed := {| fd_current_price := None; last_update_time := 0 |}.

(** [on_message], run at time [now]. *)
Definition on_message (now : Q) (msg : message) (fd : feed) : feed :=
  match msg_p msg, msg_q msg, msg_m msg with
  | Some p, Some q, Some _ =>
      match py_float p, py_float q with
      | Ok price, Ok _ => {| fd_current_price := Some price; last_update_time := now |}
      | _, _ => fd
      end
  | _, _, _ => fd
  end.

Inductive ws_action : Type :=
| WsClose            (* [ws_app.close()], errors swallowed *)
| WsStartThread.     (* [threading.Thread(target=start_websocket).start()] *)

(** The check made by [monitor_websocket] after each [time.sleep(1)]. *)
Definition monitor_check (now : Q) (fd : feed) : list ws_action :=
  if Qltb 3 (now - last_update_time fd) then [WsClose; WsStartThread] else [].

(** [monitor_websocket] over a finite prefix of its run.  Each element of
    [schedule] lists the messages (with their arrival times) handled by the
    stream thread while the watchdog sleeps for one second; the result has
    the actions of each pass. *)
Fixpoint monitor_websocket (schedule : list (list (Q * message))) (now : Q) (fd : feed)
  : feed * list (list ws_action) :=
  match schedule with
  | [] => (fd, [])
  | arrivals :: rest =>
      let now := now + 1 in
      let fd := fold_left (fun f tm => on_message (fst tm) (snd tm) f) arrivals fd in
      let acts := monitor_check now fd in
      let '(fd', later) := monitor_websocket rest now fd in
      (fd', acts :: later)
  end.

(** Number of reconnects (threads started) in a run. *)
Definition reconnects (run : list (list ws_action)) : nat :=
  length (List.filter (fun a => match a with WsStartThread => true | _ => false end)
                      (concat run)).


(** *** Further methods of [OrderManager] *)

Definition with_status (status : string) (o : order_info) : order_info :=
  {| oi_id := oi_id o; oi_symbol := oi_symbol o; oi_side := oi_side o;
     oi_amount := oi_amount o; oi_price := oi_price o;
     oi_time_in_force := oi_time_in_force o; oi_bracket := oi_bracket o;
     oi_status := status; oi_timestamp := oi_timestamp o |}.

(** [OrderManager.cancel_order]; the record keeps its symbol in one field
    ([symbol] or [product_symbol]). *)
Definition cancel_order (order_id : pyid) : M om_world unit :=
  os <~ get_orders ;;
  match os !! order_id with
  | None => raise ValueError
  | Some order =>
      in_world (client_cancel_order order_id (oi_symbol order)) ;;;
      set_orders (<[order_id := with_status "canceled" order]> os) ;;;
      ret tt
  end.


(** [OrderManager.has_open_position]; it uses only the client. *)
Definition has_open_position (symbol side : string) : M world bool :=
  try_except
    (positions <~ fetch_positions ;;
     ret (existsb (same_side_position symbol (lower side)) positions))
    (fun _ => ret false).


(** *** The configured profit levels *)

(** An entry of [config.PROFIT_TRAILING_CONFIG["levels"]]. *)
Record level : Type := {
  min_profit_pct : Q;
  trailing_stop_offset : option Q;
  book_fraction : Q
}.

Record trailing_config : Type := {
  start_trailing_profit_pct : Q;
  levels : list level;
  fixed_stop_loss_pct : Q;
  trailing_unit : string
}.

(** [config.PROFIT_TRAILING_CONFIG]. *)
Definition PROFIT_TRAILING_CONFIG : trailing_config :=
  {| start_trailing_profit_pct := 5 # 1000;
     levels :=
       [ {| min_profit_pct := 5 # 1000; trailing_stop_offset := Some (1 # 1000);
            book_fraction := 1 |};
         {| min_profit_pct := 1 # 100; trailing_stop_offset := Some (6 # 1000);
            book_fraction := 1 |};
         {| min_profit_pct := 15 # 1000; trailing_stop_offset := Some (12 # 1000);
            book_fraction := 1 |};
         {| min_profit_pct := 2 # 100; trailing_stop_offset := None;
            book_fraction := 9 # 10 |} ];
     fixed_stop_loss_pct := 5 # 1000;
     trailing_unit := "percent" |}.

(** [ProfitTrailing.get_trailing_config]. *)
Definition get_trailing_config (profit_pct : Q) : option level :=
  let conf := PROFIT_TRAILING_CONFIG in
  if Qltb profit_pct (start_trailing_profit_pct conf) then None
  else
    fold_left
      (fun applicable level =>
         if Qle_bool (min_profit_pct level) profit_pct then Some level else applicable)
      (levels conf) None.

End Engine.

(** ** A concrete environment

    A gateway with a fixed book, used to run the model on examples. *)
Record sim : Type := {
  sim_positions : list position;
  sim_open_orders : list exch_order;
  sim_accept : bool;
  sim_now : Q;
  sim_price : option Q
}.

#[global] Instance sim_env : Env sim := {|
  float_of_str := parse_decimal;
  gw_fetch_positions g := (g, Ok (sim_positions g));
  gw_fetch_open_orders _ g := (g, Ok (sim_open_orders g));
  gw_create_order _ _ _ _ _ _ g :=
    (g, if sim_accept g
        then Ok {| or_id := Some (IdStr "o-1"); or_status := Some "open"%string;
                   or_timestamp := None |}
        else Raise (GatewayError "rejected"));
  gw_cancel_order _ _ g := (g, Ok tt);
  gw_modify_bracket _ _ _ _ g :=
    (g, Ok {| bk_state := Some "open"%string; bk_created_at := None |});
  clock := sim_now;
  sleep d g := {| sim_positions := sim_positions g; sim_open_orders := sim_open_orders g;
                  sim_accept := sim_accept g; sim_now := sim_now g + d;
                  sim_price := sim_price g |};
  uuid4 g := (g, "uuid"%string);
  current_price := sim_price
|}.

Definition sim_world (g : sim) : world :=
  {| gw := g; sent := []; handled := [] |}.

(** A long and a short BTCUSD position. *)
Definition mk_position (id : string) (entry size : pyval) : position :=
  {| pos_id := IdStr id; pos_entryPrice := entry; pos_entry_price := PNone;
     pos_info_entry_price := PNone; pos_size := size; pos_contracts := PNone;
     pos_info_product_symbol := Some "BTCUSD"%string; pos_symbol := None |}.

Definition quiet : sim :=
  {| sim_positions := []; sim_open_orders := []; sim_accept := true;
     sim_now := 100; sim_price := Some 50000 |}.

Definition with_book (ps : list position) (os : list exch_order) (g : sim) : sim :=
  {| sim_positions := ps; sim_open_orders := os; sim_accept := sim_accept g;
     sim_now := sim_now g; sim_price := sim_price g |}.

Definition at_price (t price : Q) (g : sim) : sim :=
  {| sim_positions := sim_positions g; sim_open_orders := sim_open_orders g;
     sim_accept := sim_accept g; sim_now := t; sim_price := Some price |}.

Definition rejecting (g : sim) : sim :=
  {| sim_positions := sim_positions g; sim_open_orders := sim_open_orders g;
     sim_accept := false; sim_now := sim_now g; sim_price := sim_price g |}.

Definition long_50000 : position := mk_position "p1" (PNum 50000) (PNum 1).

Definition short_50000 : position := mk_position "p1" (PNum 50000) (PNum (-1)).

(** A position whose entry price is missing in all three fields. *)
Definition no_entry : position := mk_position "p0" PNone (PNum 1).

Definition mk_signal (text : string) (price supply demand : pyval) : signal :=
  {| sig_last_signal := Some {| ls_text := Some text; ls_price := price |};
     sig_supply_min := Some supply; sig_demand_min := Some demand;
     sig_other_keys := false |}.

(** A trade manager whose local cache holds one pending buy order placed
    at time 99 s. *)
Definition cached_buy : trade_manager :=
  {| tm_order_manager :=
       {| orders :=
            {[ IdStr "o-3" :=
                 {| oi_id := IdStr "o-3"; oi_symbol := "BTCUSD"; oi_side := "buy";
                    oi_amount := Some 1; oi_price := None;
                    oi_time_in_force := None; oi_bracket := None;
                    oi_status := "pending"; oi_timestamp := 99000 |} ]} |} |}.

Definition new_signal_processor (last : option signal) : signal_processor :=
  {| sp_order_manager := {| orders := ∅ |};
     sp_trade_manager := {| tm_order_manager := {| orders := ∅ |} |};
     last_signal := last |}.

(** A gateway that accepts every order while its position query times
    out. *)
Inductive outage : Type := Outage.

#[global] Instance outage_env : Env outage := {|
  float_of_str := parse_decimal;
  gw_fetch_positions g := (g, Raise (GatewayError "timeout"));
  gw_fetch_open_orders _ g := (g, Ok []);
  gw_create_order _ _ _ _ _ _ g :=
    (g, Ok {| or_id := Some (IdStr "o-1"); or_status := Some "open"%string;
              or_timestamp := None |});
  gw_cancel_order _ _ g := (g, Ok tt);
  gw_modify_bracket _ _ _ _ g :=
    (g, Ok {| bk_state := Some "open"%string; bk_created_at := None |});
  clock _ := 100;
  sleep _ g := g;
  uuid4 g := (g, "uuid"%string);
  current_price _ := Some 49400
|}.

(** A gateway whose feed has not delivered a price yet. *)
Definition silent : sim :=
  {| sim_positions := []; sim_open_orders := []; sim_accept := true;
     sim_now := 100; sim_price := None |}.

(** A trade manager with an empty cache. *)
Definition no_orders : trade_manager := {| tm_order_manager := {| orders := ∅ |} |}.

(** Two open orders, one on each side. *)
Definition two_sided_book : list exch_order :=
  [ {| eo_id := IdStr "o-7"; eo_side := "sell"; eo_status := "open" |};
    {| eo_id := IdStr "o-8"; eo_side := "buy"; eo_status := "open" |} ].

(** A trade message as the stream sends it, and one without its quantity. *)
Definition trade_message : message :=
  {| msg_p := Some (PStr "50000.5"); msg_q := Some (PStr "0.1"); msg_m := Some true |}.

Definition truncated_message : message :=
  {| msg_p := Some (PStr "50000.5"); msg_q := None; msg_m := Some true |}.


(** ** Vocabulary of the properties *)

Section Vocabulary.
Context {G : Type} `{Env G}.

(** The stops returned by a sequence of evaluations, in order; an
    evaluation that returns the error triple or raises contributes none. *)
Fixpoint evaluate_all (self : profit_trailing) (calls : list (position * Q))
  : profit_trailing * list Q :=
  match calls with
  | [] => (self, [])
  | (pos, live_price) :: rest =>
      let '(self1, r) := update_trailing_stop self pos live_price in
      let '(self2, stops) := evaluate_all self1 rest in
      (self2, match r with
              | Ok (Some (stop, _, _)) => stop :: stops
              | _ => stops
              end)
  end.

Definition is_create_order (rq : request) : bool :=
  match rq with RqCreateOrder _ _ _ _ _ _ => true | _ => false end.

Definition is_modify_bracket (rq : request) : bool :=
  match rq with RqModifyBracket _ _ _ _ => true | _ => false end.

(** The stop stored after an evaluation whose entry price parses. *)
Definition next_stop (self : profit_trailing) (pos : position) (live_price entry : Q) : Q :=
  let size := parse_size pos in
  let current_profit := if Qltb 0 size then live_price - entry else entry - live_price in
  let new_max :=
    py_max (default 0 (default ∅ (position_max_profit self) !! pos_id pos)) current_profit in
  let candidate :=
    if (Qltb 1000 new_max && Qltb 0 current_profit)%bool
    then (if Qltb 0 size then entry + new_max / 2 else entry - new_max / 2)
    else (if Qltb 0 size then entry - 500 else entry + 500) in
  match position_trailing_stop self !! pos_id pos with
  | Some stored => if Qltb 0 size then py_max stored candidate else py_min stored candidate
  | None => candidate
  end.


(** Whether the gateway answers a forced market order and the verification
    query that follows it without raising. *)
Definition gateway_accepts (symbol side : string) (amount : Q) (tif : option string)
    (g : G) : bool :=
  match gw_create_order symbol "market" side amount None tif g with
  | (g1, Ok _) =>
      match gw_fetch_positions (sleep 1 (fst (uuid4 g1))) with
      | (_, Ok _) => true
      | (_, Raise _) => false
      end
  | (_, Raise _) => false
  end.


(** What [place_market_order] observes before placing an unforced order:
    the positions reported by the gateway, the open orders reported after
    that, and the time at which the local cache is cleaned. *)
Definition reported_positions (w : world) : result (list position) :=
  snd (gw_fetch_positions (gw w)).

Definition reported_orders (symbol : string) (w : world) : result (list exch_order) :=
  snd (gw_fetch_open_orders symbol (fst (gw_fetch_positions (gw w)))).

Definition check_time (symbol : string) (w : world) : Z :=
  py_int (clock (fst (gw_fetch_open_orders symbol (fst (gw_fetch_positions (gw w))))) * 1000).


(** The requests of an entry made in gateway state [g]: the limit order
    and, when the gateway accepts it, the bracket update for the id under
    which the order is recorded (the gateway's id, or the time in
    milliseconds when the gateway gives none).  When the gateway refuses the
    limit order, nothing follows it. *)
Definition entry_requests (side : string) (entry_price sl_price tp_price : Q) (g : G)
  : list request :=
  RqCreateOrder "BTCUSD" "limit" side 1 (Some entry_price) (Some "gtc"%string) ::
  match gw_create_order "BTCUSD" "limit" side 1 (Some entry_price) (Some "gtc"%string) g with
  | (g1, Ok order) =>
      let now := py_int (clock g1 * 1000) in
      let oid := match or_id order with
                 | Some k => if id_truthy k then k else IdInt now
                 | None => IdInt now
                 end in
      [RqModifyBracket oid 27 "BTCUSD"
         {| br_stop_loss := sl_price; br_take_profit := Some tp_price |}]
  | (_, Raise _) => []
  end.

(** A computation leaves an observation [obs] of the state unchanged,
    however it ends. *)
Definition keeps {S A O} (obs : S -> O) (m : M S A) : Prop :=
  forall s, obs (fst (m s)) = obs s.

(** The ghost log seen from a state that pairs an object with the world. *)
Definition handled_of {S} (s : S * @world G) : list signal := handled (snd s).


(** The excursion recorded for an id ([position_max_profit.get(id, 0)]). *)
Definition excursion (self : profit_trailing) (oid : pyid) : Q :=
  default 0 (default ∅ (position_max_profit self) !! oid).

(** The profit in points that [update_trailing_stop] computes. *)
Definition profit_points (pos : position) (live_price entry : Q) : Q :=
  if Qltb 0 (parse_size pos) then live_price - entry else entry - live_price.


(** Every request that a computation adds to a log satisfies [P]. *)
Definition emits {S A} (log : S -> list request) (P : request -> Prop) (m : M S A) : Prop :=
  forall s, exists l, log (fst (m s)) = log s ++ l /\ Forall P l.

(** The request log seen from a state that pairs an object with the world. *)
Definition sent_of {S} (s : S * @world G) : list request := sent (snd s).

(** A computation never raises. *)
Definition total {S A} (m : M S A) : Prop := forall s, exists a, snd (m s) = Ok a.

(** A computation never raises, and the value it returns satisfies [Q]. *)
Definition returns {S A} (Q : A -> Prop) (m : M S A) : Prop :=
  forall s, exists a, snd (m s) = Ok a /\ Q a.

(** The requests of the trailing engine: the position query and forced
    immediate-or-cancel market orders on BTCUSD. *)
Definition engine_request (rq : request) : Prop :=
  match rq with
  | RqFetchPositions => True
  | RqCreateOrder symbol type _ _ price tif =>
      symbol = "BTCUSD"%string /\ type = "market"%string /\ price = None /\
      tif = Some "ioc"%string
  | _ => False
  end.

(** Queries only. *)
Definition query_request (rq : request) : Prop :=
  match rq with
  | RqFetchPositions | RqFetchOpenOrders _ => True
  | _ => False
  end.


(** Whether a pass of [track] refreshes the cached positions, and the
    gateway state in which it then reads the live price. *)
Definition refresh_due (s : profit_trailing * @world G) : bool :=
  Qle_bool (position_fetch_interval (fst s))
           (clock (gw (snd s)) - last_position_fetch_time (fst s)).

Definition price_read_gateway (s : profit_trailing * @world G) : G :=
  if refresh_due s then fst (gw_fetch_positions (gw (snd s))) else gw (snd s).


(** How [process_signal] reads a signal: its lower-cased text, whether it
    is a take-profit signal, the side it asks for, and the reference price
    (the price of the signal, or the live price when that is missing). *)
Definition signal_text (sg : signal) : string := lower (default "" (sig_text sg)).

Definition is_take_profit (sg : signal) : bool :=
  contains "take profit" (signal_text sg) || contains "tp" (signal_text sg).

Definition side_of (sg : signal) : option string :=
  if contains "short" (signal_text sg) then Some "sell"%string
  else if contains "buy" (signal_text sg) then Some "buy"%string
  else None.

Definition signal_price (sg : signal) : pyval :=
  default PNone (ls_price <$> sig_last_signal sg).

Definition resolved_price (sg : signal) (g : G) : option pyval :=
  if price_missing (signal_price sg) then PNum <$> current_price g
  else Some (signal_price sg).


(** The orders that the two cleanup steps of [process_signal] cancel for a
    new side: open orders of another side, and open orders of the same side. *)
Definition conflicts_with (side : string) (o : exch_order) : bool :=
  is_open o &&
  (String.eqb side "" || negb (String.eqb (lower (eo_side o)) (lower side))).

Definition stacks_on (side : string) (o : exch_order) : bool :=
  String.eqb (lower (eo_side o)) (lower side) && is_open o.

Definition cancel_requests (symbol : string) (os : list exch_order) : list request :=
  map (fun o => RqCancelOrder (eo_id o) symbol) os.


(** The requests that a run adds to a log begin with [pre]. *)
Definition starts_with {S A} (log : S -> list request) (pre : list request)
    (m : M S A) (s : S) : Prop :=
  exists l, log (fst (m s)) = log s ++ pre ++ l.

(** Any request. *)
Definition any_request (rq : request) : Prop := True.


(** A stream message that [on_message] accepts: the three keys are present
    and [float] parses the price and the quantity. *)
Definition valid_trade (msg : message) : Prop :=
  exists p q m price qty,
    msg_p msg = Some p /\ msg_q msg = Some q /\ msg_m msg = Some m /\
    py_float p = Ok price /\ py_float q = Ok qty.

(** [t] is the time of the last valid trade among [msgs], or [t0] when
    none of them is valid. *)
Definition last_valid_at (msgs : list (Q * message)) (t0 t : Q) : Prop :=
  (Forall (fun tm => ~ valid_trade (snd tm)) msgs /\ t = t0) \/
  (exists before msg after,
     msgs = before ++ (t, msg) :: after /\ valid_trade msg /\
     Forall (fun tm => ~ valid_trade (snd tm)) after).

(** The clock at the check of pass [i] of a watchdog started at [now]: one
    second of sleep per pass. *)
Fixpoint tick_time (now : Q) (i : nat) : Q :=
  match i with
  | O => now + 1
  | S j => tick_time (now + 1) j
  end.

(** In every pass of the watchdog that starts at [now], the last message
    handled while it sleeps is a valid trade stamped at most 3 seconds before
    the check. *)
Fixpoint timely (schedule : list (list (Q * message))) (now : Q) : Prop :=
  match schedule with
  | [] => True
  | arrivals :: rest =>
      (exists earlier t msg,
         arrivals = earlier ++ [(t, msg)] /\ valid_trade msg /\ now + 1 - t <= 3) /\
      timely rest (now + 1)
  end.

End Vocabulary.

(** ** Properties *)

Section Properties.
Context {G : Type} `{Env G}.

Lemma Qltb_lt (a b : Q) : Qltb a b = true <-> a < b.
Proof.
  unfold Qltb. rewrite negb_true_iff.
  split; intros Hab.
  - apply Qnot_le_lt. intros Hle. apply Qle_bool_iff in Hle. congruence.
  - destruct (Qle_bool b a) eqn:E; [|reflexivity].
    apply Qle_bool_iff in E. exfalso. exact (Qlt_not_le _ _ Hab E).
Qed.

Lemma Qltb_ge (a b : Q) : Qltb a b = false <-> b <= a.
Proof.
  unfold Qltb. rewrite negb_false_iff. apply Qle_bool_iff.
Qed.

Lemma py_max_ge_l (a b : Q) : a <= py_max a b.
Proof.
  unfold py_max. destruct (Qltb a b) eqn:E.
  - apply Qlt_le_weak, Qltb_lt, E.
  - apply Qle_refl.
Qed.

Lemma py_min_le_l (a b : Q) : py_min a b <= a.
Proof.
  unfold py_min. destruct (Qltb b a) eqn:E.
  - apply Qlt_le_weak, Qltb_lt, E.
  - apply Qle_refl.
Qed.

Lemma update_trailing_stop_unparsable self pos live_price e :
  py_float (entry_field pos) = Raise e ->
  update_trailing_stop self pos live_price = (self, Ok None).
Proof. intros E. unfold update_trailing_stop. rewrite E. reflexivity. Qed.

Lemma update_trailing_stop_stored self pos live_price entry :
  py_float (entry_field pos) = Ok entry ->
  let '(self', r) := update_trailing_stop self pos live_price in
  position_trailing_stop self' !! pos_id pos = Some (next_stop self pos live_price entry) /\
  (forall k, k <> pos_id pos ->
     position_trailing_stop self' !! k = position_trailing_stop self !! k) /\
  match r with
  | Ok (Some (stop, _, rl)) =>
      stop = next_stop self pos live_price entry /\ (rl = fixed_stop \/ rl = lock_50)
  | Ok None => False
  | Raise e => e = ZeroDivisionError /\ entry == 0
  end.
Proof.
  intros E. unfold update_trailing_stop, next_stop. rewrite E. cbn zeta.
  destruct (Qltb 1000 _ && Qltb 0 _)%bool eqn:Hrule;
    destruct (Qeq_bool entry 0) eqn:Hzero;
    cbn [position_trailing_stop set_trailing_stop set_max_profit];
    (split; [apply lookup_insert_eq
            |split; [intros k Hk; apply lookup_insert_ne; congruence|]]);
    first [split; [reflexivity|apply Qeq_bool_iff, Hzero] | auto].
Qed.


Lemma evaluate_all_bounded_long oid calls : forall self a,
  Forall (fun c => pos_id (fst c) = oid) calls ->
  Forall (fun c => 0 < parse_size (fst c)) calls ->
  position_trailing_stop self !! oid = Some a ->
  Forall (Qle a) (snd (evaluate_all self calls)).
Proof.
  induction calls as [|[pos p] rest IH]; intros self a Hid Hlong Hst; cbn.
  - constructor.
  - pose proof (Forall_inv Hid) as Hid1. pose proof (Forall_inv_tail Hid) as Hid2.
    pose proof (Forall_inv Hlong) as Hl1. pose proof (Forall_inv_tail Hlong) as Hl2.
    cbn in Hid1, Hl1. subst oid.
    destruct (py_float (entry_field pos)) as [entry|e] eqn:E.
    + pose proof (update_trailing_stop_stored self pos p entry E) as Hs.
      destruct (update_trailing_stop self pos p) as [self1 r].
      destruct Hs as (Hnew & _ & Hr).
      assert (Hab : a <= next_stop self pos p entry).
      { unfold next_stop. rewrite Hst.
        apply Qltb_lt in Hl1. rewrite Hl1. apply py_max_ge_l. }
      specialize (IH self1 _ Hid2 Hl2 Hnew).
      destruct (evaluate_all self1 rest) as [self2 stops]. cbn in *.
      assert (Hall : Forall (Qle a) stops).
      { eapply Stdlib.Lists.List.Forall_impl; [|exact IH]. intros x Hx. cbn in Hx.
        eapply Qle_trans; eassumption. }
      destruct r as [[[[stop ?] ?]|]|]; auto.
      destruct Hr as [-> _]. constructor; auto.
    + rewrite (update_trailing_stop_unparsable self pos p e E).
      specialize (IH self a Hid2 Hl2 Hst).
      destruct (evaluate_all self rest) as [self2 stops]. exact IH.
Qed.

Lemma evaluate_all_bounded_short oid calls : forall self a,
  Forall (fun c => pos_id (fst c) = oid) calls ->
  Forall (fun c => parse_size (fst c) < 0) calls ->
  position_trailing_stop self !! oid = Some a ->
  Forall (fun x => x <= a) (snd (evaluate_all self calls)).
Proof.
  induction calls as [|[pos p] rest IH]; intros self a Hid Hshort Hst; cbn.
  - constructor.
  - pose proof (Forall_inv Hid) as Hid1. pose proof (Forall_inv_tail Hid) as Hid2.
    pose proof (Forall_inv Hshort) as Hl1. pose proof (Forall_inv_tail Hshort) as Hl2.
    cbn in Hid1, Hl1. subst oid.
    destruct (py_float (entry_field pos)) as [entry|e] eqn:E.
    + pose proof (update_trailing_stop_stored self pos p entry E) as Hs.
      destruct (update_trailing_stop self pos p) as [self1 r].
      destruct Hs as (Hnew & _ & Hr).
      assert (Hab : next_stop self pos p entry <= a).
      { unfold next_stop. rewrite Hst.
        assert (Hn : Qltb 0 (parse_size pos) = false)
          by (apply Qltb_ge, Qlt_le_weak, Hl1).
        rewrite Hn. apply py_min_le_l. }
      specialize (IH self1 _ Hid2 Hl2 Hnew).
      destruct (evaluate_all self1 rest) as [self2 stops]. cbn in *.
      assert (Hall : Forall (fun x => x <= a) stops).
      { eapply Stdlib.Lists.List.Forall_impl; [|exact IH]. intros x Hx. cbn in Hx.
        eapply Qle_trans; eassumption. }
      destruct r as [[[[stop ?] ?]|]|]; auto.
      destruct Hr as [-> _]. constructor; auto.
    + rewrite (update_trailing_stop_unparsable self pos p e E).
      specialize (IH self a Hid2 Hl2 Hst).
      destruct (evaluate_all self rest) as [self2 stops]. exact IH.
Qed.

(** C1.  Monotonic tightening.  For every sequence of evaluations of
    positions carrying one id: when all of them are long (size > 0) the
    stops returned by [update_trailing_stop] never decrease from one
    evaluation to any later one, and when all are short (size < 0) they
    never increase, whatever the live prices (and entry prices) are. *)
Theorem trailing_stop_monotone (oid : pyid) (calls : list (position * Q))
    (self : profit_trailing) :
  Forall (fun c => pos_id (fst c) = oid) calls ->
  (Forall (fun c => 0 < parse_size (fst c)) calls ->
   StronglySorted Qle (snd (evaluate_all self calls))) /\
  (Forall (fun c => parse_size (fst c) < 0) calls ->
   StronglySorted (fun a b => b <= a) (snd (evaluate_all self calls))).
Proof.
  intros Hid. split; intros Hside; revert self.
  - induction calls as [|[pos p] rest IH]; intros self; cbn; [constructor|].
    pose proof (Forall_inv Hid) as Hid1. pose proof (Forall_inv_tail Hid) as Hid2.
    pose proof (Forall_inv Hside) as Hl1. pose proof (Forall_inv_tail Hside) as Hl2.
    cbn in Hid1, Hl1. subst oid.
    specialize (IH Hid2 Hl2).
    destruct (py_float (entry_field pos)) as [entry|e] eqn:E.
    + pose proof (update_trailing_stop_stored self pos p entry E) as Hs.
      destruct (update_trailing_stop self pos p) as [self1 r].
      destruct Hs as (Hnew & _ & Hr).
      pose proof (evaluate_all_bounded_long _ rest self1 _ Hid2 Hl2 Hnew) as Hb.
      specialize (IH self1).
      destruct (evaluate_all self1 rest) as [self2 stops]. cbn in *.
      destruct r as [[[[stop ?] ?]|]|]; auto.
      destruct Hr as [-> _]. constructor; auto.
    + rewrite (update_trailing_stop_unparsable self pos p e E).
      specialize (IH self). destruct (evaluate_all self rest). exact IH.
  - induction calls as [|[pos p] rest IH]; intros self; cbn; [constructor|].
    pose proof (Forall_inv Hid) as Hid1. pose proof (Forall_inv_tail Hid) as Hid2.
    pose proof (Forall_inv Hside) as Hl1. pose proof (Forall_inv_tail Hside) as Hl2.
    cbn in Hid1, Hl1. subst oid.
    specialize (IH Hid2 Hl2).
    destruct (py_float (entry_field pos)) as [entry|e] eqn:E.
    + pose proof (update_trailing_stop_stored self pos p entry E) as Hs.
      destruct (update_trailing_stop self pos p) as [self1 r].
      destruct Hs as (Hnew & _ & Hr).
      pose proof (evaluate_all_bounded_short _ rest self1 _ Hid2 Hl2 Hnew) as Hb.
      specialize (IH self1).
      destruct (evaluate_all self1 rest) as [self2 stops]. cbn in *.
      destruct r as [[[[stop ?] ?]|]|]; auto.
      destruct Hr as [-> _]. constructor; auto.
    + rewrite (update_trailing_stop_unparsable self pos p e E).
      specialize (IH self). destruct (evaluate_all self rest). exact IH.
Qed.

(** C3.  Rule selection on the documented example.  A long position with
    entry 50000 and size 1 whose id has no stored stop and no stored
    excursion: at live price 51100 the rule is [lock_50] and the stop is
    50000 + 1100/2 = 50550; at live price 50200 the rule is [fixed_stop] and
    the stop is 50000 - 500 = 49500. *)
Theorem rule_selection_example (self : profit_trailing) (pos : position) :
  entry_field pos = PNum 50000 ->
  size_field pos = PNum 1 ->
  position_trailing_stop self !! pos_id pos = None ->
  default ∅ (position_max_profit self) !! pos_id pos = None ->
  (exists self' stop ratio,
     update_trailing_stop self pos 51100 = (self', Ok (Some (stop, ratio, lock_50))) /\
     stop == 50550) /\
  (exists self' stop ratio,
     update_trailing_stop self pos 50200 = (self', Ok (Some (stop, ratio, fixed_stop))) /\
     stop == 49500).
Proof.
  intros He Hs Hst Hmx.
  unfold update_trailing_stop, parse_size. rewrite He, Hs. cbn [py_float].
  cbn zeta. rewrite Hmx. cbn [default].
  split.
  - do 3 eexists. split.
    + cbn -[Qplus Qminus Qdiv insert]. reflexivity.
    + cbn [position_trailing_stop set_trailing_stop set_max_profit].
      rewrite Hst. reflexivity.
  - do 3 eexists. split.
    + cbn -[Qplus Qminus Qdiv insert]. reflexivity.
    + cbn [position_trailing_stop set_trailing_stop set_max_profit].
      rewrite Hst. reflexivity.
Qed.

(** Unfolding of the effect combinators. *)
Ltac run_step :=
  cbv beta iota zeta delta
    [bind ret raise lift read try_except zoom in_world in_order_manager in_trade_manager
     sp_in_order_manager sp_in_trade_manager in_self get_self modify_self
     get_orders set_orders call pure_env now_ms time_sleep note_handled] in *;
  cbn [fst snd gw sent handled] in *.

(** A forced market order sends exactly the creation request, followed by
    the verification query when the gateway accepted the order. *)
Lemma place_market_order_forced symbol side amount tif (tm : trade_manager) (w : world) :
  let '((tm', w'), r) := place_market_order symbol side amount tif true (tm, w) in
  handled w' = handled w /\
  if gateway_accepts symbol side amount tif (gw w)
  then sent w' = sent w ++ [RqCreateOrder symbol "market" side amount None tif;
                            RqFetchPositions] /\
       exists info, r = Ok (Some info)
  else (exists l, sent w' = sent w ++ RqCreateOrder symbol "market" side amount None tif :: l /\
                  (l = [] \/ l = [RqFetchPositions])) /\
       exists e, r = Raise e.
Proof.
  unfold place_market_order, submit_market_order, gateway_accepts,
    create_order, fetch_positions.
  run_step.
  destruct (gw_create_order symbol "market" side amount None tif (gw w)) as [g1 [o|e]];
    run_step.
  - destruct (uuid4 g1) as [g2 u]; run_step.
    destruct (gw_fetch_positions (sleep 1 g2)) as [g3 [ps|e]]; run_step.
    + split; [reflexivity|]. split; [|eauto].
      rewrite <- app_assoc. reflexivity.
    + split; [reflexivity|]. split; [|eauto].
      exists [RqFetchPositions]. rewrite <- app_assoc. split; [reflexivity|tauto].
  - split; [reflexivity|]. split; [|eauto].
    exists []. split; [reflexivity|tauto].
Qed.

Lemma update_trailing_stop_rules self pos live_price :
  match snd (update_trailing_stop self pos live_price) with
  | Ok (Some (_, _, rl)) => rl = fixed_stop \/ rl = lock_50
  | Ok None => True
  | Raise e =>
      e = ZeroDivisionError /\
      exists entry, py_float (entry_field pos) = Ok entry /\ entry == 0
  end.
Proof.
  destruct (py_float (entry_field pos)) as [entry|e] eqn:E.
  - pose proof (update_trailing_stop_stored self pos live_price entry E) as Hs.
    destruct (update_trailing_stop self pos live_price) as [self1 r]. cbn.
    destruct Hs as (_ & _ & Hr).
    destruct r as [[[[stop ?] rl]|]|]; [tauto|tauto|].
    destruct Hr as [-> Hz]. split; [reflexivity|]. exists entry. auto.
  - rewrite (update_trailing_stop_unparsable self pos live_price e E). exact I.
Qed.

(** C9.  The points-based evaluation never selects [partial_booking]:
    whatever the state, the position and the live price,
    [update_trailing_stop] returns a triple with the rule [fixed_stop] or
    [lock_50], or the error triple; it fails to return only by dividing by an
    entry price that parses to zero.  And [book_profit] never sends a bracket
    update, so its [partial_booking] branch is not reached. *)
Theorem partial_booking_unreachable (self : profit_trailing) (pos : position)
    (live_price : Q) (w : world) :
  match snd (update_trailing_stop self pos live_price) with
  | Ok (Some (_, _, rl)) => rl = fixed_stop \/ rl = lock_50
  | Ok None => True
  | Raise e =>
      e = ZeroDivisionError /\
      exists entry, py_float (entry_field pos) = Ok entry /\ entry == 0
  end /\
  let '((_, w'), _) := book_profit pos live_price (self, w) in
  exists l, sent w' = sent w ++ l /\
            forallb (fun rq => negb (is_modify_bracket rq)) l = true.
Proof.
  split; [apply update_trailing_stop_rules|].
  pose proof (update_trailing_stop_rules self pos live_price) as Hr.
  unfold book_profit. run_step.
  destruct (update_trailing_stop self pos live_price) as [self1 r]. cbn in Hr.
  destruct r as [[[[stop ratio] rl]|]|e]; run_step.
  - assert (Hforced : forall side amount,
      let '((_, w'), _) :=
        place_market_order "BTCUSD" side amount (Some "ioc"%string) true
          (pt_trade_manager self1, w) in
      exists l, sent w' = sent w ++ l /\
                forallb (fun rq => negb (is_modify_bracket rq)) l = true).
    { intros side amount.
      pose proof (place_market_order_forced "BTCUSD" side amount (Some "ioc"%string)
                    (pt_trade_manager self1) w) as Hp.
      destruct (place_market_order _ _ _ _ _ _) as [[tm' w'] r].
      destruct Hp as [_ Hp].
      destruct (gateway_accepts _ _ _ _ _).
      - destruct Hp as [-> _]. eexists. split; [reflexivity|reflexivity].
      - destruct Hp as [(l & -> & [-> | ->]) _]; eexists; split; reflexivity. }
    destruct Hr as [-> | ->].
    + destruct (Qltb 0 (parse_size pos) && Qltb live_price stop)%bool.
      * specialize (Hforced "sell"%string (parse_size pos)).
        destruct (place_market_order _ _ _ _ _ _) as [[tm' w'] [o|e]]; exact Hforced.
      * destruct (Qltb (parse_size pos) 0 && Qltb stop live_price)%bool.
        -- specialize (Hforced "buy"%string (Qabs (parse_size pos))).
           destruct (place_market_order _ _ _ _ _ _) as [[tm' w'] [o|e]]; exact Hforced.
        -- exists []. rewrite app_nil_r. split; reflexivity.
    + destruct (Qltb 0 (parse_size pos) && Qltb live_price stop)%bool.
      * specialize (Hforced "sell"%string (parse_size pos)).
        destruct (place_market_order _ _ _ _ _ _) as [[tm' w'] [o|e]]; exact Hforced.
      * destruct (Qltb (parse_size pos) 0 && Qltb stop live_price)%bool.
        -- specialize (Hforced "buy"%string (Qabs (parse_size pos))).
           destruct (place_market_order _ _ _ _ _ _) as [[tm' w'] [o|e]]; exact Hforced.
        -- exists []. rewrite app_nil_r. split; reflexivity.
  - exists []. rewrite app_nil_r. split; reflexivity.
  - exists []. rewrite app_nil_r. split; reflexivity.
Qed.

(** The forced close of [book_profit].  When a position is evaluated under
    [fixed_stop] or [lock_50] and the live price has crossed the stop
    adversely, exactly one market order closing the full size is sent (sell
    of size for a long, buy of |size| for a short), immediate-or-cancel and
    forced: no check precedes it.  [book_profit] returns true when the
    gateway accepts the order and answers the verification query; when the
    gateway fails at either, the call raises.  When the stop is not crossed
    nothing is sent and [book_profit] returns false. *)
Theorem book_profit_forced_close (self self1 : profit_trailing) (pos : position)
    (live_price stop ratio : Q) (rl : rule) (w : world) :
  update_trailing_stop self pos live_price = (self1, Ok (Some (stop, ratio, rl))) ->
  rl = fixed_stop \/ rl = lock_50 ->
  let size := parse_size pos in
  let ioc := Some "ioc"%string in
  let '((_, w'), r) := book_profit pos live_price (self, w) in
  (0 < size -> live_price < stop ->
   if gateway_accepts "BTCUSD" "sell" size ioc (gw w)
   then sent w' = sent w ++ [RqCreateOrder "BTCUSD" "market" "sell" size None ioc;
                             RqFetchPositions] /\ r = Ok true
   else (exists l, sent w' = sent w ++ RqCreateOrder "BTCUSD" "market" "sell" size None ioc :: l /\
                   (l = [] \/ l = [RqFetchPositions])) /\
        exists e, r = Raise e) /\
  (size < 0 -> stop < live_price ->
   if gateway_accepts "BTCUSD" "buy" (Qabs size) ioc (gw w)
   then sent w' = sent w ++ [RqCreateOrder "BTCUSD" "market" "buy" (Qabs size) None ioc;
                             RqFetchPositions] /\ r = Ok true
   else (exists l, sent w' = sent w ++
                     RqCreateOrder "BTCUSD" "market" "buy" (Qabs size) None ioc :: l /\
                   (l = [] \/ l = [RqFetchPositions])) /\
        exists e, r = Raise e) /\
  (~ (0 < size /\ live_price < stop) -> ~ (size < 0 /\ stop < live_price) ->
   sent w' = sent w /\ r = Ok false).
Proof.
  intros Hup Hrl size ioc. subst size ioc.
  unfold book_profit. run_step. rewrite Hup. run_step.
  assert (Hmatch : forall (A : Type) (a b : A),
            match rl with dynamic | fixed_stop | lock_50 => a | partial_booking => b end = a)
    by (intros; destruct Hrl as [-> | ->]; reflexivity).
  rewrite Hmatch. clear Hmatch.
  destruct (Qltb 0 (parse_size pos)) eqn:Hlong;
    [apply Qltb_lt in Hlong | apply Qltb_ge in Hlong].
  - cbn [andb].
    destruct (Qltb live_price stop) eqn:Hcross;
      [apply Qltb_lt in Hcross | apply Qltb_ge in Hcross].
    + pose proof (place_market_order_forced "BTCUSD" "sell" (parse_size pos)
                    (Some "ioc"%string) (pt_trade_manager self1) w) as Hp.
      destruct (place_market_order _ _ _ _ _ _) as [[tm' w'] r].
      destruct Hp as [_ Hp].
      destruct (gateway_accepts "BTCUSD" "sell" _ _ _).
      * destruct Hp as [Hs [info ->]]. run_step. split; [|split].
        -- intros _ _. split; [exact Hs|reflexivity].
        -- intros Hneg _. exfalso.
           exact (Qlt_irrefl _ (Qlt_trans _ _ _ Hlong Hneg)).
        -- intros Hn _. exfalso. apply Hn. split; assumption.
      * destruct Hp as [Hl [e ->]]. run_step. split; [|split].
        -- intros _ _. split; [exact Hl|eauto].
        -- intros Hneg _. exfalso.
           exact (Qlt_irrefl _ (Qlt_trans _ _ _ Hlong Hneg)).
        -- intros Hn _. exfalso. apply Hn. split; assumption.
    + assert (Hshort : Qltb (parse_size pos) 0 = false)
        by (apply Qltb_ge, Qlt_le_weak, Hlong).
      rewrite Hshort. cbn [andb]. run_step.
      split; [|split].
      * intros _ Hc. exfalso. exact (Qlt_not_le _ _ Hc Hcross).
      * intros Hneg _. exfalso.
        exact (Qlt_irrefl _ (Qlt_trans _ _ _ Hlong Hneg)).
      * intros _ _. split; reflexivity.
  - cbn [andb].
    destruct (Qltb (parse_size pos) 0) eqn:Hshort;
      [apply Qltb_lt in Hshort | apply Qltb_ge in Hshort]; cbn [andb].
    + destruct (Qltb stop live_price) eqn:Hcross;
        [apply Qltb_lt in Hcross | apply Qltb_ge in Hcross].
      * pose proof (place_market_order_forced "BTCUSD" "buy" (Qabs (parse_size pos))
                      (Some "ioc"%string) (pt_trade_manager self1) w) as Hp.
        destruct (place_market_order _ _ _ _ _ _) as [[tm' w'] r].
        destruct Hp as [_ Hp].
        destruct (gateway_accepts "BTCUSD" "buy" _ _ _).
        -- destruct Hp as [Hs [info ->]]. run_step. split; [|split].
           ++ intros Hpos _. exfalso. exact (Qlt_not_le _ _ Hpos Hlong).
           ++ intros _ _. split; [exact Hs|reflexivity].
           ++ intros _ Hn. exfalso. apply Hn. split; assumption.
        -- destruct Hp as [Hl [e ->]]. run_step. split; [|split].
           ++ intros Hpos _. exfalso. exact (Qlt_not_le _ _ Hpos Hlong).
           ++ intros _ _. split; [exact Hl|eauto].
           ++ intros _ Hn. exfalso. apply Hn. split; assumption.
      * run_step. split; [|split].
        -- intros Hpos _. exfalso. exact (Qlt_not_le _ _ Hpos Hlong).
        -- intros _ Hc. exfalso. exact (Qlt_not_le _ _ Hc Hcross).
        -- intros _ _. split; reflexivity.
    + run_step. split; [|split].
      * intros Hpos _. exfalso. exact (Qlt_not_le _ _ Hpos Hlong).
      * intros Hneg _. exfalso. exact (Qlt_not_le _ _ Hneg Hshort).
      * intros _ _. split; reflexivity.
Qed.

Lemma map_values_any_true (f : order_info -> bool) (m : gmap pyid order_info) :
  map_values_any f m = true <-> exists k o, m !! k = Some o /\ f o = true.
Proof.
  unfold map_values_any. rewrite existsb_exists. split.
  - intros ([k o] & Hin & Hf). exists k, o. split; [|exact Hf].
    apply elem_of_map_to_list, list_elem_of_In, Hin.
  - intros (k & o & Hm & Hf). exists (k, o). split; [|exact Hf].
    apply list_elem_of_In, elem_of_map_to_list, Hm.
Qed.

(** The checks of an unforced order only query the gateway. *)
Lemma pre_checks_sent symbol side_lower (tm : trade_manager) (w : world) :
  let '((_, w'), r) := pre_checks symbol side_lower (tm, w) in
  (exists b, r = Ok b) /\
  exists l, sent w' = sent w ++ l /\
            forallb (fun rq => negb (is_create_order rq)) l = true.
Proof.
  unfold pre_checks, fetch_positions, fetch_open_orders. run_step.
  destruct (gw_fetch_positions (gw w)) as [g1 [ps|e]]; run_step.
  - destruct (existsb (same_side_position symbol side_lower) ps); run_step.
    + split; [eauto|]. eexists. split; reflexivity.
    + destruct (gw_fetch_open_orders symbol g1) as [g2 [os|e]]; run_step.
      * destruct (existsb (same_side_order side_lower) os); run_step;
          (split; [eauto|]); eexists; (split; [rewrite <- app_assoc|]); reflexivity.
      * split; [eauto|]. eexists. split; [rewrite <- app_assoc|]; reflexivity.
  - destruct (gw_fetch_open_orders symbol g1) as [g2 [os|e']]; run_step.
    + destruct (existsb (same_side_order side_lower) os); run_step;
        (split; [eauto|]); eexists; (split; [rewrite <- app_assoc|]); reflexivity.
    + split; [eauto|]. eexists. split; [rewrite <- app_assoc|]; reflexivity.
Qed.

(** C10.  An unforced market order is not placed when the gateway reports
    an open position of the same side on the symbol (size > 0 for buy,
    size < 0 for sell), or reports a pending order of the same side, or the
    local cache holds a non-stale order of the same side with status open
    or pending: the call returns [None] and sends no creation request.
    A forced order skips every check: the first and only request it makes
    before the verification query is the creation of the order. *)
Theorem place_market_order_guards (symbol side : string) (amount : Q)
    (tif : option string) (tm : trade_manager) (w : world) :
  ((exists ps pos, reported_positions w = Ok ps /\ In pos ps /\
      contains symbol (symbol_of pos) = true /\
      ((lower side = "buy"%string /\ 0 < parse_size pos) \/
       (lower side = "sell"%string /\ parse_size pos < 0))) \/
   (exists os o, reported_orders symbol w = Ok os /\ In o os /\
      lower (eo_side o) = lower side) \/
   (exists k o, orders (tm_order_manager tm) !! k = Some o /\
      (check_time symbol w - oi_timestamp o <= 60000)%Z /\
      lower (oi_side o) = lower side /\
      (oi_status o = "open"%string \/ oi_status o = "pending"%string)) ->
   let '((_, w'), r) := place_market_order symbol side amount tif false (tm, w) in
   r = Ok None /\
   exists l, sent w' = sent w ++ l /\
             forallb (fun rq => negb (is_create_order rq)) l = true) /\
  (let '((_, w'), r) := place_market_order symbol side amount tif true (tm, w) in
   exists l, sent w' = sent w ++ RqCreateOrder symbol "market" side amount None tif :: l /\
             forallb (fun rq => negb (is_create_order rq)) l = true).
Proof.
  split.
  - intros Hblock.
    assert (Hpre : pre_checks symbol (lower side) (tm, w) =
                   (fst (pre_checks symbol (lower side) (tm, w)), Ok true)).
    { unfold reported_positions, reported_orders, check_time in Hblock.
      unfold pre_checks, fetch_positions, fetch_open_orders. run_step.
      destruct (gw_fetch_positions (gw w)) as [g1 rp]; run_step.
      assert (Hstep2 :
        (match rp with
         | Ok ps => existsb (same_side_position symbol (lower side)) ps = false
         | Raise _ => True
         end) ->
        (exists os o, snd (gw_fetch_open_orders symbol g1) = Ok os /\ In o os /\
           lower (eo_side o) = lower side) \/
        (exists k o, orders (tm_order_manager tm) !! k = Some o /\
           (py_int (clock (fst (gw_fetch_open_orders symbol g1)) * 1000)
              - oi_timestamp o <= 60000)%Z /\
           lower (oi_side o) = lower side /\
           (oi_status o = "open"%string \/ oi_status o = "pending"%string))).
      { intros Hno. destruct Hblock as [(ps & pos & Hps & Hin & Hsym & Hside) | [Ho | Hl]];
          [exfalso | left; exact Ho | right; exact Hl].
        cbn in Hps. subst rp.
        assert (Hex : existsb (same_side_position symbol (lower side)) ps = true).
        { apply existsb_exists. exists pos. split; [exact Hin|].
          unfold same_side_position. rewrite Hsym. cbn [andb].
          destruct Hside as [[-> Hsz] | [-> Hsz]]; apply Qltb_lt in Hsz; rewrite Hsz;
            cbn; rewrite ?orb_true_r; reflexivity. }
        congruence. }
      clear Hblock.
      assert (Hstep3 : forall g2 ro, gw_fetch_open_orders symbol g1 = (g2, ro) ->
        (match ro with
         | Ok os => existsb (same_side_order (lower side)) os = false
         | Raise _ => True
         end) ->
        (match rp with
         | Ok ps => existsb (same_side_position symbol (lower side)) ps = false
         | Raise _ => True
         end) ->
        map_values_any (local_pending (lower side))
          (filter (fun kv => is_stale (py_int (clock g2 * 1000)) (snd kv) = false)
                  (orders (tm_order_manager tm))) = true).
      { intros g2 ro Hg2 Hno2 Hno1. specialize (Hstep2 Hno1). rewrite Hg2 in Hstep2.
        cbn [fst snd] in Hstep2.
        destruct Hstep2 as [(os & o & Hos & Hin & Hside) | (k & o & Hk & Ht & Hside & Hst)].
        - exfalso. subst ro.
          assert (Hex : existsb (same_side_order (lower side)) os = true).
          { apply existsb_exists. exists o. split; [exact Hin|].
            unfold same_side_order. rewrite Hside. apply String.eqb_refl. }
          congruence.
        - apply map_values_any_true. exists k, o. split.
          + apply map_lookup_filter_Some. split; [exact Hk|]. cbn [snd].
            unfold is_stale. apply Z.ltb_ge. exact Ht.
          + unfold local_pending. rewrite Hside, String.eqb_refl. cbn [andb].
            destruct Hst as [-> | ->]; cbn; rewrite ?orb_true_r; reflexivity. }
      destruct rp as [ps|e]; run_step.
      - destruct (existsb (same_side_position symbol (lower side)) ps) eqn:E1; run_step;
          [reflexivity|].
        destruct (gw_fetch_open_orders symbol g1) as [g2 [os|e]] eqn:E2; run_step.
        + destruct (existsb (same_side_order (lower side)) os) eqn:E3; run_step;
            [reflexivity|].
          rewrite (Hstep3 g2 (Ok os) eq_refl E3 eq_refl). reflexivity.
        + rewrite (Hstep3 g2 (Raise e) eq_refl I eq_refl). reflexivity.
      - destruct (gw_fetch_open_orders symbol g1) as [g2 [os|e']] eqn:E2; run_step.
        + destruct (existsb (same_side_order (lower side)) os) eqn:E3; run_step;
            [reflexivity|].
          rewrite (Hstep3 g2 (Ok os) eq_refl E3 I). reflexivity.
        + rewrite (Hstep3 g2 (Raise e') eq_refl I I). reflexivity. }
    pose proof (pre_checks_sent symbol (lower side) tm w) as Hs.
    unfold place_market_order. run_step. rewrite Hpre in *.
    destruct (pre_checks symbol (lower side) (tm, w)) as [[tm' w'] r]. run_step.
    split; [reflexivity|]. destruct Hs as [_ Hs]. exact Hs.
  - pose proof (place_market_order_forced symbol side amount tif tm w) as Hp.
    destruct (place_market_order symbol side amount tif true (tm, w)) as [[tm' w'] r].
    destruct Hp as [_ Hp].
    destruct (gateway_accepts _ _ _ _ _).
    + destruct Hp as [-> _]. eexists. split; reflexivity.
    + destruct Hp as [(l & -> & [-> | ->]) _]; eexists; split; reflexivity.
Qed.

(** *** Frame lemmas: what a computation leaves unchanged *)

Section Keeps.
Context {S O : Type} (obs : S -> O).

Lemma keeps_ret {A} (a : A) : keeps obs (ret a).
Proof. intros s. reflexivity. Qed.

Lemma keeps_raise {A} (e : exn) : keeps obs (raise (A:=A) e).
Proof. intros s. reflexivity. Qed.

Lemma keeps_lift {A} (r : result A) : keeps obs (lift r).
Proof. intros s. reflexivity. Qed.

Lemma keeps_read {A} (f : S -> A) : keeps obs (read f).
Proof. intros s. reflexivity. Qed.

Lemma keeps_bind {A B} (m : M S A) (k : A -> M S B) :
  keeps obs m -> (forall a, keeps obs (k a)) -> keeps obs (bind m k).
Proof.
  intros Hm Hk s. unfold bind. specialize (Hm s).
  destruct (m s) as [s1 [a|e]]; cbn in *; [|exact Hm].
  rewrite (Hk a s1). exact Hm.
Qed.

Lemma keeps_try {A} (m : M S A) (h : exn -> M S A) :
  keeps obs m -> (forall e, keeps obs (h e)) -> keeps obs (try_except m h).
Proof.
  intros Hm Hh s. unfold try_except. specialize (Hm s).
  destruct (m s) as [s1 [a|e]]; cbn in *; [exact Hm|].
  rewrite (Hh e s1). exact Hm.
Qed.

Lemma keeps_for_each {A} (body : A -> M S unit) (xs : list A) :
  (forall x, keeps obs (body x)) -> keeps obs (for_each body xs).
Proof.
  intros Hb. induction xs as [|x xs IH]; cbn [for_each].
  - apply keeps_ret.
  - apply keeps_bind; [apply Hb|intros _; exact IH].
Qed.

Lemma keeps_zoom {T A} (obs' : T -> O) (get : S -> T) (set : T -> S -> S) (m : M T A) :
  (forall s, obs' (get s) = obs s) ->
  (forall t s, obs (set t s) = obs' t) ->
  keeps obs' m -> keeps obs (zoom get set m).
Proof.
  intros Hget Hset Hm s. unfold zoom. specialize (Hm (get s)).
  destruct (m (get s)) as [t r]. cbn in *. rewrite Hset, Hm. apply Hget.
Qed.

End Keeps.

Lemma keeps_in_world {S A} (m : M (@world G) A) :
  keeps handled m -> keeps (handled_of (S:=S)) (in_world m).
Proof. apply keeps_zoom; reflexivity. Qed.

Lemma keeps_call {A} rq (f : G -> G * result A) : keeps handled (call rq f).
Proof. intros w. unfold call. destruct (f (gw w)). reflexivity. Qed.

Lemma keeps_pure_env {A} (f : G -> G * A) : keeps handled (pure_env f).
Proof. intros w. unfold pure_env. destruct (f (gw w)). reflexivity. Qed.

Lemma keeps_sleep d : keeps handled (time_sleep d).
Proof. intros w. reflexivity. Qed.

Lemma keeps_set_orders m :
  keeps (handled_of (S:=order_manager)) (set_orders (G:=G) m).
Proof. intros s. reflexivity. Qed.

Lemma keeps_in_order_manager {A} (m : M (@om_world G) A) :
  keeps handled_of m -> keeps handled_of (in_order_manager m).
Proof. apply keeps_zoom; reflexivity. Qed.

Lemma keeps_sp_in_order_manager {A} (m : M (@om_world G) A) :
  keeps handled_of m -> keeps handled_of (sp_in_order_manager m).
Proof. apply keeps_zoom; reflexivity. Qed.

Lemma keeps_sp_in_trade_manager {A} (m : M (@tm_world G) A) :
  keeps handled_of m -> keeps handled_of (sp_in_trade_manager m).
Proof. apply keeps_zoom; reflexivity. Qed.

Lemma keeps_set_last_signal sg :
  keeps handled_of (set_last_signal (G:=G) sg).
Proof. intros s. reflexivity. Qed.

(** Structural proof search for [keeps] goals. *)
Ltac keeps_step :=
  first
    [ apply keeps_ret | apply keeps_raise | apply keeps_lift | apply keeps_read
    | apply keeps_call | apply keeps_pure_env | apply keeps_sleep
    | apply keeps_set_orders | apply keeps_set_last_signal
    | apply keeps_bind; [|intros ?]
    | apply keeps_try; [|intros ?]
    | apply keeps_for_each; intros ?
    | apply keeps_in_world
    | apply keeps_in_order_manager
    | apply keeps_sp_in_order_manager
    | apply keeps_sp_in_trade_manager
    | match goal with
      | |- keeps _ (match ?x with _ => _ end) => destruct x
      | |- keeps _ (if ?b then _ else _) => destruct b
      end ].

Ltac keeps_auto := repeat keeps_step.

Lemma keeps_place_market_order symbol side amount tif force :
  keeps handled_of (place_market_order symbol side amount tif force).
Proof.
  unfold place_market_order, pre_checks, submit_market_order, fetch_positions,
    fetch_open_orders, create_order, now_ms, get_orders.
  keeps_auto.
Qed.

Lemma keeps_place_order symbol side amount price tif :
  keeps handled_of (place_order symbol side amount price tif).
Proof.
  unfold place_order, create_limit_order, create_order, now_ms, get_orders. keeps_auto.
Qed.

Lemma keeps_attach_bracket oid pid symbol b :
  keeps handled_of (attach_bracket_to_order oid pid symbol b).
Proof.
  unfold attach_bracket_to_order, client_modify_bracket_order, get_orders. keeps_auto.
Qed.

Lemma keeps_before_entry sg : keeps handled_of (before_entry sg).
Proof.
  unfold before_entry, take_profit_close, close_opposite, cancel_conflicting_orders,
    cancel_same_side_orders, open_pending_order_exists, fetch_positions,
    fetch_open_orders, client_cancel_order.
  keeps_auto; apply keeps_place_market_order.
Qed.

Lemma keeps_place_entry side p sup dem : keeps handled_of (place_entry side p sup dem).
Proof.
  unfold place_entry, submit_entry.
  keeps_auto; first [apply keeps_place_order | apply keeps_attach_bracket].
Qed.

Lemma keeps_process_signal sg : keeps handled_of (process_signal sg).
Proof.
  unfold process_signal. apply keeps_bind; [apply keeps_before_entry|].
  intros [[side p]|]; [apply keeps_place_entry|apply keeps_ret].
Qed.

(** C5.  Signals are deduplicated on their text alone.  In the polling
    loop a fetched signal whose text equals the text of the last processed
    signal is a no-op: [process_signal] is not called, nothing is sent and
    the processor is unchanged, whatever its price and zone fields are.
    Two consecutive signals with the same text, where no signal was
    processed before or the last processed one has another text, lead to
    exactly one call of [process_signal], with the first signal. *)
Theorem signal_deduplication (sp : signal_processor) (w : world) (sleep_interval : Q) :
  (forall old new : signal,
     last_signal sp = Some old -> sig_truthy old = true ->
     sig_text new = sig_text old ->
     let '((sp', w'), r) :=
       process_signals_iteration (Some new) sleep_interval (sp, w) in
     r = Ok false /\ sp' = sp /\ sent w' = sent w /\ handled w' = handled w) /\
  (forall s1 s2 : signal,
     sig_truthy s1 = true ->
     (forall old, last_signal sp = Some old -> sig_truthy old = true ->
        sig_text s1 <> sig_text old) ->
     sig_text s2 = sig_text s1 ->
     let '((_, w'), _) :=
       process_signals_loop [Some s1; Some s2] sleep_interval (sp, w) in
     handled w' = handled w ++ [s1]).
Proof.
  split.
  - intros old new Hlast Hold Htext.
    unfold process_signals_iteration. run_step. rewrite Hlast.
    unfold signals_are_different. rewrite Hold, Htext. cbn [negb].
    rewrite bool_decide_eq_true_2 by reflexivity.
    rewrite andb_false_r. run_step. auto.
  - intros s1 s2 Htruthy Hother Htext.
    assert (Hdiff : signals_are_different s1 (last_signal sp) = true).
    { unfold signals_are_different.
      destruct (last_signal sp) as [old|]; [|reflexivity].
      destruct (sig_truthy old) eqn:Hold; [|reflexivity]. cbn [negb].
      rewrite bool_decide_eq_false_2 by exact (Hother old eq_refl Hold). reflexivity. }
    cbn [process_signals_loop]. unfold process_signals_iteration at 1.
    run_step. rewrite Htruthy, Hdiff. cbn [andb]. run_step.
    pose proof (keeps_process_signal s1
                  (sp, {| gw := gw w; sent := sent w; handled := handled w ++ [s1] |}))
      as Hkeep.
    destruct (process_signal s1 _) as [[sp1 w1] [o|e]];
      unfold handled_of in Hkeep; run_step; [|exact Hkeep].
    unfold set_last_signal, process_signals_iteration. run_step.
    cbn [last_signal].
    unfold signals_are_different. rewrite Htruthy, Htext. cbn [negb].
    rewrite bool_decide_eq_true_2 by reflexivity.
    rewrite andb_false_r. run_step. exact Hkeep.
Qed.

Lemma submit_entry_sent side entry_price sl_price tp_price (s : sp_world) :
  let '((_, w'), _) := submit_entry side entry_price sl_price tp_price s in
  sent w' = sent (snd s) ++ entry_requests side entry_price sl_price tp_price (gw (snd s)).
Proof.
  destruct s as [sp w].
  unfold submit_entry, place_order, create_limit_order, create_order,
    attach_bracket_to_order, client_modify_bracket_order, entry_requests, now_ms.
  run_step.
  destruct (gw_create_order "BTCUSD" "limit" side 1 (Some entry_price)
              (Some "gtc"%string) (gw w)) as [g1 [o|e]]; run_step.
  - destruct (gw_modify_bracket _ 27%Z "BTCUSD" _ g1) as [g2 [b|e]] eqn:Eb; run_step.
    + match goal with
      | |- context [match ?m !! ?k with _ => _ end] => destruct (m !! k)
      end; run_step; rewrite <- app_assoc; reflexivity.
    + rewrite <- app_assoc. reflexivity.
  - reflexivity.
Qed.

(** C8.  Entry construction.  When [process_signal] passes the
    duplicate-guard with side buy or sell and resolved price [price]: if the
    supply-zone minimum or the demand-zone minimum is absent it returns
    [None] and sends nothing more; otherwise it sends the limit order at
    [price - 50] (buy) or [price + 50] (sell) and, whenever the gateway
    accepts that order, the bracket for the recorded order with stop
    [price - 500] and target [price + 3000] (buy) or stop [price + 500] and
    target [price - 3000] (sell); when the gateway refuses the limit order
    nothing follows it.  The zone values appear nowhere in these requests. *)
Theorem entry_construction (sg : signal) (s s1 : sp_world) (new_side : option string)
    (raw_price : pyval) :
  before_entry sg s = (s1, Ok (Some (new_side, raw_price))) ->
  let raw_supply := default PNone (sig_supply_min sg) in
  let raw_demand := default PNone (sig_demand_min sg) in
  let '((_, w'), r) := process_signal sg s in
  (raw_supply = PNone \/ raw_demand = PNone ->
   r = Ok None /\ sent w' = sent (snd s1)) /\
  (raw_supply <> PNone -> raw_demand <> PNone ->
   forall price, py_float raw_price = Ok price ->
   (new_side = Some "buy"%string ->
    sent w' = sent (snd s1) ++
      entry_requests "buy" (price - 50) (price - 500) (price + 3000) (gw (snd s1))) /\
   (new_side = Some "sell"%string ->
    sent w' = sent (snd s1) ++
      entry_requests "sell" (price + 50) (price + 500) (price - 3000) (gw (snd s1)))).
Proof.
  intros Hpre raw_supply raw_demand.
  unfold process_signal, bind. rewrite Hpre.
  fold raw_supply raw_demand.
  destruct (place_entry new_side raw_price raw_supply raw_demand s1)
    as [[sp' w'] r] eqn:Hplace.
  split.
  - intros Hmissing. unfold place_entry in Hplace.
    destruct Hmissing as [Hm | Hm]; rewrite Hm in Hplace.
    + destruct s1 as [sp1 w1]. cbv beta delta [ret] in Hplace.
      inversion Hplace; subst; auto.
    + destruct s1 as [sp1 w1].
      destruct raw_supply; cbv beta delta [ret] in Hplace;
        inversion Hplace; subst; auto.
  - intros Hsup Hdem price Hprice. unfold place_entry in Hplace.
    assert (Hzones : forall (A : Type) (a b : A),
              match raw_supply, raw_demand with
              | PNone, _ | _, PNone => a
              | _, _ => b
              end = b).
    { intros. destruct raw_supply, raw_demand; congruence. }
    rewrite Hzones in Hplace. clear Hzones.
    split; intros ->.
    + rewrite bool_decide_eq_true_2 in Hplace by reflexivity.
      unfold bind, lift in Hplace. rewrite Hprice in Hplace.
      pose proof (submit_entry_sent "buy" (price - 50) (price - 500) (price + 3000) s1)
        as Hs.
      rewrite Hplace in Hs. exact Hs.
    + rewrite bool_decide_eq_false_2 in Hplace by discriminate.
      rewrite bool_decide_eq_true_2 in Hplace by reflexivity.
      unfold bind, lift in Hplace. rewrite Hprice in Hplace.
      pose proof (submit_entry_sent "sell" (price + 50) (price + 500) (price - 3000) s1)
        as Hs.
      rewrite Hplace in Hs. exact Hs.
Qed.

Lemma monitor_websocket_passes schedule : forall now fd,
  length (snd (monitor_websocket schedule now fd)) = length schedule.
Proof.
  induction schedule as [|arrivals rest IH]; intros now fd; cbn; [reflexivity|].
  specialize (IH (now + 1) (fold_left (fun f tm => on_message (fst tm) (snd tm) f) arrivals fd)).
  destruct (monitor_websocket rest _ _) as [fd' later]. cbn in *. congruence.
Qed.

Lemma on_message_time now msg fd :
  valid_trade msg -> last_update_time (on_message now msg fd) = now.
Proof.
  intros (p & q & m & price & qty & Hp & Hq & Hm & Hprice & Hqty).
  unfold on_message. rewrite Hp, Hq, Hm, Hprice, Hqty. reflexivity.
Qed.

Lemma on_message_invalid now msg fd : ~ valid_trade msg -> on_message now msg fd = fd.
Proof.
  intros Hinvalid. unfold on_message.
  destruct (msg_p msg) as [p|] eqn:Hp; [|reflexivity].
  destruct (msg_q msg) as [q|] eqn:Hq; [|reflexivity].
  destruct (msg_m msg) as [m|] eqn:Hm; [|reflexivity].
  destruct (py_float p) as [price|] eqn:Hprice; [|reflexivity].
  destruct (py_float q) as [qty|] eqn:Hqty; [|reflexivity].
  exfalso. apply Hinvalid. exists p, q, m, price, qty. auto.
Qed.

Lemma arrivals_invalid msgs : forall fd,
  Forall (fun tm => ~ valid_trade (snd tm)) msgs ->
  fold_left (fun f tm => on_message (fst tm) (snd tm) f) msgs fd = fd.
Proof.
  induction msgs as [|[t msg] rest IH]; intros fd Hall; cbn; [reflexivity|].
  rewrite (on_message_invalid t msg fd (Forall_inv Hall)).
  apply IH, (Forall_inv_tail Hall).
Qed.

Lemma arrivals_time msgs fd t :
  last_valid_at msgs (last_update_time fd) t ->
  last_update_time (fold_left (fun f tm => on_message (fst tm) (snd tm) f) msgs fd) = t.
Proof.
  intros [[Hall ->] | (before & msg & after & -> & Hvalid & Hafter)].
  - rewrite (arrivals_invalid msgs fd Hall). reflexivity.
  - rewrite fold_left_app. cbn [fold_left fst snd].
    rewrite (arrivals_invalid after _ Hafter). apply on_message_time, Hvalid.
Qed.

Lemma monitor_websocket_pass schedule : forall now fd i acts,
  nth_error (snd (monitor_websocket schedule now fd)) i = Some acts ->
  acts = monitor_check (tick_time now i)
           (fold_left (fun f tm => on_message (fst tm) (snd tm) f)
              (concat (firstn (S i) schedule)) fd).
Proof.
  induction schedule as [|arrivals rest IH]; intros now fd i acts Hnth.
  - destruct i; discriminate Hnth.
  - cbn [monitor_websocket] in Hnth.
    specialize (IH (now + 1)
                  (fold_left (fun f tm => on_message (fst tm) (snd tm) f) arrivals fd)).
    destruct (monitor_websocket rest _ _) as [fd' later]. cbn [snd] in *.
    destruct i as [|j].
    + cbn in Hnth. injection Hnth as <-.
      cbn [firstn concat tick_time]. rewrite app_nil_r. reflexivity.
    + cbn [nth_error] in Hnth. rewrite (IH j acts Hnth).
      change (firstn (S (S j)) (arrivals :: rest)) with (arrivals :: firstn (S j) rest).
      cbn [concat tick_time]. rewrite fold_left_app. reflexivity.
Qed.

Lemma tick_time_eq i : forall now, tick_time now i == now + inject_Z (Z.of_nat (S i)).
Proof.
  induction i as [|j IH]; intros now.
  - change (now + 1 == now + 1). reflexivity.
  - cbn [tick_time]. rewrite IH.
    rewrite (Nat2Z.inj_succ (S j)). unfold Z.succ. rewrite inject_Z_plus.
    change (inject_Z 1) with 1. lra.
Qed.

Lemma monitor_websocket_stale schedule : forall now fd,
  Forall (Forall (fun tm => ~ valid_trade (snd tm))) schedule ->
  3 < now + 1 - last_update_time fd ->
  snd (monitor_websocket schedule now fd)
    = repeat [WsClose; WsStartThread] (length schedule).
Proof.
  induction schedule as [|arrivals rest IH]; intros now fd Hsilent Hstale; cbn;
    [reflexivity|].
  rewrite (arrivals_invalid arrivals fd (Forall_inv Hsilent)).
  assert (Hnext : 3 < now + 1 + 1 - last_update_time fd) by lra.
  specialize (IH (now + 1) fd (Forall_inv_tail Hsilent) Hnext).
  destruct (monitor_websocket rest (now + 1) fd) as [fd' later].
  cbn in *. unfold monitor_check.
  apply Qltb_lt in Hstale. rewrite Hstale. congruence.
Qed.

(** C7 (amended).  The watchdog makes one pass per second of its run and
    no pass ends it.  At every pass, whatever messages arrived before it:
    when more than 3 seconds have elapsed since the last valid message (or
    since the initial [last_update_time] when none was valid), the pass
    closes the subscription and starts a fresh one in a new thread, and
    otherwise it does nothing.  While no valid message arrives, every pass
    of a stale period reconnects again: [n] such passes trigger [n]
    reconnects. *)
Theorem watchdog_reconnects_every_stale_pass
    (schedule : list (list (Q * message))) (now : Q) (fd : feed) :
  length (snd (monitor_websocket schedule now fd)) = length schedule /\
  (forall i acts last,
     nth_error (snd (monitor_websocket schedule now fd)) i = Some acts ->
     last_valid_at (concat (firstn (S i) schedule)) (last_update_time fd) last ->
     let elapsed := now + inject_Z (Z.of_nat (S i)) - last in
     (3 < elapsed -> acts = [WsClose; WsStartThread]) /\
     (elapsed <= 3 -> acts = [])) /\
  (Forall (Forall (fun tm => ~ valid_trade (snd tm))) schedule ->
   3 < now + 1 - last_update_time fd ->
   reconnects (snd (monitor_websocket schedule now fd)) = length schedule).
Proof.
  split; [apply monitor_websocket_passes|]. split.
  - intros i acts last Hnth Hlast elapsed. subst elapsed.
    rewrite (monitor_websocket_pass schedule now fd i acts Hnth).
    unfold monitor_check. rewrite (arrivals_time _ fd last Hlast).
    pose proof (tick_time_eq i now) as Htick.
    split; intros Hs.
    + assert (Hlt : 3 < tick_time now i - last) by lra.
      apply Qltb_lt in Hlt. rewrite Hlt. reflexivity.
    + assert (Hle : tick_time now i - last <= 3) by lra.
      apply Qltb_ge in Hle. rewrite Hle. reflexivity.
  - intros Hsilent Hs. rewrite (monitor_websocket_stale schedule now fd Hsilent Hs).
    unfold reconnects. generalize (length schedule). clear.
    intros n. induction n as [|n IH]; cbn in *; congruence.
Qed.

(** *** Further properties of [ProfitTrailing] *)

Lemma py_max_ge_r (a b : Q) : b <= py_max a b.
Proof.
  unfold py_max. destruct (Qltb a b) eqn:E.
  - apply Qle_refl.
  - apply Qltb_ge, E.
Qed.

Lemma py_min_le_r (a b : Q) : py_min a b <= b.
Proof.
  unfold py_min. destruct (Qltb b a) eqn:E.
  - apply Qle_refl.
  - apply Qltb_ge, E.
Qed.

Lemma update_trailing_stop_max self pos live_price entry :
  py_float (entry_field pos) = Ok entry ->
  position_max_profit (fst (update_trailing_stop self pos live_price)) =
    Some (<[pos_id pos := py_max (excursion self (pos_id pos))
                                 (profit_points pos live_price entry)]>
            (default ∅ (position_max_profit self))).
Proof.
  intros E. unfold update_trailing_stop, excursion, profit_points. rewrite E. cbn zeta.
  destruct (Qltb 1000 _ && Qltb 0 _)%bool; destruct (Qeq_bool entry 0); reflexivity.
Qed.

Lemma update_trailing_stop_excursion self pos live_price oid :
  excursion self oid <= excursion (fst (update_trailing_stop self pos live_price)) oid.
Proof.
  destruct (py_float (entry_field pos)) as [entry|e] eqn:E.
  - unfold excursion at 2.
    rewrite (update_trailing_stop_max self pos live_price entry E).
    cbn [default from_option id].
    destruct (decide (pos_id pos = oid)) as [<-|Hne].
    + rewrite lookup_insert_eq. cbn [default]. apply py_max_ge_l.
    + rewrite lookup_insert_ne by exact Hne. apply Qle_refl.
  - rewrite (update_trailing_stop_unparsable self pos live_price e E). apply Qle_refl.
Qed.

(** X1.  The excursion recorded for an id never decreases, whatever
    positions and prices are evaluated in between, and an engine that starts
    empty never records a negative excursion. *)
Theorem excursion_monotone (calls : list (position * Q)) (self : profit_trailing)
    (oid : pyid) (interval : Q) :
  excursion self oid <= excursion (fst (evaluate_all self calls)) oid /\
  0 <= excursion (fst (evaluate_all (new_profit_trailing interval) calls)) oid.
Proof.
  assert (Hmono : forall self0,
            excursion self0 oid <= excursion (fst (evaluate_all self0 calls)) oid).
  { induction calls as [|[pos p] rest IH]; intros self0; cbn; [apply Qle_refl|].
    pose proof (update_trailing_stop_excursion self0 pos p oid) as Hstep.
    destruct (update_trailing_stop self0 pos p) as [self1 r]. cbn in Hstep.
    specialize (IH self1). destruct (evaluate_all self1 rest) as [self2 stops].
    cbn in *. eapply Qle_trans; eassumption. }
  split; [apply Hmono|].
  eapply Qle_trans; [|apply Hmono]. unfold excursion. cbn.
  rewrite lookup_empty. apply Qle_refl.
Qed.

(** X2.  An evaluation touches only the records of the evaluated id: the
    stop and the excursion stored for every other id, the cached positions,
    the display cache and the trade manager are unchanged. *)
Theorem update_trailing_stop_frame (self : profit_trailing) (pos : position)
    (live_price : Q) (k : pyid) :
  k <> pos_id pos ->
  let self' := fst (update_trailing_stop self pos live_price) in
  position_trailing_stop self' !! k = position_trailing_stop self !! k /\
  excursion self' k = excursion self k /\
  cached_positions self' = cached_positions self /\
  last_display self' = last_display self /\
  pt_trade_manager self' = pt_trade_manager self /\
  last_had_positions self' = last_had_positions self.
Proof.
  intros Hk. cbn zeta.
  destruct (py_float (entry_field pos)) as [entry|e] eqn:E.
  - pose proof (update_trailing_stop_stored self pos live_price entry E) as Hs.
    pose proof (update_trailing_stop_max self pos live_price entry E) as Hm.
    assert (Hrest : cached_positions (fst (update_trailing_stop self pos live_price))
                      = cached_positions self /\
                    last_display (fst (update_trailing_stop self pos live_price))
                      = last_display self /\
                    pt_trade_manager (fst (update_trailing_stop self pos live_price))
                      = pt_trade_manager self /\
                    last_had_positions (fst (update_trailing_stop self pos live_price))
                      = last_had_positions self).
    { unfold update_trailing_stop. rewrite E. cbn zeta.
      destruct (Qltb 1000 _ && Qltb 0 _)%bool; destruct (Qeq_bool entry 0);
        repeat split. }
    destruct (update_trailing_stop self pos live_price) as [self1 r]. cbn [fst] in *.
    destruct Hs as (_ & Hother & _).
    split; [apply Hother, Hk|]. split; [|exact Hrest].
    unfold excursion. rewrite Hm. cbn [default from_option id].
    rewrite lookup_insert_ne by congruence. reflexivity.
  - rewrite (update_trailing_stop_unparsable self pos live_price e E). cbn.
    repeat split.
Qed.

(** X3.  Where the stop of an evaluated position lies.  For a long the
    returned stop is never more than 500 points below the entry price, and
    under [lock_50] it is at least 500 points above it; for a position that
    is not long the stop is never more than 500 points above the entry, and
    under [lock_50] at least 500 points below it.  The bounds are not strict:
    the sums are rounded, and the stop can land on the bound itself. *)
Theorem stop_bounds (self self' : profit_trailing) (pos : position)
    (live_price entry stop ratio : Q) (rl : rule) :
  py_float (entry_field pos) = Ok entry ->
  update_trailing_stop self pos live_price = (self', Ok (Some (stop, ratio, rl))) ->
  (0 < parse_size pos ->
   entry - 500 <= stop /\ (rl = lock_50 -> entry + 500 <= stop)) /\
  (parse_size pos <= 0 ->
   stop <= entry + 500 /\ (rl = lock_50 -> stop <= entry - 500)).
Proof.
  intros E Hup. unfold update_trailing_stop in Hup. rewrite E in Hup. cbn zeta in Hup.
  set (cur := if Qltb 0 (parse_size pos) then live_price - entry else entry - live_price)
    in Hup.
  set (mx := py_max _ cur) in Hup.
  cbn [position_trailing_stop set_trailing_stop set_max_profit] in Hup.
  destruct (Qltb 1000 mx && Qltb 0 cur)%bool eqn:Hrule.
  - apply andb_true_iff in Hrule as [Hmx _]. apply Qltb_lt in Hmx.
    destruct (Qeq_bool entry 0); [discriminate|].
    injection Hup as _ <- _ <-.
    clearbody mx cur.
    assert (Hhalf : 500 <= mx / 2)
      by (unfold Qdiv; change (/ 2) with (1 # 2); lra).
    split; intros Hside.
    + apply Qltb_lt in Hside. rewrite Hside.
      assert (Hlock : entry + 500 <= entry + mx / 2) by lra.
      destruct (position_trailing_stop self !! pos_id pos) as [st|].
      * pose proof (py_max_ge_r st (entry + mx / 2)). split; [lra|intros _; lra].
      * split; [lra|intros _; lra].
    + apply Qltb_ge in Hside. rewrite Hside.
      assert (Hlock : entry - mx / 2 <= entry - 500) by lra.
      destruct (position_trailing_stop self !! pos_id pos) as [st|].
      * pose proof (py_min_le_r st (entry - mx / 2)). split; [lra|intros _; lra].
      * split; [lra|intros _; lra].
  - destruct (Qeq_bool entry 0); [discriminate|].
    injection Hup as _ <- _ <-.
    split; intros Hside.
    + apply Qltb_lt in Hside. rewrite Hside.
      destruct (position_trailing_stop self !! pos_id pos) as [st|].
      * pose proof (py_max_ge_r st (entry - 500)). split; [lra|discriminate].
      * split; [lra|discriminate].
    + apply Qltb_ge in Hside. rewrite Hside.
      destruct (position_trailing_stop self !! pos_id pos) as [st|].
      * pose proof (py_min_le_r st (entry + 500)). split; [lra|discriminate].
      * split; [lra|discriminate].
Qed.

(** X4.  The three profit computations agree.  When the entry price does
    not parse, [compute_profit_pct] and [compute_raw_profit] return [None]
    and [update_trailing_stop] returns the error triple without touching the
    engine; when it parses to zero, the percentage and the evaluation both
    divide by zero; otherwise all three return numbers built on the same
    signed difference of live price and entry: the percentage is that
    difference over the entry, the raw profit is that difference times
    |size|, and the ratio reported under [fixed_stop] is the percentage. *)
Theorem profit_methods_agree (self : profit_trailing) (pos : position) (live_price : Q) :
  match py_float (entry_field pos) with
  | Raise _ =>
      compute_profit_pct pos live_price = Ok None /\
      compute_raw_profit pos live_price = None /\
      update_trailing_stop self pos live_price = (self, Ok None)
  | Ok entry =>
      if Qeq_bool entry 0 then
        compute_profit_pct pos live_price = Raise ZeroDivisionError /\
        snd (update_trailing_stop self pos live_price) = Raise ZeroDivisionError
      else
        exists pct raw stop ratio rl,
          compute_profit_pct pos live_price = Ok (Some pct) /\
          compute_raw_profit pos live_price = Some raw /\
          pct = profit_points pos live_price entry / entry /\
          raw == profit_points pos live_price entry * Qabs (parse_size pos) /\
          snd (update_trailing_stop self pos live_price) = Ok (Some (stop, ratio, rl)) /\
          (rl = fixed_stop -> ratio = pct)
  end.
Proof.
  destruct (py_float (entry_field pos)) as [entry|e] eqn:E.
  - destruct (Qeq_bool entry 0) eqn:Hz.
    + unfold compute_profit_pct, update_trailing_stop. rewrite E, Hz. cbn zeta.
      split; [reflexivity|].
      destruct (Qltb 1000 _ && Qltb 0 _)%bool; reflexivity.
    + assert (Hnz : ~ entry == 0).
      { intros Hq. apply Qeq_bool_iff in Hq. congruence. }
      unfold compute_profit_pct, compute_raw_profit, update_trailing_stop, profit_points.
      rewrite E, Hz. cbn zeta.
      destruct (Qltb 0 (parse_size pos)) eqn:Hside.
      * apply Qltb_lt in Hside.
        destruct (Qltb 1000 _ && Qltb 0 _)%bool;
          do 5 eexists; (split; [reflexivity|]); (split; [reflexivity|]);
          (split; [reflexivity|]);
          (split; [|split; [reflexivity|first [discriminate|reflexivity]]]);
          rewrite (Qabs_pos (parse_size pos)) by (apply Qlt_le_weak, Hside);
          reflexivity.
      * destruct (Qltb 1000 _ && Qltb 0 _)%bool;
          do 5 eexists; (split; [reflexivity|]); (split; [reflexivity|]);
          (split; [reflexivity|]);
          (split; [|split; [reflexivity|first [discriminate|reflexivity]]]);
          reflexivity.
  - unfold compute_profit_pct, compute_raw_profit. rewrite E.
    rewrite (update_trailing_stop_unparsable self pos live_price e E). auto.
Qed.

(** *** Trace lemmas: which requests a computation can add *)

Section Emits.
Context {S : Type} (log : S -> list request) (P : request -> Prop).

Lemma emits_same {A} (m : M S A) : (forall s, log (fst (m s)) = log s) -> emits log P m.
Proof. intros Hm s. exists []. rewrite app_nil_r. split; [apply Hm|constructor]. Qed.

Lemma emits_ret {A} (a : A) : emits log P (ret a).
Proof. apply emits_same. reflexivity. Qed.

Lemma emits_raise {A} (e : exn) : emits log P (raise (A:=A) e).
Proof. apply emits_same. reflexivity. Qed.

Lemma emits_lift {A} (r : result A) : emits log P (lift r).
Proof. apply emits_same. reflexivity. Qed.

Lemma emits_read {A} (f : S -> A) : emits log P (read f).
Proof. apply emits_same. reflexivity. Qed.

Lemma emits_bind {A B} (m : M S A) (k : A -> M S B) :
  emits log P m -> (forall a, emits log P (k a)) -> emits log P (bind m k).
Proof.
  intros Hm Hk s. unfold bind. destruct (Hm s) as (l1 & H1 & HP1).
  destruct (m s) as [s1 [a|e]]; cbn in *; [|eauto].
  destruct (Hk a s1) as (l2 & H2 & HP2).
  exists (l1 ++ l2). rewrite H2, H1, app_assoc. split; [reflexivity|].
  apply Forall_app. auto.
Qed.

Lemma emits_try {A} (m : M S A) (h : exn -> M S A) :
  emits log P m -> (forall e, emits log P (h e)) -> emits log P (try_except m h).
Proof.
  intros Hm Hh s. unfold try_except. destruct (Hm s) as (l1 & H1 & HP1).
  destruct (m s) as [s1 [a|e]]; cbn in *; [eauto|].
  destruct (Hh e s1) as (l2 & H2 & HP2).
  exists (l1 ++ l2). rewrite H2, H1, app_assoc. split; [reflexivity|].
  apply Forall_app. auto.
Qed.

Lemma emits_for_each {A} (body : A -> M S unit) (xs : list A) :
  (forall x, emits log P (body x)) -> emits log P (for_each body xs).
Proof.
  intros Hb. induction xs as [|x xs IH]; cbn [for_each].
  - apply emits_ret.
  - apply emits_bind; [apply Hb|intros _; exact IH].
Qed.

Lemma emits_zoom {T A} (log' : T -> list request) (get : S -> T) (set : T -> S -> S)
    (m : M T A) :
  (forall s, log' (get s) = log s) ->
  (forall t s, log (set t s) = log' t) ->
  emits log' P m -> emits log P (zoom get set m).
Proof.
  intros Hget Hset Hm s. unfold zoom. destruct (Hm (get s)) as (l & Hl & HP).
  destruct (m (get s)) as [t r]. cbn in *. exists l.
  rewrite Hset, Hl, Hget. auto.
Qed.

End Emits.

Lemma emits_weaken {S A} (log : S -> list request) (P Q : request -> Prop) (m : M S A) :
  (forall rq, P rq -> Q rq) -> emits log P m -> emits log Q m.
Proof.
  intros HPQ Hm s. destruct (Hm s) as (l & Hl & HP). exists l. split; [exact Hl|].
  eapply Stdlib.Lists.List.Forall_impl; [exact HPQ|exact HP].
Qed.

Lemma emits_call {A} P rq (f : G -> G * result A) : P rq -> emits sent P (call rq f).
Proof.
  intros HP w. unfold call. destruct (f (gw w)). exists [rq]. split; [reflexivity|].
  constructor; [exact HP|constructor].
Qed.

Lemma emits_pure_env {A} P (f : G -> G * A) : emits sent P (pure_env f).
Proof. apply emits_same. intros w. unfold pure_env. destruct (f (gw w)). reflexivity. Qed.

Lemma emits_sleep P d : emits sent P (time_sleep (G:=G) d).
Proof. apply emits_same. reflexivity. Qed.

Lemma emits_note_handled P sg : emits sent P (note_handled (G:=G) sg).
Proof. apply emits_same. reflexivity. Qed.

Lemma emits_in_world {S A} P (m : M (@world G) A) :
  emits sent P m -> emits (sent_of (S:=S)) P (in_world m).
Proof. apply emits_zoom; reflexivity. Qed.

Lemma emits_set_orders P m :
  emits (sent_of (S:=order_manager)) P (set_orders (G:=G) m).
Proof. apply emits_same. reflexivity. Qed.

Lemma emits_in_order_manager {A} P (m : M (@om_world G) A) :
  emits sent_of P m -> emits sent_of P (in_order_manager m).
Proof. apply emits_zoom; reflexivity. Qed.

Lemma emits_in_trade_manager {A} P (m : M (@tm_world G) A) :
  emits sent_of P m -> emits sent_of P (in_trade_manager m).
Proof. apply emits_zoom; reflexivity. Qed.

Lemma emits_sp_in_order_manager {A} P (m : M (@om_world G) A) :
  emits sent_of P m -> emits sent_of P (sp_in_order_manager m).
Proof. apply emits_zoom; reflexivity. Qed.

Lemma emits_sp_in_trade_manager {A} P (m : M (@tm_world G) A) :
  emits sent_of P m -> emits sent_of P (sp_in_trade_manager m).
Proof. apply emits_zoom; reflexivity. Qed.

Lemma emits_set_last_signal P sg :
  emits sent_of P (set_last_signal (G:=G) sg).
Proof. apply emits_same. reflexivity. Qed.

Lemma emits_in_self {A} P (m : profit_trailing -> profit_trailing * result A) :
  emits sent_of P (in_self (G:=G) m).
Proof.
  apply emits_same. intros [self w]. unfold in_self. cbn. destruct (m self). reflexivity.
Qed.

Lemma emits_modify_self P f : emits sent_of P (modify_self (G:=G) f).
Proof. apply emits_same. reflexivity. Qed.

(** Structural proof search for [emits] goals.  Methods already dealt with
    are leaves (hint database [emits_leaf]); the side condition of a gateway
    call is left to [cbn; auto]. *)
Create HintDb emits_leaf.

Ltac emits_step :=
  first
    [ solve [auto 1 with emits_leaf nocore]
    | apply emits_ret | apply emits_raise | apply emits_lift | apply emits_read
    | apply emits_pure_env | apply emits_sleep | apply emits_note_handled
    | apply emits_set_orders | apply emits_set_last_signal
    | apply emits_in_self | apply emits_modify_self
    | apply emits_call; cbn; solve [auto]
    | apply emits_bind; [|intros ?]
    | apply emits_try; [|intros ?]
    | apply emits_for_each; intros ?
    | apply emits_in_world
    | apply emits_in_order_manager
    | apply emits_in_trade_manager
    | apply emits_sp_in_order_manager
    | apply emits_sp_in_trade_manager
    | match goal with
      | |- emits _ _ (match ?x with _ => _ end) => destruct x
      | |- emits _ _ (if ?b then _ else _) => destruct b
      end ].

Ltac emits_auto := repeat emits_step.

Lemma emits_forced_close side amount :
  emits sent_of engine_request
    (place_market_order "BTCUSD" side amount (Some "ioc"%string) true).
Proof.
  unfold place_market_order, submit_market_order, fetch_positions, create_order,
    now_ms, get_orders.
  emits_auto.
Qed.

#[local] Hint Resolve emits_forced_close : emits_leaf.

Lemma emits_book_profit pos live_price :
  emits sent_of engine_request (book_profit pos live_price).
Proof.
  intros [self w].
  pose proof (update_trailing_stop_rules self pos live_price) as Hr.
  unfold book_profit. run_step.
  destruct (update_trailing_stop self pos live_price) as [self1 r]. cbn in Hr.
  destruct r as [[[[stop ratio] rl]|]|e]; run_step;
    try (exists []; rewrite app_nil_r; split; [reflexivity|constructor]).
  assert (Hclose : forall side amount,
    exists l,
      sent_of (fst (in_trade_manager
                      (place_market_order "BTCUSD" side amount (Some "ioc"%string) true)
                      (self1, w))) = sent w ++ l /\ Forall engine_request l).
  { intros side amount.
    exact (emits_in_trade_manager _ _ (emits_forced_close side amount) (self1, w)). }
  unfold in_trade_manager, zoom, sent_of in Hclose. cbn [fst snd] in Hclose.
  destruct Hr as [-> | ->].
  - destruct (Qltb 0 (parse_size pos) && Qltb live_price stop)%bool.
    + specialize (Hclose "sell"%string (parse_size pos)).
      destruct (place_market_order _ _ _ _ _ _) as [[tm' w'] [o|e]]; exact Hclose.
    + destruct (Qltb (parse_size pos) 0 && Qltb stop live_price)%bool.
      * specialize (Hclose "buy"%string (Qabs (parse_size pos))).
        destruct (place_market_order _ _ _ _ _ _) as [[tm' w'] [o|e]]; exact Hclose.
      * exists []. rewrite app_nil_r. split; [reflexivity|constructor].
  - destruct (Qltb 0 (parse_size pos) && Qltb live_price stop)%bool.
    + specialize (Hclose "sell"%string (parse_size pos)).
      destruct (place_market_order _ _ _ _ _ _) as [[tm' w'] [o|e]]; exact Hclose.
    + destruct (Qltb (parse_size pos) 0 && Qltb stop live_price)%bool.
      * specialize (Hclose "buy"%string (Qabs (parse_size pos))).
        destruct (place_market_order _ _ _ _ _ _) as [[tm' w'] [o|e]]; exact Hclose.
      * exists []. rewrite app_nil_r. split; [reflexivity|constructor].
Qed.

#[local] Hint Resolve emits_book_profit : emits_leaf.

Lemma emits_track_position live_price pos :
  emits sent_of engine_request (track_position live_price pos).
Proof. unfold track_position, get_self. emits_auto. Qed.

#[local] Hint Resolve emits_track_position : emits_leaf.

(** X9.  Request discipline of the trailing engine.  Whatever the state
    and the gateway's answers, the only requests a pass of [track] sends are
    position queries and forced immediate-or-cancel market orders on BTCUSD:
    it never places a limit order, never cancels an order and never updates a
    bracket. *)
Theorem track_sends_only_closes : emits sent_of engine_request track_iteration.
Proof.
  unfold track_iteration, fetch_open_positions, fetch_positions, get_self.
  emits_auto.
Qed.

Lemma update_trailing_stop_returns self pos live_price entry :
  py_float (entry_field pos) = Ok entry -> ~ entry == 0 ->
  exists stop ratio rl,
    snd (update_trailing_stop self pos live_price) = Ok (Some (stop, ratio, rl)) /\
    (rl = fixed_stop \/ rl = lock_50).
Proof.
  intros E Hnz.
  pose proof (update_trailing_stop_stored self pos live_price entry E) as Hs.
  destruct (update_trailing_stop self pos live_price) as [self1 r]. cbn.
  destruct Hs as (_ & _ & Hr).
  destruct r as [[[[stop ratio] rl]|]|e]; [|contradiction|tauto].
  exists stop, ratio, rl. tauto.
Qed.

(** What [book_profit] can answer for a position whose entry price parses
    to a non-zero number: true or false, or an exception raised after the
    close order was sent. *)
Lemma book_profit_healthy pos live_price entry (s : pt_world) :
  py_float (entry_field pos) = Ok entry -> ~ entry == 0 ->
  let '((_, w'), r) := book_profit pos live_price s in
  match r with
  | Ok _ => True
  | Raise _ =>
      exists side amount l,
        sent w' = sent (snd s) ++
          RqCreateOrder "BTCUSD" "market" side amount None (Some "ioc"%string) :: l
  end.
Proof.
  intros E Hnz. destruct s as [self w].
  destruct (update_trailing_stop_returns self pos live_price entry E Hnz)
    as (stop & ratio & rl & Hup & Hrl).
  unfold book_profit. run_step.
  destruct (update_trailing_stop self pos live_price) as [self1 r]. cbn in Hup. subst r.
  run_step.
  assert (Hclose : forall side amount,
    let '((_, w'), r) :=
      place_market_order "BTCUSD" side amount (Some "ioc"%string) true
        (pt_trade_manager self1, w) in
    match r with
    | Ok _ => True
    | Raise _ =>
        exists side amount l,
          sent w' = sent w ++
            RqCreateOrder "BTCUSD" "market" side amount None (Some "ioc"%string) :: l
    end).
  { intros side amount.
    pose proof (place_market_order_forced "BTCUSD" side amount (Some "ioc"%string)
                  (pt_trade_manager self1) w) as Hp.
    destruct (place_market_order _ _ _ _ _ _) as [[tm' w'] [o|e]]; [exact I|].
    destruct Hp as [_ Hp]. destruct (gateway_accepts _ _ _ _ _).
    - destruct Hp as [_ [info Hinfo]]. discriminate.
    - destruct Hp as [(l & Hl & _) _]. eauto. }
  destruct Hrl as [-> | ->].
  - destruct (Qltb 0 (parse_size pos) && Qltb live_price stop)%bool.
    + specialize (Hclose "sell"%string (parse_size pos)).
      destruct (place_market_order _ _ _ _ _ _) as [[tm' w'] [o|e]]; run_step; auto.
    + destruct (Qltb (parse_size pos) 0 && Qltb stop live_price)%bool; run_step; auto.
      specialize (Hclose "buy"%string (Qabs (parse_size pos))).
      destruct (place_market_order _ _ _ _ _ _) as [[tm' w'] [o|e]]; run_step; auto.
  - destruct (Qltb 0 (parse_size pos) && Qltb live_price stop)%bool.
    + specialize (Hclose "sell"%string (parse_size pos)).
      destruct (place_market_order _ _ _ _ _ _) as [[tm' w'] [o|e]]; run_step; auto.
    + destruct (Qltb (parse_size pos) 0 && Qltb stop live_price)%bool; run_step; auto.
      specialize (Hclose "buy"%string (Qabs (parse_size pos))).
      destruct (place_market_order _ _ _ _ _ _) as [[tm' w'] [o|e]]; run_step; auto.
Qed.

(** X8.  A position whose entry price parses to a non-zero number never
    aborts the pass by itself: its evaluation in [track] completes, or it
    raises only after the forced close order has been sent to the gateway
    (the gateway's own failure). *)
Theorem track_position_healthy (live_price : Q) (pos : position) (entry : Q)
    (s : pt_world) :
  py_float (entry_field pos) = Ok entry -> ~ entry == 0 ->
  let '((_, w'), r) := track_position live_price pos s in
  match r with
  | Ok _ => True
  | Raise _ =>
      exists side amount l,
        sent w' = sent (snd s) ++
          RqCreateOrder "BTCUSD" "market" side amount None (Some "ioc"%string) :: l
  end.
Proof.
  intros E Hnz. destruct s as [self w].
  assert (Hz : Qeq_bool entry 0 = false).
  { destruct (Qeq_bool entry 0) eqn:Hq; [|reflexivity].
    apply Qeq_bool_iff in Hq. contradiction. }
  destruct (update_trailing_stop_returns self pos live_price entry E Hnz)
    as (stop & ratio & rl & Hup & _).
  unfold track_position, compute_profit_pct, compute_raw_profit.
  destruct (Qeq_bool (parse_size pos) 0); [exact I|].
  rewrite E, Hz. run_step.
  destruct (update_trailing_stop self pos live_price) as [self1 r]. cbn in Hup. subst r.
  run_step.
  assert (Hbook : forall self2,
    let '((_, w'), r) := book_profit pos live_price (self2, w) in
    match r with
    | Ok _ => True
    | Raise _ =>
        exists side amount l,
          sent w' = sent w ++
            RqCreateOrder "BTCUSD" "market" side amount None (Some "ioc"%string) :: l
    end).
  { intros self2. exact (book_profit_healthy pos live_price entry (self2, w) E Hnz). }
  destruct (Qltb 0 (parse_size pos));
    cbn [fmap option_fmap option_map format_log_line fst snd];
    match goal with
    | |- context [if ?b then _ else _] => destruct b
    end; run_step;
    match goal with
    | |- context [book_profit pos live_price (?st, w)] =>
        specialize (Hbook st);
        destruct (book_profit pos live_price (st, w)) as [[self3 w3] [b|e]]
    end; run_step; auto.
Qed.

(** X5.  [fetch_open_positions] never raises and sends exactly one position
    query.  It returns the reported positions that have a non-zero size and a
    symbol containing BTCUSD, and the empty list when the query fails. *)
Theorem fetch_open_positions_spec (w : world) :
  let '(w', r) := fetch_open_positions w in
  sent w' = sent w ++ [RqFetchPositions] /\
  exists ps, r = Ok ps /\
    match reported_positions w with
    | Ok all =>
        forall p, In p ps <->
                  In p all /\ ~ parse_size p == 0 /\
                  contains "BTCUSD" (symbol_of p) = true
    | Raise _ => ps = []
    end.
Proof.
  unfold fetch_open_positions, fetch_positions, reported_positions. run_step.
  destruct (gw_fetch_positions (gw w)) as [g1 [all|e]]; run_step.
  - split; [reflexivity|]. eexists. split; [reflexivity|].
    intros p. rewrite filter_In. unfold is_open_btc.
    rewrite andb_true_iff, negb_true_iff.
    split; intros (Hin & Hcond); (split; [exact Hin|]).
    + destruct Hcond as [Hsz Hsym]. split; [|exact Hsym].
      intros Hq. apply Qeq_bool_iff in Hq. congruence.
    + destruct Hcond as [Hsz Hsym]. split; [|exact Hsym].
      destruct (Qeq_bool (parse_size p) 0) eqn:Hq; [|reflexivity].
      apply Qeq_bool_iff in Hq. contradiction.
  - split; [reflexivity|]. eexists. split; reflexivity.
Qed.

(** [track_position] does not change the cached positions. *)
Lemma keeps_zoom_any {S T A O} (obs : S -> O) (get : S -> T) (set : T -> S -> S)
    (m : M T A) :
  (forall t s, obs (set t s) = obs s) -> keeps obs (zoom get set m).
Proof.
  intros Hset s. unfold zoom. destruct (m (get s)) as [t r]. cbn. apply Hset.
Qed.

Lemma update_trailing_stop_cached self pos live_price :
  cached_positions (fst (update_trailing_stop self pos live_price)) = cached_positions self.
Proof.
  unfold update_trailing_stop.
  destruct (py_float (entry_field pos)); [|reflexivity]. cbn zeta.
  destruct (Qltb 1000 _ && Qltb 0 _)%bool; destruct (Qeq_bool _ 0); reflexivity.
Qed.

Lemma keeps_cached_update pos live_price :
  keeps (fun s : @pt_world G => cached_positions (fst s))
        (in_self (fun self => update_trailing_stop self pos live_price)).
Proof.
  intros [self w]. unfold in_self. cbn [fst snd].
  pose proof (update_trailing_stop_cached self pos live_price) as Hc.
  destruct (update_trailing_stop self pos live_price). exact Hc.
Qed.

Lemma keeps_cached_book_profit pos live_price :
  keeps (fun s : @pt_world G => cached_positions (fst s)) (book_profit pos live_price).
Proof.
  unfold book_profit. apply keeps_bind; [apply keeps_cached_update|].
  intros [[[stop ratio] rl]|]; [|apply keeps_ret].
  assert (Htm : forall A (m : M (@tm_world G) A),
            keeps (fun s : @pt_world G => cached_positions (fst s)) (in_trade_manager m)).
  { intros A m. apply keeps_zoom_any. reflexivity. }
  destruct rl;
    repeat first
      [ apply keeps_ret | apply Htm
      | apply keeps_bind; [|intros ?]
      | apply keeps_try; [|intros ?]
      | match goal with
        | |- keeps _ (if ?b then _ else _) => destruct b
        end ].
Qed.

Lemma keeps_cached_track_position live_price pos :
  keeps (fun s : @pt_world G => cached_positions (fst s)) (track_position live_price pos).
Proof.
  unfold track_position, get_self.
  repeat first
    [ apply keeps_ret | apply keeps_lift | apply keeps_read
    | apply keeps_cached_update | apply keeps_cached_book_profit
    | intros ?; reflexivity
    | apply keeps_bind; [|intros ?]
    | match goal with
      | |- keeps _ (if ?b then _ else _) => destruct b
      end ].
Qed.

(** X6.  A pass of [track] that finds no live price evaluates nothing: it
    returns normally, the excursions, the display cache and the trade manager
    are untouched, the only request it may have sent is the position query of
    a due refresh, and it does not sleep before the next pass. *)
Theorem track_without_price (s : pt_world) :
  current_price (price_read_gateway s) = None ->
  let '((self', w'), r) := track_iteration s in
  r = Ok tt /\
  position_max_profit self' = position_max_profit (fst s) /\
  last_display self' = last_display (fst s) /\
  pt_trade_manager self' = pt_trade_manager (fst s) /\
  sent w' = sent (snd s) ++ (if refresh_due s then [RqFetchPositions] else []) /\
  gw w' = price_read_gateway s.
Proof.
  destruct s as [self w]. unfold price_read_gateway, refresh_due. cbn [fst snd].
  intros Hprice.
  unfold track_iteration, fetch_open_positions, fetch_positions. run_step.
  destruct (Qle_bool _ _); run_step.
  - destruct (gw_fetch_positions (gw w)) as [g1 [all|e]]; run_step; cbn [fst] in Hprice.
    + destruct (List.filter is_open_btc all); run_step; rewrite Hprice; run_step;
        repeat split.
    + rewrite Hprice. run_step. repeat split.
  - rewrite Hprice. run_step. rewrite app_nil_r. destruct w. repeat split.
Qed.

(** Projections of the engine record across its setters. *)
Ltac pt_simpl :=
  cbn [cached_positions last_had_positions position_trailing_stop position_max_profit
       check_interval last_display pt_trade_manager position_fetch_interval
       last_position_fetch_time set_cache set_trailing_stop set_last_had_positions
       set_last_display set_max_profit set_trade_manager fst snd] in *.

(** Closes a goal that assumes an empty cache after a loop over a non-empty
    one; [Hloop] states that the loop keeps the cache. *)
Ltac flat_contradiction Hloop :=
  match goal with
  | |- context [for_each ?body ?ps (?st, ?wd)] =>
      let Hne := fresh "Hne" in
      pose proof (Hloop ps st wd) as Hne;
      pt_simpl;
      destruct (for_each body ps (st, wd)) as [[? ?] [[]|?]];
      pt_simpl; intros Hempty; exfalso; apply Hne;
      first [assumption | reflexivity | discriminate | congruence]
  end.

(** X7.  A pass of [track] that reads a live price and ends with no cached
    position returns normally with every stored stop purged and
    [last_had_positions] cleared; it sends nothing but the position query of
    a due refresh, and it leaves the recorded excursions in place. *)
Theorem track_purge_when_flat (s : pt_world) (live_price : Q) :
  current_price (price_read_gateway s) = Some live_price ->
  let '((self', w'), r) := track_iteration s in
  cached_positions self' = [] ->
  r = Ok tt /\
  position_trailing_stop self' = ∅ /\
  last_had_positions self' = false /\
  position_max_profit self' = position_max_profit (fst s) /\
  sent w' = sent (snd s) ++ (if refresh_due s then [RqFetchPositions] else []).
Proof.
  destruct s as [self w]. unfold price_read_gateway, refresh_due. cbn [fst snd].
  intros Hprice.
  assert (Hloop : forall ps self1 w1,
    cached_positions self1 = ps -> ps <> [] ->
    cached_positions
      (fst (fst ((for_each (track_position live_price) ps ;;;
                  in_world (time_sleep (check_interval self1))) (self1, w1)))) <> []).
  { intros ps self1 w1 Hc Hne.
    assert (Hk : keeps (fun s : @pt_world G => cached_positions (fst s))
                   (for_each (track_position live_price) ps ;;;
                    in_world (time_sleep (check_interval self1)))).
    { apply keeps_bind;
        [apply keeps_for_each; intros ?; apply keeps_cached_track_position|].
      intros _. apply keeps_zoom_any. reflexivity. }
    rewrite (Hk (self1, w1)). cbn [fst]. congruence. }
  unfold track_iteration, fetch_open_positions, fetch_positions. run_step.
  destruct (Qle_bool _ _); run_step.
  - destruct (gw_fetch_positions (gw w)) as [g1 [all|e]]; run_step; cbn [fst] in Hprice.
    + destruct (List.filter is_open_btc all) as [|p ps] eqn:Hf; run_step;
        rewrite Hprice; run_step; pt_simpl.
      * destruct (last_had_positions self) eqn:Hlast; run_step; pt_simpl; intros _;
        repeat split; try assumption.
      * destruct (last_had_positions self); run_step; pt_simpl; flat_contradiction Hloop.
    + rewrite Hprice. run_step. pt_simpl.
      destruct (last_had_positions self) eqn:Hlast; run_step; pt_simpl; intros _;
        repeat split; try assumption.
  - rewrite Hprice. run_step.
    destruct (cached_positions self) as [|p ps] eqn:Hc; run_step; pt_simpl.
    + rewrite app_nil_r.
      destruct (last_had_positions self) eqn:Hlast; run_step; pt_simpl; intros _;
        repeat split; try assumption.
    + destruct (last_had_positions self); run_step; pt_simpl; flat_contradiction Hloop.
Qed.

(** *** Properties of [OrderManager] and [TradeManager] *)

(** X12.  [OrderManager.place_order] sends exactly one limit-order request
    with its arguments.  If the gateway raises, the exception propagates and
    the local cache is unchanged; otherwise the returned record carries the
    side, amount, price and time-in-force of the call, is stored in the cache
    under its own id, and no other cache entry changes. *)
Theorem place_order_spec (symbol side : string) (amount price : Q)
    (tif : option string) (om : order_manager) (w : world) :
  let '((om', w'), r) := place_order symbol side amount price tif (om, w) in
  sent w' = sent w ++ [RqCreateOrder symbol "limit" side amount (Some price) tif] /\
  match r with
  | Raise e =>
      snd (gw_create_order symbol "limit" side amount (Some price) tif (gw w)) = Raise e /\
      om' = om
  | Ok info =>
      oi_symbol info = symbol /\ oi_side info = side /\ oi_amount info = Some amount /\
      oi_price info = Some price /\ oi_time_in_force info = tif /\
      oi_bracket info = None /\
      orders om' !! oi_id info = Some info /\
      forall k, k <> oi_id info -> orders om' !! k = orders om !! k
  end.
Proof.
  unfold place_order, create_limit_order, create_order. run_step.
  destruct (gw_create_order symbol "limit" side amount (Some price) tif (gw w))
    as [g1 [o|e]]; run_step.
  - split; [reflexivity|]. cbn [oi_symbol oi_side oi_amount oi_price oi_time_in_force
                                oi_bracket oi_id orders].
    repeat split.
    + apply lookup_insert_eq.
    + intros k Hk. apply lookup_insert_ne. congruence.
  - split; [reflexivity|]. split; [reflexivity|]. destruct om. reflexivity.
Qed.

(** X13.  [OrderManager.attach_bracket_to_order] sends exactly one bracket
    update.  If the gateway raises, the exception propagates and the cache is
    unchanged.  Otherwise the record returned is the one stored under the
    order id; for an order already cached it keeps the order's side, amount,
    price, time-in-force and timestamp, takes the new stop, and keeps the old
    target when the update has none; for an unknown order a new record is
    created from the update. *)
Theorem attach_bracket_spec (order_id : pyid) (product_id : Z) (product_symbol : string)
    (b : bracket) (om : order_manager) (w : world) :
  let '((om', w'), r) :=
    attach_bracket_to_order order_id product_id product_symbol b (om, w) in
  sent w' = sent w ++ [RqModifyBracket order_id product_id product_symbol b] /\
  match r with
  | Raise e =>
      snd (gw_modify_bracket order_id product_id product_symbol b (gw w)) = Raise e /\
      om' = om
  | Ok u =>
      orders om' !! order_id = Some u /\
      (forall k, k <> order_id -> orders om' !! k = orders om !! k) /\
      (oi_bracket u ≫= (fun x => Some (br_stop_loss x))) = Some (br_stop_loss b) /\
      match orders om !! order_id with
      | Some o =>
          oi_id u = oi_id o /\ oi_side u = oi_side o /\ oi_amount u = oi_amount o /\
          oi_price u = oi_price o /\ oi_time_in_force u = oi_time_in_force o /\
          oi_timestamp u = oi_timestamp o /\
          (oi_bracket u ≫= br_take_profit) =
            match br_take_profit b with
            | Some t => Some t
            | None => oi_bracket o ≫= br_take_profit
            end
      | None =>
          oi_id u = order_id /\ oi_symbol u = product_symbol /\ oi_bracket u = Some b
      end
  end.
Proof.
  unfold attach_bracket_to_order, client_modify_bracket_order. run_step.
  destruct (gw_modify_bracket order_id product_id product_symbol b (gw w))
    as [g1 [x|e]]; run_step.
  - destruct (orders om !! order_id) as [o|] eqn:Ho; run_step;
      (split; [reflexivity|]);
      cbn [orders oi_bracket oi_id oi_side oi_amount oi_price oi_time_in_force
           oi_timestamp oi_symbol];
      (split; [apply lookup_insert_eq|]);
      (split; [intros k Hk; apply lookup_insert_ne; congruence|]);
      (split; [reflexivity|]); repeat split.
  - split; [reflexivity|]. split; [reflexivity|]. destruct om. reflexivity.
Qed.

(** X14.  [OrderManager.cancel_order] on an id that is not cached raises
    [ValueError] without contacting the gateway.  On a cached order it sends
    exactly one cancel request for the order's symbol; the order is marked
    canceled only when the gateway succeeds, and a gateway error propagates
    with the cache unchanged. *)
Theorem cancel_order_spec (order_id : pyid) (om : order_manager) (w : world) :
  let '((om', w'), r) := cancel_order order_id (om, w) in
  match orders om !! order_id with
  | None => r = Raise ValueError /\ om' = om /\ w' = w
  | Some o =>
      sent w' = sent w ++ [RqCancelOrder order_id (oi_symbol o)] /\
      match r with
      | Ok _ =>
          orders om' !! order_id = Some (with_status "canceled" o) /\
          forall k, k <> order_id -> orders om' !! k = orders om !! k
      | Raise e =>
          snd (gw_cancel_order order_id (oi_symbol o) (gw w)) = Raise e /\ om' = om
      end
  end.
Proof.
  unfold cancel_order, client_cancel_order. run_step.
  destruct (orders om !! order_id) as [o|] eqn:Ho; run_step.
  - destruct (gw_cancel_order order_id (oi_symbol o) (gw w)) as [g1 [[]|e]]; run_step.
    + split; [reflexivity|]. cbn [orders]. split.
      * apply lookup_insert_eq.
      * intros k Hk. apply lookup_insert_ne. congruence.
    + split; [reflexivity|]. split; [reflexivity|]. destruct om. reflexivity.
  - destruct om, w. repeat split.
Qed.

Lemma submit_market_order_ok symbol side amount tif (tm : trade_manager) (w : world) :
  let '((tm', w'), r) := submit_market_order symbol side amount tif (tm, w) in
  match r with
  | Ok info =>
      oi_symbol info = symbol /\ oi_side info = side /\ oi_amount info = Some amount /\
      oi_price info = None /\ oi_time_in_force info = tif /\
      orders (tm_order_manager tm') !! oi_id info = Some info
  | Raise _ => True
  end.
Proof.
  unfold submit_market_order, create_order, fetch_positions. run_step.
  destruct (gw_create_order symbol "market" side amount None tif (gw w))
    as [g1 [o|e]]; run_step; [|exact I].
  destruct (uuid4 g1) as [g2 u]; run_step.
  destruct (gw_fetch_positions (sleep 1 g2)) as [g3 [ps|e]]; run_step; [|exact I].
  cbn [oi_symbol oi_side oi_amount oi_price oi_time_in_force oi_id orders
       tm_order_manager].
  repeat split. apply lookup_insert_eq.
Qed.

(** X11.  Whenever [place_market_order] returns an order record, forced or
    not, the record carries the symbol, side, amount and time-in-force of the
    call and no price, and the trade manager's local cache holds it under its
    id. *)
Theorem place_market_order_records (symbol side : string) (amount : Q)
    (tif : option string) (force : bool) (tm : trade_manager) (w : world) :
  let '((tm', _), r) := place_market_order symbol side amount tif force (tm, w) in
  forall info, r = Ok (Some info) ->
    oi_symbol info = symbol /\ oi_side info = side /\ oi_amount info = Some amount /\
    oi_price info = None /\ oi_time_in_force info = tif /\
    orders (tm_order_manager tm') !! oi_id info = Some info.
Proof.
  unfold place_market_order, bind.
  destruct ((if force then ret false else pre_checks symbol (lower side)) (tm, w))
    as [[tm1 w1] [blocked|e]]; [|intros info Hr; discriminate].
  destruct blocked; [intros info Hr; discriminate|].
  pose proof (submit_market_order_ok symbol side amount tif tm1 w1) as Hs.
  destruct (submit_market_order symbol side amount tif (tm1, w1)) as [[tm' w'] [i|e]];
    cbv beta delta [ret]; intros info Hr; [|discriminate].
  injection Hr as <-. exact Hs.
Qed.

(** X10.  The guards of an unforced market order are complete, and they
    fail open.  If no reported position and no reported open order is of the
    requested side (in particular if the queries raise), and every cached
    order of that side with status open or pending is older than 60 seconds,
    then the order is submitted: after the two queries the creation request
    is sent with the arguments of the call. *)
Theorem place_market_order_unblocked (symbol side : string) (amount : Q)
    (tif : option string) (tm : trade_manager) (w : world) :
  (forall ps p, reported_positions w = Ok ps -> In p ps ->
     same_side_position symbol (lower side) p = false) ->
  (forall os o, reported_orders symbol w = Ok os -> In o os ->
     same_side_order (lower side) o = false) ->
  (forall k o, orders (tm_order_manager tm) !! k = Some o ->
     local_pending (lower side) o = true ->
     (60000 < check_time symbol w - oi_timestamp o)%Z) ->
  let '((_, w'), _) := place_market_order symbol side amount tif false (tm, w) in
  exists l,
    sent w' = sent w ++ [RqFetchPositions; RqFetchOpenOrders symbol;
                         RqCreateOrder symbol "market" side amount None tif] ++ l /\
    (l = [] \/ l = [RqFetchPositions]).
Proof.
  unfold reported_positions, reported_orders, check_time.
  intros Hpos Hord Hcache.
  assert (Hnone : forall A (f : A -> bool) (xs : list A),
            (forall x, In x xs -> f x = false) -> existsb f xs = false).
  { intros A f xs Hf. induction xs as [|x xs IH]; cbn; [reflexivity|].
    rewrite (Hf x) by (left; reflexivity). cbn. apply IH.
    intros y Hy. apply Hf. right. exact Hy. }
  unfold place_market_order, pre_checks, fetch_positions, fetch_open_orders. run_step.
  destruct (gw_fetch_positions (gw w)) as [g1 rp]. cbn [fst snd] in *.
  assert (Hp : match rp with
               | Ok ps => existsb (same_side_position symbol (lower side)) ps = false
               | Raise _ => True
               end).
  { destruct rp as [ps|e]; [|exact I]. apply Hnone. intros p Hin. eauto. }
  destruct (gw_fetch_open_orders symbol g1) as [g2 ro] eqn:Eo. cbn [fst snd] in *.
  assert (Ho : match ro with
               | Ok os => existsb (same_side_order (lower side)) os = false
               | Raise _ => True
               end).
  { destruct ro as [os|e]; [|exact I]. apply Hnone. intros o Hin. eauto. }
  assert (Hc : map_values_any (local_pending (lower side))
                 (filter (fun kv => is_stale (py_int (clock g2 * 1000)) (snd kv) = false)
                         (orders (tm_order_manager tm))) = false).
  { destruct (map_values_any _ _) eqn:Hany; [|reflexivity]. exfalso.
    apply map_values_any_true in Hany as (k & o & Hk & Hpend).
    apply map_lookup_filter_Some in Hk as [Hk Hfresh]. cbn [snd] in Hfresh.
    specialize (Hcache k o Hk Hpend). unfold is_stale in Hfresh.
    apply Z.ltb_ge in Hfresh. lia. }
  assert (Hsubmit : forall tm1 w1,
    let '((_, w'), _) := submit_market_order symbol side amount tif (tm1, w1) in
    exists l, sent w' = sent w1 ++ [RqCreateOrder symbol "market" side amount None tif] ++ l /\
              (l = [] \/ l = [RqFetchPositions])).
  { intros tm1 w1. unfold submit_market_order, create_order, fetch_positions. run_step.
    destruct (gw_create_order symbol "market" side amount None tif (gw w1))
      as [g3 [o|e]]; run_step.
    - destruct (uuid4 g3) as [g4 u]; run_step.
      destruct (gw_fetch_positions (sleep 1 g4)) as [g5 [ps|e]]; run_step;
        (exists [RqFetchPositions]; split; [rewrite <- app_assoc; reflexivity|tauto]).
    - exists []. split; [reflexivity|tauto]. }
  assert (Hfinish : forall tm1 w1,
    sent w1 = sent w ++ [RqFetchPositions; RqFetchOpenOrders symbol] ->
    let '((_, w'), _) :=
      (let '(s1, r) := submit_market_order symbol side amount tif (tm1, w1) in
       match r with
       | Ok a => (s1, Ok (Some a))
       | Raise e => (s1, Raise e)
       end) in
    exists l,
      sent w' = sent w ++ [RqFetchPositions; RqFetchOpenOrders symbol;
                           RqCreateOrder symbol "market" side amount None tif] ++ l /\
      (l = [] \/ l = [RqFetchPositions])).
  { intros tm1 w1 Hw1. specialize (Hsubmit tm1 w1).
    destruct (submit_market_order symbol side amount tif (tm1, w1)) as [[tm' w'] [i|e]];
      destruct Hsubmit as (l & Hl & Hshape); exists l; (split; [|exact Hshape]);
      rewrite Hl, Hw1, <- app_assoc; reflexivity. }
  destruct rp as [ps|e]; run_step; rewrite ?Hp; run_step; rewrite Eo; run_step;
    destruct ro as [os|e']; run_step; rewrite ?Ho; run_step; rewrite Hc; run_step;
    apply Hfinish; cbn [sent]; rewrite <- app_assoc; reflexivity.
Qed.

(** *** Properties of [SignalProcessor] *)

(** X18.  A signal that cannot be priced is dropped without a trace: for an
    empty document, or when the signal has no usable price and no live price
    is available, [process_signal] returns [None] and neither the processor
    nor the world changes (no request is sent). *)
Theorem process_signal_unpriced (sg : signal) (s : sp_world) :
  sig_truthy sg = false \/ resolved_price sg (gw (snd s)) = None ->
  process_signal sg s = (s, Ok None).
Proof.
  destruct s as [sp w]. unfold resolved_price, signal_price. cbn [snd].
  intros Hdrop. unfold process_signal, before_entry.
  destruct (sig_truthy sg) eqn:Htruthy; cbn [negb]; run_step; [|reflexivity].
  destruct Hdrop as [Hd|Hd]; [discriminate|].
  rewrite Hd. run_step. reflexivity.
Qed.

(** Rewrites the loop of hypothesis [Hl] into the form it has in the goal
    (the two differ in how their state type is written). *)
Ltac same_run Hl body ps st :=
  match type of Hl with
  | context [for_each ?b2 ?p2 ?s2] =>
      change (for_each b2 p2 s2) with (for_each body ps st) in Hl
  end.

Lemma emits_take_profit_close live_price pos :
  emits sent_of engine_request (take_profit_close live_price pos).
Proof. unfold take_profit_close. emits_auto. Qed.

(** X17.  A take-profit signal never opens anything.  When the text
    contains "take profit" or "tp", [process_signal] returns [None], and the
    only requests it sends are the position query and forced
    immediate-or-cancel market orders on BTCUSD: no limit order, no
    cancellation and no bracket, whatever else the text says. *)
Theorem take_profit_only_closes (sg : signal) (s : sp_world) :
  is_take_profit sg = true ->
  let '((_, w'), r) := process_signal sg s in
  r = Ok None /\
  exists l, sent w' = sent (snd s) ++ l /\ Forall engine_request l.
Proof.
  destruct s as [sp w]. unfold is_take_profit, signal_text. cbn [snd]. intros Htp.
  unfold process_signal, before_entry.
  destruct (sig_truthy sg); cbn [negb]; run_step;
    [|split; [reflexivity|exists []; rewrite app_nil_r; split; [reflexivity|constructor]]].
  destruct (if price_missing _ then _ else _) as [raw_price|]; run_step;
    [|split; [reflexivity|exists []; rewrite app_nil_r; split; [reflexivity|constructor]]].
  rewrite Htp. run_step.
  destruct (current_price (gw w)) as [live_price|]; run_step;
    [|split; [reflexivity|exists []; rewrite app_nil_r; split; [reflexivity|constructor]]].
  unfold fetch_positions. run_step.
  destruct (gw_fetch_positions (gw w)) as [g1 [ps|e]]; run_step.
  - match goal with
    | |- context [for_each ?body ps ?st] =>
        pose proof (emits_for_each sent_of engine_request body ps
                      (fun x => emits_take_profit_close live_price x) st)
          as (l & Hl & HP);
        same_run Hl body ps st;
        destruct (for_each body ps st) as [[sp1 w1] [[]|e]]
    end; unfold sent_of in Hl; cbn [fst snd sent] in Hl; run_step;
      (split; [reflexivity|]);
      exists (RqFetchPositions :: l); rewrite Hl, <- app_assoc;
      (split; [reflexivity|constructor; [exact I|exact HP]]).
  - split; [reflexivity|]. exists [RqFetchPositions]. split; [reflexivity|].
    constructor; [exact I|constructor].
Qed.

Lemma cancel_loop_sent symbol (keep : exch_order -> bool) (os : list exch_order) :
  forall w : world,
    let '(w', r) :=
      for_each (fun order =>
                  if keep order
                  then try_except (client_cancel_order (eo_id order) symbol)
                                  (fun _ => ret tt)
                  else ret tt) os w in
    r = Ok tt /\
    sent w' = sent w ++ cancel_requests symbol (List.filter keep os) /\
    handled w' = handled w.
Proof.
  induction os as [|o os IH]; intros w; cbn [for_each List.filter].
  - cbv [ret]. rewrite app_nil_r. auto.
  - unfold client_cancel_order at 1. run_step.
    destruct (keep o); run_step.
    + destruct (gw_cancel_order (eo_id o) symbol (gw w)) as [g1 [[]|e]]; run_step;
        match goal with
        | |- context [for_each ?body os ?st] =>
            specialize (IH st); destruct (for_each body os st) as [w' r]
        end; destruct IH as (-> & Hs & Hh); run_step;
        (split; [reflexivity|]); rewrite Hs, Hh; cbn [sent handled cancel_requests map];
        rewrite <- app_assoc; auto.
    + specialize (IH w).
      match goal with
      | |- context [for_each ?body os w] => destruct (for_each body os w) as [w' r]
      end.
      destruct IH as (-> & Hs & Hh). run_step. auto.
Qed.

(** X20.  Conflict cleanup.  For a new side, [cancel_conflicting_orders]
    and [cancel_same_side_orders] never raise.  When the query of open orders
    succeeds, the first sends one cancel request for every open order of
    another side and the second one for every open order of the same side, in
    the order reported and whatever the gateway answers to each cancel; when
    the query fails, only the query is sent.  For a non-empty side every open
    order falls under exactly one of the two steps. *)
Theorem conflict_cleanup (symbol side : string) (w : world) :
  (let '(w', r) := cancel_conflicting_orders symbol (Some side) w in
   r = Ok tt /\
   sent w' = sent w ++ RqFetchOpenOrders symbol ::
     match snd (gw_fetch_open_orders symbol (gw w)) with
     | Ok os => cancel_requests symbol (List.filter (conflicts_with side) os)
     | Raise _ => []
     end) /\
  (let '(w', r) := cancel_same_side_orders symbol (Some side) w in
   r = Ok tt /\
   sent w' = sent w ++ RqFetchOpenOrders symbol ::
     match snd (gw_fetch_open_orders symbol (gw w)) with
     | Ok os => cancel_requests symbol (List.filter (stacks_on side) os)
     | Raise _ => []
     end) /\
  (side <> ""%string ->
   forall o, xorb (conflicts_with side o) (stacks_on side o) = is_open o).
Proof.
  split; [|split].
  - unfold cancel_conflicting_orders, fetch_open_orders. run_step.
    destruct (gw_fetch_open_orders symbol (gw w)) as [g1 [os|e]]; run_step;
      [|split; reflexivity].
    pose proof (cancel_loop_sent symbol (conflicts_with side) os
                  {| gw := g1; sent := sent w ++ [RqFetchOpenOrders symbol];
                     handled := handled w |}) as Hloop.
    assert (Hbody : forall order,
      (if negb (is_open order) then ret tt
       else if String.eqb side "" || negb (String.eqb (lower (eo_side order)) (lower side))
            then try_except (client_cancel_order (eo_id order) symbol) (fun _ => ret tt)
            else ret tt) =
      (if conflicts_with side order
       then try_except (client_cancel_order (G:=G) (eo_id order) symbol) (fun _ => ret tt)
       else ret tt)).
    { intros order. unfold conflicts_with. destruct (is_open order); reflexivity. }
    match goal with
    | |- context [for_each ?body os ?st] =>
        replace (for_each body os st)
          with (for_each (fun order =>
                  if conflicts_with side order
                  then try_except (client_cancel_order (eo_id order) symbol)
                                  (fun _ => ret tt)
                  else ret tt) os st)
    end.
    + match goal with
      | |- context [for_each ?body os ?st] =>
          change (for_each body os st) with
            (for_each (fun order =>
                  if conflicts_with side order
                  then try_except (client_cancel_order (eo_id order) symbol)
                                  (fun _ => ret tt)
                  else ret tt) os
               {| gw := g1; sent := sent w ++ [RqFetchOpenOrders symbol];
                  handled := handled w |})
      end.
      destruct (for_each _ os _) as [w' r]. destruct Hloop as (-> & Hs & _).
      split; [reflexivity|]. rewrite Hs. cbn [sent]. rewrite <- app_assoc. reflexivity.
    + clear Hloop. generalize {| gw := g1; sent := sent w ++ [RqFetchOpenOrders symbol];
                                 handled := handled w |}.
      induction os as [|o os IH]; intros st; cbn [for_each]; [reflexivity|].
      unfold bind. rewrite <- (Hbody o).
      destruct (_ st) as [st1 [[]|e]]; [apply IH|reflexivity].
  - unfold cancel_same_side_orders, fetch_open_orders. run_step.
    destruct (gw_fetch_open_orders symbol (gw w)) as [g1 [os|e]]; run_step;
      [|split; reflexivity].
    pose proof (cancel_loop_sent symbol (stacks_on side) os
                  {| gw := g1; sent := sent w ++ [RqFetchOpenOrders symbol];
                     handled := handled w |}) as Hloop.
    unfold stacks_on in Hloop at 1.
    match goal with
    | |- context [for_each ?body os ?st] =>
        match type of Hloop with
        | context [for_each ?b2 ?p2 ?s2] =>
            change (for_each body os st) with (for_each b2 p2 s2)
        end
    end.
    destruct (for_each _ os _) as [w' r]. destruct Hloop as (-> & Hs & _).
    split; [reflexivity|]. rewrite Hs. cbn [sent]. rewrite <- app_assoc. reflexivity.
  - intros Hside o. unfold conflicts_with, stacks_on.
    assert (Hne : String.eqb side "" = false) by (apply String.eqb_neq, Hside).
    rewrite Hne. cbn [orb].
    destruct (is_open o), (String.eqb (lower (eo_side o)) (lower side)); reflexivity.
Qed.

Lemma close_opposite_none_loop (ps : list position) (s : sp_world) :
  fst (for_each (close_opposite None) ps s) = s.
Proof.
  induction ps as [|p ps IH]; [reflexivity|].
  cbn [for_each]. unfold bind, close_opposite at 1.
  destruct (negb (contains "BTCUSD" (symbol_of p))); [exact IH|].
  destruct (py_float (size_field p)) as [sz|e]; [|reflexivity].
  rewrite !bool_decide_eq_false_2 by discriminate. cbn [andb]. exact IH.
Qed.

Lemma cancel_none_loop (body_side : exch_order -> bool) (os : list exch_order)
    (w : @world G) :
  fst (for_each (fun order =>
                   if body_side order then ret tt else raise (A:=unit) AttributeError)
                os w) = w.
Proof.
  induction os as [|o os IH]; [reflexivity|].
  cbn [for_each]. unfold bind. destruct (body_side o); [exact IH|reflexivity].
Qed.

Lemma cancel_conflicting_none symbol (w : world) :
  cancel_conflicting_orders symbol None w =
    ({| gw := fst (gw_fetch_open_orders symbol (gw w));
        sent := sent w ++ [RqFetchOpenOrders symbol];
        handled := handled w |}, Ok tt).
Proof.
  unfold cancel_conflicting_orders, fetch_open_orders. run_step.
  destruct (gw_fetch_open_orders symbol (gw w)) as [g1 [os|e]]; run_step; [|reflexivity].
  pose proof (cancel_none_loop (fun o => negb (is_open o)) os
                {| gw := g1; sent := sent w ++ [RqFetchOpenOrders symbol];
                   handled := handled w |}) as Hloop.
  destruct (for_each _ os _) as [w' [[]|e]]; cbn [fst] in Hloop; subst w'; reflexivity.
Qed.

Lemma cancel_same_side_none symbol (w : world) :
  cancel_same_side_orders symbol None w =
    ({| gw := fst (gw_fetch_open_orders symbol (gw w));
        sent := sent w ++ [RqFetchOpenOrders symbol];
        handled := handled w |}, Ok tt).
Proof.
  unfold cancel_same_side_orders, fetch_open_orders. run_step.
  destruct (gw_fetch_open_orders symbol (gw w)) as [g1 [os|e]]; run_step; [|reflexivity].
  pose proof (cancel_none_loop (fun _ => false) os
                {| gw := g1; sent := sent w ++ [RqFetchOpenOrders symbol];
                   handled := handled w |}) as Hloop.
  destruct (for_each _ os _) as [w' [[]|e]]; cbn [fst] in Hloop; subst w'; reflexivity.
Qed.

(** X16.  A signal that asks for nothing changes nothing.  When the text
    is neither a take-profit nor a buy nor a short signal, [process_signal]
    returns [None] and leaves the processor as it was; it only queries the
    gateway (positions once, open orders twice): no order is created,
    cancelled or modified. *)
Theorem non_actionable_signal (sg : signal) (s : sp_world) (price : pyval) :
  sig_truthy sg = true ->
  resolved_price sg (gw (snd s)) = Some price ->
  is_take_profit sg = false ->
  side_of sg = None ->
  let '((sp', w'), r) := process_signal sg s in
  r = Ok None /\ sp' = fst s /\
  sent w' = sent (snd s) ++
    [RqFetchPositions; RqFetchOpenOrders "BTCUSD"; RqFetchOpenOrders "BTCUSD"].
Proof.
  destruct s as [sp w].
  unfold resolved_price, signal_price, is_take_profit, side_of, signal_text.
  cbn [fst snd]. intros Htruthy Hprice Htp Hside.
  unfold process_signal, before_entry. rewrite Htruthy. cbn [negb]. run_step.
  rewrite Hprice. run_step. rewrite Htp. run_step. rewrite !Hside.
  unfold fetch_positions. run_step.
  assert (Hentry : forall st,
    place_entry None price (default PNone (sig_supply_min sg))
      (default PNone (sig_demand_min sg)) st = (st, Ok None)).
  { intros st. unfold place_entry.
    rewrite !bool_decide_eq_false_2 by discriminate.
    destruct (default PNone (sig_supply_min sg)), (default PNone (sig_demand_min sg));
      reflexivity. }
  destruct (gw_fetch_positions (gw w)) as [g1 [ps|e]]; run_step.
  - match goal with
    | |- context [for_each ?body ps ?st] =>
        pose proof (close_opposite_none_loop ps st) as Hloop;
        change (for_each (close_opposite None) ps st) with (for_each body ps st) in Hloop;
        destruct (for_each body ps st) as [st1 [[]|e]]
    end; cbn [fst] in Hloop; subst st1; run_step;
      rewrite cancel_conflicting_none; run_step;
      rewrite cancel_same_side_none; run_step;
      rewrite Hentry; (split; [reflexivity|]); (split; [reflexivity|]);
      cbn [sent]; rewrite <- !app_assoc; reflexivity.
  - rewrite cancel_conflicting_none. run_step.
    rewrite cancel_same_side_none. run_step.
    rewrite Hentry. split; [reflexivity|]. split; [reflexivity|].
    cbn [sent]. rewrite <- !app_assoc. reflexivity.
Qed.

Section StartsWith.
Context {S : Type} (log : S -> list request) (pre : list request).

Lemma starts_bind_l {A B} (m : M S A) (k : A -> M S B) (s : S) :
  starts_with log pre m s -> (forall a, emits log any_request (k a)) ->
  starts_with log pre (bind m k) s.
Proof.
  intros (l & Hl) Hk. unfold starts_with, bind.
  destruct (m s) as [s1 [a|e]]; cbn in *; [|eauto].
  destruct (Hk a s1) as (l2 & H2 & _). exists (l ++ l2).
  rewrite H2, Hl, <- !app_assoc. reflexivity.
Qed.

Lemma starts_try_l {A} (m : M S A) (h : exn -> M S A) (s : S) :
  starts_with log pre m s -> (forall e, emits log any_request (h e)) ->
  starts_with log pre (try_except m h) s.
Proof.
  intros (l & Hl) Hh. unfold starts_with, try_except.
  destruct (m s) as [s1 [a|e]]; cbn in *; [eauto|].
  destruct (Hh e s1) as (l2 & H2 & _). exists (l ++ l2).
  rewrite H2, Hl, <- !app_assoc. reflexivity.
Qed.

End StartsWith.

Lemma emits_any_place_market_order symbol side amount tif force :
  emits sent_of any_request (place_market_order symbol side amount tif force).
Proof.
  unfold place_market_order, pre_checks, submit_market_order, fetch_positions,
    fetch_open_orders, create_order, now_ms, get_orders, any_request.
  emits_auto.
Qed.

Lemma emits_any_close_opposite side pos :
  emits sent_of any_request (close_opposite side pos).
Proof.
  unfold close_opposite.
  destruct (negb _); [apply emits_ret|].
  destruct (py_float _); [|apply emits_raise].
  repeat first
    [ apply emits_ret | apply emits_sleep | apply emits_in_world
    | apply emits_sp_in_trade_manager, emits_any_place_market_order
    | apply emits_bind; [|intros ?]
    | match goal with
      | |- emits _ _ (if ?b then _ else _) => destruct b
      end ].
Qed.

Lemma emits_any_place_entry side price sup dem :
  emits sent_of any_request (place_entry side price sup dem).
Proof.
  unfold place_entry, submit_entry, place_order, attach_bracket_to_order,
    create_limit_order, create_order, client_modify_bracket_order, now_ms, get_orders,
    any_request.
  emits_auto.
Qed.

Lemma emits_any_cleanup (new_side : option string) (k : bool -> M sp_world
    (option (option string * pyval))) :
  (forall b, emits sent_of any_request (k b)) ->
  emits sent_of any_request
    (in_world (cancel_conflicting_orders "BTCUSD" new_side) ;;;
     in_world (cancel_same_side_orders "BTCUSD" new_side) ;;;
     in_world (time_sleep 2) ;;;
     exists_pending <~
       match new_side with
       | Some side => in_world (open_pending_order_exists "BTCUSD" side)
       | None => ret false
       end ;;
     k exists_pending).
Proof.
  intros Hk.
  unfold cancel_conflicting_orders, cancel_same_side_orders, open_pending_order_exists,
    fetch_open_orders, client_cancel_order, any_request in *.
  emits_auto; apply Hk.
Qed.

(** X19.  Opposite exposure is closed first.  For a buy signal, when the
    first position the gateway reports is a BTCUSD short of size [sz], the
    first two requests of [process_signal] are the position query and a
    forced immediate-or-cancel market buy of [|sz|]: the close precedes every
    cancellation and the entry order.  Symmetrically a sell signal first
    sells a reported long. *)
Theorem opposite_closed_first (sg : signal) (s : sp_world) (price : pyval)
    (g1 : G) (pos : position) (rest : list position) (sz : Q) :
  sig_truthy sg = true ->
  resolved_price sg (gw (snd s)) = Some price ->
  is_take_profit sg = false ->
  gw_fetch_positions (gw (snd s)) = (g1, Ok (pos :: rest)) ->
  contains "BTCUSD" (symbol_of pos) = true ->
  py_float (size_field pos) = Ok sz ->
  (side_of sg = Some "buy"%string -> sz < 0 ->
   starts_with sent_of
     [RqFetchPositions;
      RqCreateOrder "BTCUSD" "market" "buy" (Qabs sz) None (Some "ioc"%string)]
     (process_signal sg) s) /\
  (side_of sg = Some "sell"%string -> 0 < sz ->
   starts_with sent_of
     [RqFetchPositions;
      RqCreateOrder "BTCUSD" "market" "sell" sz None (Some "ioc"%string)]
     (process_signal sg) s).
Proof.
  destruct s as [sp w].
  unfold resolved_price, signal_price, is_take_profit, side_of, signal_text.
  cbn [fst snd]. intros Htruthy Hprice Htp Hfetch Hsym Hsize.
  assert (Hgoal : forall side close amount,
    (if contains "short" (lower (default "" (sig_text sg)))
     then Some "sell"%string
     else if contains "buy" (lower (default "" (sig_text sg)))
          then Some "buy"%string else None) = Some side ->
    (forall st,
       exists l,
         sent_of (fst (close_opposite (Some side) pos st)) =
           sent_of st ++ [RqCreateOrder "BTCUSD" "market" close amount None
                            (Some "ioc"%string)] ++ l) ->
    starts_with sent_of
      [RqFetchPositions;
       RqCreateOrder "BTCUSD" "market" close amount None (Some "ioc"%string)]
      (process_signal sg) (sp, w)).
  { intros side close amount Hside Hclose.
    unfold process_signal. apply starts_bind_l.
    2:{ intros [[ns p]|]; [apply emits_any_place_entry|apply emits_ret]. }
    unfold before_entry. rewrite Htruthy. cbn [negb].
    unfold starts_with, bind at 1, in_world at 1, zoom, read. cbn [fst snd].
    rewrite Hprice, Htp, Hside.
    apply starts_bind_l.
    2:{ intros _. apply emits_any_cleanup.
        intros []; [apply emits_ret|apply emits_ret]. }
    apply starts_try_l; [|intros _; apply emits_ret].
    unfold starts_with, bind at 1, in_world at 1, zoom, fetch_positions, call.
    cbn [fst snd]. rewrite Hfetch. cbn [for_each].
    match goal with
    | |- context [bind _ _ ?st] =>
        destruct (Hclose st) as (l1 & Hl1);
        pose proof (emits_for_each sent_of any_request (close_opposite (Some side)) rest
                      (emits_any_close_opposite (Some side))) as Hrest
    end.
    unfold bind.
    destruct (close_opposite (Some side) pos _) as [st1 [[]|e]];
      unfold sent_of in *; cbn [fst snd sent] in *.
    - destruct (Hrest st1) as (l2 & Hl2 & _). unfold sent_of in Hl2.
      match goal with
      | |- context [for_each ?body ?ps ?st] =>
          same_run Hl2 body ps st; destruct (for_each body ps st) as [st2 r2]
      end.
      cbn [fst snd] in *. exists (l1 ++ l2).
      rewrite Hl2, Hl1, <- !app_assoc. reflexivity.
    - exists l1. rewrite Hl1, <- !app_assoc. reflexivity. }
  assert (Hforced : forall close amount (st : sp_world),
    exists l,
      sent_of (fst ((sp_in_trade_manager
                       (place_market_order "BTCUSD" close amount (Some "ioc"%string) true)
                     ;;; in_world (time_sleep 2)) st)) =
        sent_of st ++ [RqCreateOrder "BTCUSD" "market" close amount None
                         (Some "ioc"%string)] ++ l).
  { intros close amount [sp0 w0].
    pose proof (place_market_order_forced "BTCUSD" close amount (Some "ioc"%string)
                  (sp_trade_manager sp0) w0) as Hp.
    unfold sent_of. run_step.
    destruct (place_market_order _ _ _ _ _ _) as [[tm' w'] r].
    destruct Hp as [_ Hp]. destruct (gateway_accepts _ _ _ _ _).
    - destruct Hp as [Hs [info ->]]. run_step. rewrite Hs. eexists. reflexivity.
    - destruct Hp as [(l & Hs & _) [e ->]]. run_step. rewrite Hs. eexists. reflexivity. }
  split; intros Hside Hsz.
  - apply (Hgoal "buy"%string); [exact Hside|].
    intros st. unfold close_opposite. rewrite Hsym, Hsize. cbn [negb].
    rewrite bool_decide_eq_true_2 by reflexivity.
    apply Qltb_lt in Hsz. rewrite Hsz. cbn [andb]. apply Hforced.
  - apply (Hgoal "sell"%string); [exact Hside|].
    intros st. unfold close_opposite. rewrite Hsym, Hsize. cbn [negb].
    rewrite bool_decide_eq_false_2 by discriminate.
    rewrite bool_decide_eq_true_2 by reflexivity.
    assert (Hn : Qltb sz 0 = false) by (apply Qltb_ge, Qlt_le_weak, Hsz).
    apply Qltb_lt in Hsz. rewrite Hsz, Hn. cbn [andb]. apply Hforced.
Qed.

Section Returns.
Context {S : Type}.

Lemma total_ret {A} (a : A) : total (S:=S) (ret a).
Proof. intros s. exists a. reflexivity. Qed.

Lemma total_try {A} (m : M S A) (h : exn -> M S A) :
  (forall e, total (h e)) -> total (try_except m h).
Proof.
  intros Hh s. unfold try_except. destruct (m s) as [s1 [a|e]]; [exists a; reflexivity|].
  apply Hh.
Qed.

Lemma total_zoom {T A} (get : S -> T) (set : T -> S -> S) (m : M T A) :
  total m -> total (zoom get set m).
Proof.
  intros Hm s. unfold zoom. destruct (Hm (get s)) as (a & Ha).
  destruct (m (get s)) as [t r]. cbn in *. exists a. exact Ha.
Qed.

Lemma returns_ret {A} (Q : A -> Prop) (a : A) : Q a -> returns (S:=S) Q (ret a).
Proof. intros Ha s. exists a. split; [reflexivity|exact Ha]. Qed.

Lemma returns_bind {A B} (Q : B -> Prop) (m : M S A) (k : A -> M S B) :
  total m -> (forall a, returns Q (k a)) -> returns Q (bind m k).
Proof.
  intros Hm Hk s. unfold bind. destruct (Hm s) as (a & Ha).
  destruct (m s) as [s1 r]. cbn in Ha. subst r. apply Hk.
Qed.

Lemma returns_total {A} (Q : A -> Prop) (m : M S A) : returns Q m -> total m.
Proof. intros Hm s. destruct (Hm s) as (a & Ha & _). exists a. exact Ha. Qed.

End Returns.

Lemma total_sleep d : total (time_sleep (G:=G) d).
Proof. intros w. exists tt. reflexivity. Qed.

Lemma total_submit_entry side entry_price sl_price tp_price :
  total (submit_entry side entry_price sl_price tp_price).
Proof.
  unfold submit_entry. eapply returns_total, returns_bind.
  - apply total_try. intros _. apply total_ret.
  - intros [limit_order|].
    + intros s.
      destruct (total_try
        (u <~ sp_in_order_manager
                (attach_bracket_to_order (oi_id limit_order) 27 "BTCUSD"
                   {| br_stop_loss := sl_price; br_take_profit := Some tp_price |}) ;;
         ret (Some u))
        (fun _ => ret None) (fun _ => total_ret None) s) as (a & Ha).
      exists a. split; [exact Ha|exact I].
    + apply returns_ret. exact I.
Qed.

(** [before_entry] never raises; when control reaches the check of the
    required fields it carries the side asked for and the reference price. *)
Lemma before_entry_returns (sg : signal) (s : sp_world) :
  exists a, snd (before_entry sg s) = Ok a /\
    (a = None \/
     exists raw, a = Some (side_of sg, raw) /\
                 resolved_price sg (gw (snd s)) = Some raw).
Proof.
  destruct s as [sp w]. unfold before_entry, resolved_price, side_of, signal_price,
    signal_text. cbn [fst snd].
  destruct (negb (sig_truthy sg)); [exists None; split; [reflexivity|left; reflexivity]|].
  unfold bind at 1, in_world at 1, zoom, read. cbn [fst snd].
  destruct (if price_missing _ then _ else _) as [raw|];
    [|exists None; split; [reflexivity|left; reflexivity]].
  destruct (_ || _).
  - unfold bind at 1, in_world at 1, zoom, read. cbn [fst snd].
    destruct (current_price (gw w)); [|exists None; split; [reflexivity|left; reflexivity]].
    eapply (returns_bind (fun a => a = None \/ _)).
    + apply total_try. intros _. apply total_ret.
    + intros _. apply returns_ret. left. reflexivity.
  - set (new_side := if contains "short" _ then _ else _).
    eapply (returns_bind
              (fun a => a = None \/ exists raw0, a = Some (new_side, raw0) /\ Some raw = Some raw0)).
    { apply total_try. intros _. apply total_ret. }
    intros _. apply returns_bind.
    { apply total_zoom, total_try. intros _. apply total_ret. }
    intros _. apply returns_bind.
    { apply total_zoom, total_try. intros _. apply total_ret. }
    intros _. apply returns_bind.
    { apply total_zoom, total_sleep. }
    intros _. apply returns_bind.
    { destruct new_side; [|apply total_ret].
      apply total_zoom, total_try. intros _. apply total_ret. }
    intros []; apply returns_ret; [left; reflexivity|].
    right. exists raw. split; reflexivity.
Qed.

(** X21.  The only exceptions of [process_signal].  Whatever the gateway
    does, [process_signal] raises only from [float(raw_price)]: a
    [ValueError] when the signal carries its own price as a string that
    [float] rejects, or an [OverflowError] when it carries an integer beyond
    the range of a double; in both cases the signal asks for a side and both
    zone minima are present.  Every other failure is caught inside the
    method.  The live price, being a double, is in range. *)
Theorem process_signal_raises_only_from_price (sg : signal) (s : sp_world) (e : exn) :
  (forall live, current_price (gw (snd s)) = Some live -> Qabs live < float_limit) ->
  snd (process_signal sg s) = Raise e ->
  ((e = ValueError /\
    exists text, signal_price sg = PStr text /\ float_of_str text = None) \/
   (e = OverflowError /\
    exists q, signal_price sg = PNum q /\ float_limit <= Qabs q)) /\
  side_of sg <> None /\
  default PNone (sig_supply_min sg) <> PNone /\
  default PNone (sig_demand_min sg) <> PNone.
Proof.
  intros Hlive.
  unfold process_signal, bind at 1.
  destruct (before_entry_returns sg s) as (a & Ha & Hshape).
  destruct (before_entry sg s) as [s1 r]. cbn [snd] in Ha. subst r.
  destruct Hshape as [->|(raw & -> & Hraw)]; [discriminate|].
  unfold place_entry.
  assert (Hfloat : forall e0, py_float raw = Raise e0 ->
            (e0 = ValueError /\
             exists text, signal_price sg = PStr text /\ float_of_str text = None) \/
            (e0 = OverflowError /\
             exists q, signal_price sg = PNum q /\ float_limit <= Qabs q)).
  { intros e0 He0. unfold resolved_price in Hraw.
    destruct (price_missing (signal_price sg)) eqn:Hmiss.
    - destruct (current_price _) as [live|] eqn:Hcur; [|discriminate]. cbn in Hraw.
      injection Hraw as <-. pose proof (Hlive live eq_refl) as Hrange.
      apply Qltb_lt in Hrange.
      cbn [py_float] in He0. rewrite Hrange in He0. discriminate.
    - injection Hraw as <-. destruct (signal_price sg) as [|q|text]; cbn [py_float] in He0.
      + discriminate.
      + destruct (Qltb (Qabs q) float_limit) eqn:Hrange; [discriminate|].
        injection He0 as <-. apply Qltb_ge in Hrange. right. eauto.
      + destruct (float_of_str text) eqn:Hparse; [discriminate|].
        injection He0 as <-. left. eauto. }
  assert (Hrun : forall side (k : Q -> M sp_world (option order_info)),
            (forall price, total (k price)) ->
            snd ((price <~ lift (py_float raw) ;; k price) s1) = Raise e ->
            side_of sg = Some side ->
            ((e = ValueError /\
              exists text, signal_price sg = PStr text /\ float_of_str text = None) \/
             (e = OverflowError /\
              exists q, signal_price sg = PNum q /\ float_limit <= Qabs q)) /\
            side_of sg <> None).
  { intros side k Hk Hr Hside. unfold bind, lift in Hr.
    destruct (py_float raw) as [price|e0] eqn:Hf; cbn [fst snd] in Hr.
    - destruct (Hk price s1) as (a & Ha). congruence.
    - injection Hr as <-. split; [exact (Hfloat e0 eq_refl)|]. congruence. }
  destruct (default PNone (sig_supply_min sg)) eqn:Hsup;
  destruct (default PNone (sig_demand_min sg)) eqn:Hdem;
    try (cbv beta delta [ret]; cbn [snd]; discriminate).
  all: destruct (bool_decide (side_of sg = Some "buy"%string)) eqn:Hbuy;
    [ apply bool_decide_eq_true in Hbuy
    | destruct (bool_decide (side_of sg = Some "sell"%string)) eqn:Hsell;
      [ apply bool_decide_eq_true in Hsell
      | cbv beta delta [ret]; cbn [snd]; discriminate ] ].
  all: intros Hr;
    match goal with
    | Hs : side_of _ = Some ?side |- _ =>
        destruct (Hrun side _ (fun price => total_submit_entry _ _ _ _) Hr Hs)
          as (He & Hside)
    end;
    repeat split; try assumption; discriminate.
Qed.

Lemma on_message_keeps_price now msg fd :
  fd_current_price fd <> None -> fd_current_price (on_message now msg fd) <> None.
Proof.
  intros Hfd. unfold on_message.
  destruct (msg_p msg) as [p|]; [|exact Hfd].
  destruct (msg_q msg) as [q|]; [|exact Hfd].
  destruct (msg_m msg) as [m|]; [|exact Hfd].
  destruct (py_float p); [|exact Hfd].
  destruct (py_float q); [discriminate|exact Hfd].
Qed.

Lemma arrivals_keep_price arrivals : forall fd,
  fd_current_price fd <> None ->
  fd_current_price
    (fold_left (fun f tm => on_message (fst tm) (snd tm) f) arrivals fd) <> None.
Proof.
  induction arrivals as [|[t msg] rest IH]; intros fd Hfd; cbn; [exact Hfd|].
  apply IH, on_message_keeps_price, Hfd.
Qed.

(** X22.  A price once received is never lost.  No message, whether valid
    or malformed, and no pass of the watchdog resets [current_price] to
    [None]: once the feed has a price it has one after any run. *)
Theorem feed_price_never_lost (schedule : list (list (Q * message))) :
  forall (now : Q) (fd : feed),
    fd_current_price fd <> None ->
    fd_current_price (fst (monitor_websocket schedule now fd)) <> None.
Proof.
  induction schedule as [|arrivals rest IH]; intros now fd Hfd; cbn; [exact Hfd|].
  specialize (IH (now + 1) _ (arrivals_keep_price arrivals fd Hfd)).
  destruct (monitor_websocket rest _ _) as [fd' later]. exact IH.
Qed.

(** X23.  A fresh feed is left alone.  When in every pass the last message
    handled is a valid trade at most 3 seconds old at the check, the watchdog
    takes no action in any pass: it neither closes the subscription nor
    starts a thread. *)
Theorem fresh_feed_not_reconnected (schedule : list (list (Q * message))) :
  forall (now : Q) (fd : feed),
    timely schedule now ->
    snd (monitor_websocket schedule now fd) = repeat [] (length schedule).
Proof.
  induction schedule as [|arrivals rest IH]; intros now fd Htimely; cbn; [reflexivity|].
  destruct Htimely as [(earlier & t & msg & -> & Hvalid & Hfresh) Hrest].
  rewrite fold_left_app. cbn [fold_left fst snd].
  specialize (IH (now + 1)
    (on_message t msg (fold_left (fun f tm => on_message (fst tm) (snd tm) f) earlier fd))
    Hrest).
  destruct (monitor_websocket rest _ _) as [fd' later]. cbn [snd] in *.
  unfold monitor_check. rewrite (on_message_time _ _ _ Hvalid).
  apply Qltb_ge in Hfresh. rewrite Hfresh, IH. reflexivity.
Qed.

Ltac decide_level :=
  repeat match goal with
  | H : Qltb _ _ = true |- _ => apply Qltb_lt in H
  | H : Qltb _ _ = false |- _ => apply Qltb_ge in H
  | H : Qle_bool _ _ = true |- _ => apply Qle_bool_iff in H
  | H : Qle_bool ?a ?b = false |- _ =>
      assert (b < a)
        by (apply Qnot_le_lt; intros Hle; apply Qle_bool_iff in Hle; congruence);
      clear H
  end.

(** X24.  Selection of the configured level.  [get_trailing_config] answers
    [None] exactly below 0.5 % profit; otherwise it answers a configured
    level whose threshold the profit has reached and which has the greatest
    such threshold; and the level it answers is the partial-booking one
    (no stop offset, fraction 0.9) exactly from 2 % on. *)
Theorem get_trailing_config_spec (profit_pct : Q) :
  (get_trailing_config profit_pct = None <-> profit_pct < 5 # 1000) /\
  (forall lvl, get_trailing_config profit_pct = Some lvl ->
     In lvl (levels PROFIT_TRAILING_CONFIG) /\
     min_profit_pct lvl <= profit_pct /\
     forall other, In other (levels PROFIT_TRAILING_CONFIG) ->
       min_profit_pct other <= profit_pct ->
       min_profit_pct other <= min_profit_pct lvl) /\
  ((exists lvl, get_trailing_config profit_pct = Some lvl /\
                trailing_stop_offset lvl = None) <-> 2 # 100 <= profit_pct).
Proof.
  unfold get_trailing_config. cbn [PROFIT_TRAILING_CONFIG start_trailing_profit_pct levels
    fold_left min_profit_pct].
  destruct (Qltb profit_pct (5 # 1000)) eqn:H0;
  destruct (Qle_bool (5 # 1000) profit_pct) eqn:H1;
  destruct (Qle_bool (1 # 100) profit_pct) eqn:H2;
  destruct (Qle_bool (15 # 1000) profit_pct) eqn:H3;
  destruct (Qle_bool (2 # 100) profit_pct) eqn:H4;
  decide_level; try (exfalso; lra).
  all: split; [split; [intros Hn; first [exact H0 | discriminate Hn | lra]
                      | intros Hlt; first [reflexivity | exfalso; lra]]|].
  all: split;
    [ intros lvl Hl; first [discriminate Hl | injection Hl as <-];
      cbn [In min_profit_pct];
      (split; [tauto|]); (split; [lra|]);
      intros other [<-|[<-|[<-|[<-|[]]]]]; cbn [min_profit_pct]; lra
    | split;
      [ intros (lvl & Hl & Hoff); first [discriminate Hl | injection Hl as <-];
        cbn in Hoff; first [discriminate Hoff | lra]
      | intros Hge; first [exfalso; lra | eexists; split; reflexivity] ] ].
Qed.

(** X15.  [has_open_position] agrees with the first guard of
    [place_market_order].  The query sends one position request and never
    raises; whenever it answers [True], an unforced market order of the same
    symbol and side made in the same state is skipped after that one request:
    it returns [None], leaves the manager as it was and sends nothing else. *)
Theorem has_open_position_blocks (symbol side : string) (amount : Q)
    (tif : option string) (tm : trade_manager) (w : world) :
  let '(w1, r1) := has_open_position symbol side w in
  sent w1 = sent w ++ [RqFetchPositions] /\
  exists b, r1 = Ok b /\
    (b = true ->
     place_market_order symbol side amount tif false (tm, w) = ((tm, w1), Ok None)).
Proof.
  unfold has_open_position, place_market_order, pre_checks, fetch_positions. run_step.
  destruct (gw_fetch_positions (gw w)) as [g1 [ps|e]]; run_step.
  - split; [reflexivity|]. eexists. split; [reflexivity|].
    intros ->. run_step. destruct tm. reflexivity.
  - split; [reflexivity|]. exists false. split; [reflexivity|]. discriminate.
Qed.
End Properties.

(** ** The engine on concrete runs *)

(** C6.  One pass of [track] over the cached positions [no_entry] (entry
    price missing, size 1) and [long_50000]: the first position is not
    skipped.  Its display differs from the empty [last_display], the log
    line formats [None] with [:.1f], and the [TypeError] leaves [track]:
    the pass ends there and [long_50000] is never evaluated (no stop is
    stored for it), although a pass over [long_50000] alone evaluates it. *)
Theorem track_aborts_on_unparsable_entry :
  let '((self', _), r) :=
    track_iteration (new_profit_trailing 1,
                     sim_world (with_book [no_entry; long_50000] [] quiet)) in
  cached_positions self' = [no_entry; long_50000] /\
  r = Raise TypeError /\
  position_trailing_stop self' !! IdStr "p1" = None /\
  let '((self2, _), r2) :=
    track_iteration (new_profit_trailing 1,
                     sim_world (with_book [long_50000] [] quiet)) in
  r2 = Ok tt /\ position_trailing_stop self2 !! IdStr "p1" = Some 49500.
Proof. vm_compute. repeat split. Qed.

(** C2.  The purge forgets the stops but not the excursions.  [long_50000]
    is tracked at live price 51500 (excursion 1500); five seconds later the
    refresh finds no position and the pass purges the stored stops, yet
    [position_max_profit] still maps the id to 1500.  A position that
    re-enters under the same id is then evaluated at live price 50100 under
    [lock_50] with stop 50000 + 1500/2 = 50750, whereas an engine that never
    saw the id answers [fixed_stop] with stop 49500. *)
Theorem purge_keeps_max_profit :
  let s1 := fst (track_iteration
                   (new_profit_trailing 1,
                    sim_world (at_price 100 51500 (with_book [long_50000] [] quiet)))) in
  let s2 := fst (track_iteration
                   (fst s1, sim_world (at_price 106 50100 (with_book [] [] quiet)))) in
  cached_positions (fst s2) = [] /\
  position_trailing_stop (fst s2) = ∅ /\
  (position_max_profit (fst s2) ≫= (fun m => m !! IdStr "p1")) = Some 1500 /\
  (exists stop ratio,
     snd (update_trailing_stop (G:=sim) (fst s2) long_50000 50100)
       = Ok (Some (stop, ratio, lock_50)) /\ stop == 50750) /\
  (exists stop ratio,
     snd (update_trailing_stop (G:=sim) (new_profit_trailing 1) long_50000 50100)
       = Ok (Some (stop, ratio, fixed_stop)) /\ stop == 49500).
Proof.
  vm_compute. repeat split.
  - do 2 eexists. split; [reflexivity|reflexivity].
  - do 2 eexists. split; [reflexivity|reflexivity].
Qed.

(** C4.  The forced close is placed, yet [book_profit] does not return
    true.  [long_50000] is evaluated at live price 49400 under [fixed_stop]
    with stop 49500, so the stop is crossed.  On a gateway that accepts the
    order while its position query times out, the close order is sent and
    accepted, and the trade manager caches it as open; the verification
    query that [place_market_order] makes afterwards raises, the exception
    leaves [place_market_order] and [book_profit] does not catch it: the
    call raises instead of returning true for the order it has placed. *)
Theorem book_profit_raises_after_close :
  (exists self1 stop ratio,
     update_trailing_stop (G:=outage) (new_profit_trailing 1) long_50000 49400
       = (self1, Ok (Some (stop, ratio, fixed_stop))) /\
     0 < parse_size (G:=outage) long_50000 /\ 49400 < stop) /\
  let '((self', w'), r) :=
    book_profit long_50000 49400
      (new_profit_trailing 1, {| gw := Outage; sent := []; handled := [] |}) in
  sent w' = [RqCreateOrder "BTCUSD" "market" "sell" 1 None (Some "ioc"%string);
             RqFetchPositions] /\
  (exists info,
     orders (tm_order_manager (pt_trade_manager self')) !! IdStr "o-1" = Some info /\
     oi_side info = "sell"%string /\ oi_amount info = Some 1 /\
     oi_status info = "open"%string) /\
  r = Raise (GatewayError "timeout") /\
  r <> Ok true.
Proof.
  split.
  - do 3 eexists. split; [reflexivity|]. split; reflexivity.
  - vm_compute. repeat split.
    + eexists. repeat split.
    + discriminate.
Qed.

(** *** Instances of the general properties *)

(** Three evaluations of one long position, and of one short position. *)
Lemma trailing_stop_monotone_witness :
  StronglySorted Qle
    (snd (evaluate_all (G:=sim) (new_profit_trailing 1)
            [(long_50000, 50200); (long_50000, 51100); (long_50000, 50300)])) /\
  StronglySorted (fun a b => b <= a)
    (snd (evaluate_all (G:=sim) (new_profit_trailing 1)
            [(short_50000, 49800); (short_50000, 48900); (short_50000, 49700)])).
Proof.
  split.
  - apply (trailing_stop_monotone (G:=sim) (IdStr "p1")).
    + repeat constructor.
    + repeat constructor.
  - apply (trailing_stop_monotone (G:=sim) (IdStr "p1")).
    + repeat constructor.
    + repeat constructor.
Defined.

Lemma rule_selection_example_witness :
  (exists self' stop ratio,
     update_trailing_stop (G:=sim) (new_profit_trailing 1) long_50000 51100
       = (self', Ok (Some (stop, ratio, lock_50))) /\ stop == 50550) /\
  (exists self' stop ratio,
     update_trailing_stop (G:=sim) (new_profit_trailing 1) long_50000 50200
       = (self', Ok (Some (stop, ratio, fixed_stop))) /\ stop == 49500).
Proof.
  apply (rule_selection_example (G:=sim) (new_profit_trailing 1) long_50000);
    reflexivity.
Defined.

(** The documented trigger: a long position with stop 49500 and the live
    price at 49400, on a gateway that accepts the order and answers the
    verification query. *)
Lemma book_profit_forced_close_witness :
  let '((_, w'), r) :=
    book_profit long_50000 49400 (new_profit_trailing 1, sim_world quiet) in
  sent w' = [RqCreateOrder "BTCUSD" "market" "sell" 1 None (Some "ioc"%string);
             RqFetchPositions] /\
  r = Ok true.
Proof.
  pose proof (book_profit_forced_close (G:=sim)
                (new_profit_trailing 1) _ long_50000 49400 _ _ _ (sim_world quiet)
                eq_refl (or_introl eq_refl)) as Hclose.
  cbv zeta in Hclose.
  destruct (book_profit long_50000 49400 (new_profit_trailing 1, sim_world quiet))
    as [[self' w'] r].
  destruct Hclose as [Hlong _].
  apply Hlong; reflexivity.
Defined.

(** The same trigger on a gateway that refuses the order: the close order
    is sent and [book_profit] raises. *)
Lemma book_profit_raises_when_rejected :
  (exists self1 stop ratio,
     update_trailing_stop (G:=sim) (new_profit_trailing 1) long_50000 49400
       = (self1, Ok (Some (stop, ratio, fixed_stop))) /\
     0 < parse_size (G:=sim) long_50000 /\ 49400 < stop) /\
  let '((_, w'), r) :=
    book_profit long_50000 49400 (new_profit_trailing 1, sim_world (rejecting quiet)) in
  sent w' = [RqCreateOrder "BTCUSD" "market" "sell" 1 None (Some "ioc"%string)] /\
  r = Raise (GatewayError "rejected") /\
  r <> Ok true.
Proof.
  split.
  - do 3 eexists. split; [reflexivity|]. split; reflexivity.
  - vm_compute. repeat split. discriminate.
Qed.

(** A repeated "buy" signal with another price and other zones is ignored,
    and two polls that read "buy" twice after a processed "short" call
    [process_signal] once. *)
Lemma signal_deduplication_witness :
  (let '((sp', w'), r) :=
     process_signals_iteration
       (Some (mk_signal "buy" (PNum 51000) (PNum 3) (PNum 4))) 5
       (new_signal_processor (Some (mk_signal "buy" (PNum 50000) (PNum 1) (PNum 2))),
        sim_world quiet) in
   r = Ok false /\
   sp' = new_signal_processor (Some (mk_signal "buy" (PNum 50000) (PNum 1) (PNum 2))) /\
   sent w' = [] /\ handled w' = []) /\
  (let '((_, w'), _) :=
     process_signals_loop
       [Some (mk_signal "buy" (PNum 50000) (PNum 1) (PNum 2));
        Some (mk_signal "buy" (PNum 51000) (PNum 3) (PNum 4))] 5
       (new_signal_processor (Some (mk_signal "short" (PNum 50000) (PNum 1) (PNum 2))),
        sim_world quiet) in
   handled w' = [mk_signal "buy" (PNum 50000) (PNum 1) (PNum 2)]).
Proof.
  split.
  - apply (proj1 (signal_deduplication (G:=sim)
                    (new_signal_processor
                       (Some (mk_signal "buy" (PNum 50000) (PNum 1) (PNum 2))))
                    (sim_world quiet) 5)
             (mk_signal "buy" (PNum 50000) (PNum 1) (PNum 2))
             (mk_signal "buy" (PNum 51000) (PNum 3) (PNum 4)));
      reflexivity.
  - apply (proj2 (signal_deduplication (G:=sim)
                    (new_signal_processor
                       (Some (mk_signal "short" (PNum 50000) (PNum 1) (PNum 2))))
                    (sim_world quiet) 5)
             (mk_signal "buy" (PNum 50000) (PNum 1) (PNum 2))
             (mk_signal "buy" (PNum 51000) (PNum 3) (PNum 4))).
    + reflexivity.
    + intros old Hlast _ Htext. injection Hlast as <-. discriminate Htext.
    + reflexivity.
Defined.

(** A trade at time 1/2 and a truncated frame at time 7/2, watched from
    time 0: the pass at time 3 does nothing, and the pass at time 4
    reconnects although a frame has just arrived.  A feed that only delivers
    a truncated frame, watched from time 3: three passes, three reconnects. *)
Lemma watchdog_reconnects_every_stale_pass_witness :
  (exists acts,
     nth_error (snd (monitor_websocket (G:=sim)
                       [[(1 # 2, trade_message)]; []; []; [(7 # 2, truncated_message)]; []]
                       0 new_feed)) 2 = Some acts /\ acts = []) /\
  (exists acts,
     nth_error (snd (monitor_websocket (G:=sim)
                       [[(1 # 2, trade_message)]; []; []; [(7 # 2, truncated_message)]; []]
                       0 new_feed)) 3 = Some acts /\ acts = [WsClose; WsStartThread]) /\
  reconnects (snd (monitor_websocket (G:=sim) [[]; [(7 # 2, truncated_message)]; []]
                     3 new_feed)) = 3%nat.
Proof.
  assert (Hvalid : valid_trade (G:=sim) trade_message).
  { exists (PStr "50000.5"), (PStr "0.1"), true. eexists _, _.
    repeat split; reflexivity. }
  assert (Hinvalid : ~ valid_trade (G:=sim) truncated_message).
  { intros (p & q & m & price & qty & _ & Hq & _). discriminate Hq. }
  pose proof (@watchdog_reconnects_every_stale_pass sim sim_env
                [[(1 # 2, trade_message)]; []; []; [(7 # 2, truncated_message)]; []]
                0 new_feed) as (_ & Hpass & _).
  pose proof (@watchdog_reconnects_every_stale_pass sim sim_env
                [[]; [(7 # 2, truncated_message)]; []] 3 new_feed) as (_ & _ & Hsilent).
  split; [|split].
  - eexists. split; [reflexivity|].
    assert (Hlast : last_valid_at (G:=sim)
              (concat (firstn 3
                 [[(1 # 2, trade_message)]; []; []; [(7 # 2, truncated_message)]; []]))
              (last_update_time new_feed) (1 # 2)).
    { right. exists [], trade_message, [].
      split; [reflexivity|]. split; [exact Hvalid|constructor]. }
    apply (proj2 (Hpass 2%nat _ (1 # 2) eq_refl Hlast)).
    apply Qle_bool_iff. reflexivity.
  - eexists. split; [reflexivity|].
    assert (Hlast : last_valid_at (G:=sim)
              (concat (firstn 4
                 [[(1 # 2, trade_message)]; []; []; [(7 # 2, truncated_message)]; []]))
              (last_update_time new_feed) (1 # 2)).
    { right. exists [], trade_message, [(7 # 2, truncated_message)].
      split; [reflexivity|]. split; [exact Hvalid|].
      repeat constructor. exact Hinvalid. }
    apply (proj1 (Hpass 3%nat _ (1 # 2) eq_refl Hlast)).
    reflexivity.
  - apply Hsilent.
    + repeat constructor; exact Hinvalid.
    + reflexivity.
Defined.

(** C7, as stated, fails: with no message since time 0 the stale period
    spans the passes at times 4, 5 and 6, and each of them reconnects. *)
Lemma watchdog_reconnects_more_than_once :
  snd (monitor_websocket (G:=sim) (repeat [] 6) 0 new_feed)
    = [[]; []; []; [WsClose; WsStartThread]; [WsClose; WsStartThread];
       [WsClose; WsStartThread]] /\
  reconnects (snd (monitor_websocket (G:=sim) (repeat [] 6) 0 new_feed)) = 3%nat /\
  reconnects (snd (monitor_websocket (G:=sim) (repeat [] 6) 0 new_feed)) <> 1%nat.
Proof. vm_compute. repeat split. discriminate. Qed.

(** A "buy" signal at 50000 on a quiet gateway, the same signal on a
    gateway that refuses orders, and the same signal without its demand
    zone. *)
Lemma entry_construction_witness :
  (let '((_, w'), _) :=
     process_signal (mk_signal "buy" (PNum 50000) (PNum 1) (PNum 2))
       (new_signal_processor None, sim_world quiet) in
   sent w' =
     [RqFetchPositions; RqFetchOpenOrders "BTCUSD"; RqFetchOpenOrders "BTCUSD";
      RqFetchOpenOrders "BTCUSD";
      RqCreateOrder "BTCUSD" "limit" "buy" 1 (Some (50000 - 50)) (Some "gtc"%string);
      RqModifyBracket (IdStr "o-1") 27 "BTCUSD"
        {| br_stop_loss := 50000 - 500; br_take_profit := Some (50000 + 3000) |}]) /\
  (let '((_, w'), _) :=
     process_signal (mk_signal "short" (PNum 50000) (PNum 1) (PNum 2))
       (new_signal_processor None, sim_world (rejecting quiet)) in
   sent w' =
     [RqFetchPositions; RqFetchOpenOrders "BTCUSD"; RqFetchOpenOrders "BTCUSD";
      RqFetchOpenOrders "BTCUSD";
      RqCreateOrder "BTCUSD" "limit" "sell" 1 (Some (50000 + 50)) (Some "gtc"%string)]) /\
  (let '((_, w'), r) :=
     process_signal (mk_signal "buy" (PNum 50000) (PNum 1) PNone)
       (new_signal_processor None, sim_world quiet) in
   r = Ok None /\
   Forall (fun rq => is_create_order rq = false) (sent w')).
Proof.
  split; [|split].
  - pose proof (@entry_construction sim sim_env
                  (mk_signal "buy" (PNum 50000) (PNum 1) (PNum 2))
                  (new_signal_processor None, sim_world quiet) _ _ _ eq_refl) as Hentry.
    cbv zeta in Hentry.
    destruct (process_signal (mk_signal "buy" (PNum 50000) (PNum 1) (PNum 2)) _)
      as [[sp' w'] r].
    destruct Hentry as [_ Hentry].
    rewrite (proj1 (Hentry ltac:(discriminate) ltac:(discriminate) 50000 eq_refl) eq_refl).
    reflexivity.
  - pose proof (@entry_construction sim sim_env
                  (mk_signal "short" (PNum 50000) (PNum 1) (PNum 2))
                  (new_signal_processor None, sim_world (rejecting quiet)) _ _ _ eq_refl)
      as Hentry.
    cbv zeta in Hentry.
    destruct (process_signal (mk_signal "short" (PNum 50000) (PNum 1) (PNum 2)) _)
      as [[sp' w'] r].
    destruct Hentry as [_ Hentry].
    rewrite (proj2 (Hentry ltac:(discriminate) ltac:(discriminate) 50000 eq_refl) eq_refl).
    reflexivity.
  - pose proof (@entry_construction sim sim_env
                  (mk_signal "buy" (PNum 50000) (PNum 1) PNone)
                  (new_signal_processor None, sim_world quiet) _ _ _ eq_refl) as Hentry.
    cbv zeta in Hentry.
    destruct (process_signal (mk_signal "buy" (PNum 50000) (PNum 1) PNone) _)
      as [[sp' w'] r].
    destruct Hentry as [Hnone _].
    destruct (Hnone (or_intror eq_refl)) as [-> ->].
    split; [reflexivity|]. vm_compute. repeat constructor.
Defined.

(** An unforced buy while the gateway reports a long BTCUSD position, an
    unforced sell while the gateway reports a pending sell order, and an
    unforced buy while the local cache holds a recent pending buy. *)
Lemma place_market_order_guards_witness :
  (let '((_, w'), r) :=
     place_market_order "BTCUSD" "Buy" 1 (Some "ioc"%string) false
       ({| tm_order_manager := {| orders := ∅ |} |},
        sim_world (with_book [long_50000] [] quiet)) in
   r = Ok None /\
   exists l, sent w' = [] ++ l /\
             forallb (fun rq => negb (is_create_order rq)) l = true) /\
  (let '((_, w'), r) :=
     place_market_order "BTCUSD" "sell" 1 None false
       ({| tm_order_manager := {| orders := ∅ |} |},
        sim_world (with_book []
                     [{| eo_id := IdStr "o-7"; eo_side := "SELL"; eo_status := "open" |}]
                     quiet)) in
   r = Ok None /\
   exists l, sent w' = [] ++ l /\
             forallb (fun rq => negb (is_create_order rq)) l = true) /\
  (let '((_, w'), r) :=
     place_market_order "BTCUSD" "buy" 1 None false (cached_buy, sim_world quiet) in
   r = Ok None /\
   exists l, sent w' = [] ++ l /\
             forallb (fun rq => negb (is_create_order rq)) l = true).
Proof.
  split; [|split].
  - apply (proj1 (place_market_order_guards (G:=sim) "BTCUSD" "Buy" 1
                    (Some "ioc"%string) {| tm_order_manager := {| orders := ∅ |} |}
                    (sim_world (with_book [long_50000] [] quiet)))).
    left. exists [long_50000], long_50000.
    split; [reflexivity|]. split; [left; reflexivity|].
    split; [reflexivity|]. left. split; reflexivity.
  - apply (proj1 (place_market_order_guards (G:=sim) "BTCUSD" "sell" 1 None
                    {| tm_order_manager := {| orders := ∅ |} |}
                    (sim_world
                       (with_book []
                          [{| eo_id := IdStr "o-7"; eo_side := "SELL"; eo_status := "open" |}]
                          quiet)))).
    right. left. eexists _, _.
    split; [reflexivity|]. split; [left; reflexivity|]. reflexivity.
  - apply (proj1 (place_market_order_guards (G:=sim) "BTCUSD" "buy" 1 None
                    cached_buy (sim_world quiet))).
    right. right. eexists (IdStr "o-3"), _.
    split; [reflexivity|]. split; [discriminate|].
    split; [reflexivity|]. right. reflexivity.
Defined.

(** *** Instances of the further properties *)

(** Evaluating [long_50000] leaves the entries of another id alone. *)
Lemma update_trailing_stop_frame_witness :
  let self' := fst (update_trailing_stop (G:=sim) (new_profit_trailing 1) long_50000 51100) in
  position_trailing_stop self' !! IdStr "p2" = None /\
  excursion self' (IdStr "p2") = 0.
Proof.
  pose proof (update_trailing_stop_frame (G:=sim) (new_profit_trailing 1) long_50000 51100
                (IdStr "p2") ltac:(discriminate)) as (Hstop & Hexc & _).
  split; [exact Hstop|exact Hexc].
Defined.

(** [long_50000] at 51100: the stop is above the entry by more than 500. *)
Lemma stop_bounds_witness :
  exists self' stop ratio,
    update_trailing_stop (G:=sim) (new_profit_trailing 1) long_50000 51100
      = (self', Ok (Some (stop, ratio, lock_50))) /\
    50000 - 500 <= stop /\ 50000 + 500 <= stop.
Proof.
  eexists _, _, _. split; [reflexivity|].
  destruct (proj1 (stop_bounds (G:=sim) (new_profit_trailing 1) _ long_50000 51100 50000
                     _ _ _ eq_refl eq_refl) ltac:(reflexivity)) as [Hlow Hlock].
  split; [exact Hlow|exact (Hlock eq_refl)].
Defined.

(** A first pass while the feed has no price yet. *)
Lemma track_without_price_witness :
  let '((self', w'), r) :=
    track_iteration (new_profit_trailing 1, sim_world silent) in
  r = Ok tt /\
  position_max_profit self' = None /\
  last_display self' = ∅ /\
  pt_trade_manager self' = pt_trade_manager (new_profit_trailing 1) /\
  sent w' = [RqFetchPositions] /\
  gw w' = silent.
Proof.
  exact (track_without_price (G:=sim) (new_profit_trailing 1, sim_world silent) eq_refl).
Defined.

(** A first pass on a gateway that reports no position. *)
Lemma track_purge_when_flat_witness :
  let '((self', w'), r) :=
    track_iteration (new_profit_trailing 1, sim_world quiet) in
  cached_positions self' = [] /\
  r = Ok tt /\
  position_trailing_stop self' = ∅ /\
  last_had_positions self' = false.
Proof.
  pose proof (track_purge_when_flat (G:=sim) (new_profit_trailing 1, sim_world quiet)
                50000 eq_refl) as Hflat.
  cbv zeta in Hflat.
  assert (Hcached :
    cached_positions
      (fst (fst (track_iteration (new_profit_trailing 1, sim_world quiet)))) = [])
    by reflexivity.
  destruct (track_iteration (new_profit_trailing 1, sim_world quiet)) as [[self' w'] r].
  destruct (Hflat Hcached) as (Hr & Hstops & Hlast & _).
  repeat split; assumption.
Defined.

(** The stop of [long_50000] is crossed and the gateway refuses the close:
    the exception leaves [track] after the close order was sent. *)
Lemma track_position_healthy_witness :
  let '((_, w'), r) :=
    track_position 49400 long_50000 (new_profit_trailing 1, sim_world (rejecting quiet)) in
  match r with
  | Ok _ => True
  | Raise _ =>
      exists side amount l,
        sent w' = [] ++
          RqCreateOrder "BTCUSD" "market" side amount None (Some "ioc"%string) :: l
  end.
Proof.
  apply (track_position_healthy (G:=sim) 49400 long_50000 50000
           (new_profit_trailing 1, sim_world (rejecting quiet))).
  - reflexivity.
  - intros Hzero. vm_compute in Hzero. discriminate Hzero.
Defined.

(** An unforced buy on a flat book with an empty cache. *)
Lemma place_market_order_unblocked_witness :
  let '((_, w'), _) :=
    place_market_order "BTCUSD" "buy" 1 None false (no_orders, sim_world quiet) in
  exists l,
    sent w' = [] ++ [RqFetchPositions; RqFetchOpenOrders "BTCUSD";
                     RqCreateOrder "BTCUSD" "market" "buy" 1 None None] ++ l /\
    (l = [] \/ l = [RqFetchPositions]).
Proof.
  apply (place_market_order_unblocked (G:=sim) "BTCUSD" "buy" 1 None no_orders
           (sim_world quiet)).
  - intros ps p Hps Hin. injection Hps as <-. destruct Hin.
  - intros os o Hos Hin. injection Hos as <-. destruct Hin.
  - intros k o Hk. cbn in Hk. rewrite lookup_empty in Hk. discriminate Hk.
Defined.

(** A forced sell accepted by the gateway is cached under the gateway's id. *)
Lemma place_market_order_records_witness :
  let '((tm', _), r) :=
    place_market_order "BTCUSD" "sell" 1 (Some "ioc"%string) true
      (no_orders, sim_world quiet) in
  exists info, r = Ok (Some info) /\
    oi_symbol info = "BTCUSD"%string /\ oi_side info = "sell"%string /\
    oi_amount info = Some 1 /\
    orders (tm_order_manager tm') !! oi_id info = Some info.
Proof.
  pose proof (place_market_order_records (G:=sim) "BTCUSD" "sell" 1 (Some "ioc"%string)
                true no_orders (sim_world quiet)) as Hrec.
  cbv zeta in Hrec. revert Hrec.
  destruct (place_market_order "BTCUSD" "sell" 1 (Some "ioc"%string) true
              (no_orders, sim_world quiet)) as [[tm' w'] r] eqn:Hrun.
  intros Hrec.
  assert (Hr : exists info, r = Ok (Some info)).
  { apply (f_equal snd) in Hrun. cbn [snd] in Hrun. rewrite <- Hrun.
    eexists. vm_compute. reflexivity. }
  destruct Hr as [info Hinfo]. exists info. split; [exact Hinfo|].
  destruct (Hrec info Hinfo) as (Hsym & Hside & Hamount & _ & _ & Hcache).
  repeat split; assumption.
Defined.

(** A long BTCUSD position is reported: the query answers true and an
    unforced buy is skipped. *)
Lemma has_open_position_blocks_witness :
  snd (has_open_position (G:=sim) "BTCUSD" "buy"
         (sim_world (with_book [long_50000] [] quiet))) = Ok true /\
  snd (place_market_order "BTCUSD" "buy" 1 None false
         (no_orders, sim_world (with_book [long_50000] [] quiet))) = Ok None.
Proof.
  split; [reflexivity|].
  generalize (has_open_position_blocks (G:=sim) "BTCUSD" "buy" 1 None no_orders
                (sim_world (with_book [long_50000] [] quiet))).
  cbv zeta.
  destruct (has_open_position "BTCUSD" "buy" (sim_world (with_book [long_50000] [] quiet)))
    as [w1 r1] eqn:Hrun.
  intros (_ & b & Hb & Hblock).
  assert (Hr1 : r1 = Ok true).
  { apply (f_equal snd) in Hrun. cbn [snd] in Hrun. rewrite <- Hrun. reflexivity. }
  rewrite Hr1 in Hb. injection Hb as <-.
  rewrite (Hblock eq_refl). reflexivity.
Defined.

(** A signal that names no side. *)
Lemma non_actionable_signal_witness :
  let '((sp', w'), r) :=
    process_signal (mk_signal "hold" (PNum 50000) (PNum 1) (PNum 2))
      (new_signal_processor None, sim_world quiet) in
  r = Ok None /\ sp' = new_signal_processor None /\
  sent w' = [] ++
    [RqFetchPositions; RqFetchOpenOrders "BTCUSD"; RqFetchOpenOrders "BTCUSD"].
Proof.
  apply (non_actionable_signal (G:=sim) (mk_signal "hold" (PNum 50000) (PNum 1) (PNum 2))
           (new_signal_processor None, sim_world quiet) (PNum 50000));
    reflexivity.
Defined.

(** A take-profit signal while a long position is in loss. *)
Lemma take_profit_only_closes_witness :
  let '((_, w'), r) :=
    process_signal (mk_signal "TP hit" (PNum 49000) (PNum 1) (PNum 2))
      (new_signal_processor None,
       sim_world (at_price 100 49000 (with_book [long_50000] [] quiet))) in
  r = Ok None /\ exists l, sent w' = [] ++ l /\ Forall engine_request l.
Proof.
  apply (take_profit_only_closes (G:=sim)
           (mk_signal "TP hit" (PNum 49000) (PNum 1) (PNum 2))
           (new_signal_processor None,
            sim_world (at_price 100 49000 (with_book [long_50000] [] quiet)))).
  reflexivity.
Defined.

(** A signal without a price while the feed has none either. *)
Lemma process_signal_unpriced_witness :
  process_signal (mk_signal "buy" PNone (PNum 1) (PNum 2))
    (new_signal_processor None, sim_world silent)
  = ((new_signal_processor None, sim_world silent), Ok None).
Proof.
  apply (process_signal_unpriced (G:=sim) (mk_signal "buy" PNone (PNum 1) (PNum 2))
           (new_signal_processor None, sim_world silent)).
  right. reflexivity.
Defined.

(** A buy signal while the gateway reports a short position. *)
Lemma opposite_closed_first_witness :
  starts_with sent_of
    [RqFetchPositions;
     RqCreateOrder "BTCUSD" "market" "buy" (Qabs (-1)) None (Some "ioc"%string)]
    (process_signal (mk_signal "buy" (PNum 50000) (PNum 1) (PNum 2)))
    (new_signal_processor None, sim_world (with_book [short_50000] [] quiet)).
Proof.
  apply (proj1 (@opposite_closed_first sim sim_env
                  (mk_signal "buy" (PNum 50000) (PNum 1) (PNum 2))
                  (new_signal_processor None,
                   sim_world (with_book [short_50000] [] quiet))
                  (PNum 50000) (with_book [short_50000] [] quiet) short_50000 [] (-1)
                  eq_refl eq_refl eq_refl eq_refl eq_refl eq_refl));
    reflexivity.
Defined.

(** A new buy against a book with an open sell and an open buy. *)
Lemma conflict_cleanup_witness :
  (let '(w', r) :=
     cancel_conflicting_orders "BTCUSD" (Some "buy"%string)
       (sim_world (with_book [] two_sided_book quiet)) in
   r = Ok tt /\
   sent w' = [RqFetchOpenOrders "BTCUSD"; RqCancelOrder (IdStr "o-7") "BTCUSD"]) /\
  (let '(w', r) :=
     cancel_same_side_orders "BTCUSD" (Some "buy"%string)
       (sim_world (with_book [] two_sided_book quiet)) in
   r = Ok tt /\
   sent w' = [RqFetchOpenOrders "BTCUSD"; RqCancelOrder (IdStr "o-8") "BTCUSD"]) /\
  (forall o, xorb (conflicts_with "buy" o) (stacks_on "buy" o) = is_open o).
Proof.
  pose proof (conflict_cleanup (G:=sim) "BTCUSD" "buy"
                (sim_world (with_book [] two_sided_book quiet)))
    as (Hconflicting & Hsame & Hsplit).
  split; [exact Hconflicting|]. split; [exact Hsame|].
  apply Hsplit. discriminate.
Defined.

(** A buy signal whose price is the text "abc", and one whose price is
    the integer 2^1024. *)
Lemma process_signal_raises_only_from_price_witness :
  (snd (process_signal (mk_signal "buy" (PStr "abc") (PNum 1) (PNum 2))
          (new_signal_processor None, sim_world quiet)) = Raise ValueError /\
   side_of (mk_signal "buy" (PStr "abc") (PNum 1) (PNum 2)) <> None) /\
  (snd (process_signal (mk_signal "short" (PNum (inject_Z (2 ^ 1024))) (PNum 1) (PNum 2))
          (new_signal_processor None, sim_world quiet)) = Raise OverflowError /\
   side_of (mk_signal "short" (PNum (inject_Z (2 ^ 1024))) (PNum 1) (PNum 2)) <> None).
Proof.
  assert (Hlive : forall live,
            current_price (gw (snd (new_signal_processor None, sim_world quiet)))
              = Some live -> Qabs live < float_limit).
  { intros live Hcur. injection Hcur as <-. apply Qltb_lt. vm_compute. reflexivity. }
  split.
  - assert (Hrun : snd (process_signal (mk_signal "buy" (PStr "abc") (PNum 1) (PNum 2))
                          (new_signal_processor None, sim_world quiet))
                   = Raise ValueError) by (vm_compute; reflexivity).
    split; [exact Hrun|].
    exact (proj1 (proj2 (@process_signal_raises_only_from_price sim sim_env
                           (mk_signal "buy" (PStr "abc") (PNum 1) (PNum 2))
                           (new_signal_processor None, sim_world quiet) ValueError
                           Hlive Hrun))).
  - assert (Hrun : snd (process_signal
                          (mk_signal "short" (PNum (inject_Z (2 ^ 1024))) (PNum 1) (PNum 2))
                          (new_signal_processor None, sim_world quiet))
                   = Raise OverflowError) by (vm_compute; reflexivity).
    split; [exact Hrun|].
    exact (proj1 (proj2 (@process_signal_raises_only_from_price sim sim_env
                           (mk_signal "short" (PNum (inject_Z (2 ^ 1024))) (PNum 1) (PNum 2))
                           (new_signal_processor None, sim_world quiet) OverflowError
                           Hlive Hrun))).
Defined.

(** A feed that has a price receives a truncated message and is watched
    for two passes. *)
Lemma feed_price_never_lost_witness :
  fd_current_price
    (fst (monitor_websocket (G:=sim) [[(1 # 2, truncated_message)]; []] 0
            {| fd_current_price := Some 50000; last_update_time := 0 |})) <> None.
Proof.
  apply (feed_price_never_lost (G:=sim)). discriminate.
Defined.

(** Two passes, each with a trade handled half a second before the check. *)
Lemma fresh_feed_not_reconnected_witness :
  snd (monitor_websocket (G:=sim)
         [[(1 # 2, trade_message)]; [(1, truncated_message); (3 # 2, trade_message)]]
         0 new_feed)
  = [[]; []].
Proof.
  apply (fresh_feed_not_reconnected (G:=sim)
           [[(1 # 2, trade_message)]; [(1, truncated_message); (3 # 2, trade_message)]]
           0 new_feed).
  assert (Hvalid : valid_trade (G:=sim) trade_message).
  { exists (PStr "50000.5"), (PStr "0.1"), true. eexists _, _.
    repeat split; reflexivity. }
  split; [|split; [|exact I]].
  - exists [], (1 # 2), trade_message.
    split; [reflexivity|]. split; [exact Hvalid|]. apply Qle_bool_iff. reflexivity.
  - exists [(1, truncated_message)], (3 # 2), trade_message.
    split; [reflexivity|]. split; [exact Hvalid|]. apply Qle_bool_iff. reflexivity.
Defined.

(** A profit of 1.2 % selects the level that starts at 1 %. *)
Lemma get_trailing_config_spec_witness :
  exists lvl,
    get_trailing_config (12 # 1000) = Some lvl /\
    In lvl (levels PROFIT_TRAILING_CONFIG) /\
    min_profit_pct lvl <= 12 # 1000 /\
    trailing_stop_offset lvl = Some (6 # 1000).
Proof.
  eexists. split; [reflexivity|].
  destruct (proj1 (proj2 (get_trailing_config_spec (12 # 1000))) _ eq_refl)
    as (Hin & Hle & _).
  split; [exact Hin|]. split; [exact Hle|reflexivity].
Defined.
